(** * Tabular-data helpers of [fetch-analytics/utils.py]

    A shallow embedding of the six helper routines of [utils.py]
    (column-width estimator, previewer, column-name sanitizer, column
    renamer, line-delimited JSON loader, epoch converter) and the
    properties their specification states about them.

    Conventions.
    - A Python [str] is a list of Unicode code points ([list N]); string
      literals of the source are written [lit "..."].
    - A Python [dict] whose iteration order or error messages matter is an
      association list with pairwise distinct keys, in insertion order; the
      width map, which is only ever looked up, is a [gmap].
    - Code that raises returns an [outcome]; code that mutates an argument
      in place returns the final state of that argument next to its
      outcome, also when it raises.
    - The table library, the regular-expression engine and the interpreter's
      Unicode tables are collaborators of the module: the part of their
      behaviour the module relies on is written out, and what lies outside
      is a variable of the section that uses it. *)

From Stdlib Require Import ZArith NArith List Bool Ascii String DecimalString Lia.
From Stdlib Require Import Uint63 PrimFloat FloatOps SpecFloat Sorted.
From stdpp Require Import base option list gmap.

Local Open Scope N_scope.

(** ** Python strings *)

Abbreviation pystr := (list N).

Definition lit (s : string) : pystr := map N_of_ascii (list_ascii_of_string s).

(** [str(n)] for a Python [int]. *)
Definition str_int (z : Z) : pystr := lit (NilZero.string_of_int (Z.to_int z)).

Definition hex_digit (d : N) : N := if d <? 10 then 48 + d else 87 + d.

(** [width] lowercase hexadecimal digits of [n], most significant first. *)
Fixpoint hex_fixed (width : nat) (n : N) : pystr :=
  match width with
  | O => []
  | S w => hex_fixed w (n / 16) ++ [hex_digit (n mod 16)]
  end.

(** [s.join(parts)]. *)
Fixpoint py_join (sep : pystr) (parts : list pystr) : pystr :=
  match parts with
  | [] => []
  | [p] => p
  | p :: rest => p ++ sep ++ py_join sep rest
  end.

(** Comparison of two strings, code point by code point ([a <= b]). *)
Fixpoint pystr_leb (a b : pystr) : bool :=
  match a, b with
  | [], _ => true
  | _ :: _, [] => false
  | x :: a', y :: b' => if x <? y then true else if y <? x then false else pystr_leb a' b'
  end.

Fixpoint sorted_insert (x : pystr) (l : list pystr) : list pystr :=
  match l with
  | [] => [x]
  | y :: l' => if pystr_leb x y then x :: l else y :: sorted_insert x l'
  end.

(** [sorted(names)] for a list of strings. *)
Definition py_sorted (l : list pystr) : list pystr := foldr sorted_insert [] l.

(** ** Exceptions and outcomes *)

Inductive exn : Type :=
| ValueError (msg : pystr)
| KeyError (key : pystr)
| PyException (msg : pystr)
| UnicodeEncodeError
| ReError
| JSONDecodeError (lineno : nat)
| OSError
| OverflowError
| LibraryError (code : N).

Inductive outcome (A : Type) : Type :=
| Return (a : A)
| Raise (e : exn).
Arguments Return {A} a.
Arguments Raise {A} e.

Definition bind {A B} (m : outcome A) (k : A -> outcome B) : outcome B :=
  match m with
  | Return a => k a
  | Raise e => Raise e
  end.

Notation "'do' x <- m ; k" := (bind m (fun x => k))
  (at level 10, x name, m at level 100, k at level 200).

Fixpoint map_outcome {A B} (f : A -> outcome B) (l : list A) : outcome (list B) :=
  match l with
  | [] => Return []
  | a :: l' => do b <- f a; do bs <- map_outcome f l'; Return (b :: bs)
  end.

(** ** Tables *)

(** Cell values: the Python objects an [object] column holds.  [VNone] and
    [VNaN] are the nulls of the table library. *)
Inductive pyval : Type :=
| VNone
| VNaN
| VBool (b : bool)
| VInt (z : Z)
| VStr (s : pystr).

(** Row labels: an integer, a string, or a tuple of those, as the rows of
    a hierarchical index carry. *)
Inductive atom : Type :=
| AInt (z : Z)
| AStr (s : pystr).

Inductive label : Type :=
| LInt (z : Z)
| LStr (s : pystr)
| LTuple (parts : list atom).

Record Series : Type := mkSeries {
  name : pystr;
  dtype : pystr;
  cells : list pyval
}.

Record DataFrame : Type := mkDataFrame {
  index_name : option pystr;
  index : list label;
  columns : list Series
}.

(** Every column is as long as the row index. *)
Definition wf_df (df : DataFrame) : Prop :=
  Forall (fun s => length (cells s) = length (index df)) (columns df).

Definition col_names (df : DataFrame) : list pystr := map name (columns df).

(** [df.empty]: some axis has length zero. *)
Definition df_empty (df : DataFrame) : bool :=
  match index df, columns df with
  | [], _ => true
  | _, [] => true
  | _, _ => false
  end.

(** [df[col]]: the columns carrying that label. *)
Definition getitem (df : DataFrame) (col : pystr) : list Series :=
  filter (fun s => name s = col) (columns df).

Definition isnull (v : pyval) : bool :=
  match v with
  | VNone | VNaN => true
  | _ => false
  end.

(** [str(v)], what [.astype('str')] stores for a non-null cell. *)
Definition astype_str (v : pyval) : pystr :=
  match v with
  | VNone => lit "None"
  | VNaN => lit "nan"
  | VBool true => lit "True"
  | VBool false => lit "False"
  | VInt z => str_int z
  | VStr s => s
  end.

(** ** [repr] of a string and UTF-8 *)

Section Repr.

(** The interpreter's table of printable code points, consulted by [repr]
    for code points outside ASCII only. *)
Variable uni_printable : N -> bool.

Definition is_surrogate (c : N) : bool := (55296 <=? c) && (c <=? 57343).

(** Surrogates (category Cs) are never printable. *)
Definition py_isprintable (c : N) : bool := negb (is_surrogate c) && uni_printable c.

(** The quote [repr] chooses: a double quote only when the string has a
    single quote and no double quote. *)
Definition repr_quote (s : pystr) : N :=
  if existsb (N.eqb 39) s && negb (existsb (N.eqb 34) s) then 34 else 39.

Definition repr_char (quote ch : N) : pystr :=
  if (ch =? quote) || (ch =? 92) then [92; ch]
  else if ch =? 9 then [92; 116]
  else if ch =? 10 then [92; 110]
  else if ch =? 13 then [92; 114]
  else if (ch <? 32) || (ch =? 127) then [92; 120] ++ hex_fixed 2 ch
  else if ch <? 127 then [ch]
  else if py_isprintable ch then [ch]
  else if ch <=? 255 then [92; 120] ++ hex_fixed 2 ch
  else if ch <=? 65535 then [92; 117] ++ hex_fixed 4 ch
  else [92; 85] ++ hex_fixed 8 ch.

(** The literal without its quotes. *)
Definition repr_body (s : pystr) : pystr := flat_map (repr_char (repr_quote s)) s.

(** [repr(s)] for a string [s]. *)
Definition py_repr_str (s : pystr) : pystr :=
  [repr_quote s] ++ repr_body s ++ [repr_quote s].

(** [s[1:-1]]. *)
Definition slice_1_m1 {A} (s : list A) : list A := take (length s - 1 - 1) (drop 1 s).

(** UTF-8 bytes of one code point; a lone surrogate cannot be encoded. *)
Definition utf8_char (c : N) : option (list N) :=
  if c <? 128 then Some [c]
  else if c <? 2048 then Some [192 + c / 64; 128 + c mod 64]
  else if c <? 65536 then
    if is_surrogate c then None
    else Some [224 + c / 4096; 128 + (c / 64) mod 64; 128 + c mod 64]
  else Some [240 + c / 262144; 128 + (c / 4096) mod 64; 128 + (c / 64) mod 64; 128 + c mod 64].

(** [s.encode('utf-8')]. *)
Fixpoint utf8_encode (s : pystr) : outcome (list N) :=
  match s with
  | [] => Return []
  | c :: s' =>
      match utf8_char c with
      | None => Raise UnicodeEncodeError
      | Some bs => do rest <- utf8_encode s'; Return (bs ++ rest)
      end
  end.

(** [_to_literal], the helper nested in [calc_col_lengths]. *)
Definition _to_literal (val : pystr) : outcome (list N) :=
  let ans := py_repr_str val in
  utf8_encode (slice_1_m1 ans).

(** [repr] of a cell value (Python objects). *)
Definition py_repr (v : pyval) : pystr :=
  match v with
  | VStr s => py_repr_str s
  | _ => astype_str v
  end.

(** [str(l)] for a list of strings. *)
Definition str_list (l : list pystr) : pystr :=
  lit "[" ++ py_join (lit ", ") (map py_repr_str l) ++ lit "]".

End Repr.

(** ** Column-width estimator *)

(** What [.max()] hands back: a number (an integer, or NaN for an empty
    selection) or some other object. *)
Inductive pynumber : Type :=
| NumInt (n : Z)
| NumNaN.

Inductive maxval : Type :=
| MNumber (x : pynumber)
| MOther.

(** [Series.max()] of a column of lengths. *)
Definition series_max (l : list Z) : pynumber :=
  match l with
  | [] => NumNaN
  | x :: l' => NumInt (foldl Z.max x l')
  end.

(** [int(max_length + max_length * buffer_percentage)] with
    [buffer_percentage = 0.01], in exact arithmetic: [int] truncates, and
    refuses NaN with a [ValueError]. *)
Definition buffered_int (x : pynumber) : outcome Z :=
  match x with
  | NumInt n => Return (Z.quot (100 * n + n) 100)
  | NumNaN => Raise (ValueError (lit "cannot convert float NaN to integer"))
  end.

(** The same conversion in binary64, as the interpreter carries it out:
    the length as a float, times the float nearest to 0.01, plus the
    length, truncated. *)
Definition float_trunc (f : float) : option Z :=
  match Prim2SF f with
  | S754_zero _ => Some 0%Z
  | S754_finite s m e =>
      let mag := if (0 <=? e)%Z then Z.shiftl (Z.pos m) e else Z.shiftr (Z.pos m) (- e) in
      Some (if s then (- mag)%Z else mag)
  | _ => None
  end.

Definition buffered_int_binary64 (n : Z) : option Z :=
  let max_length := PrimFloat.of_uint63 (Uint63.of_Z n) in
  float_trunc (PrimFloat.add max_length (PrimFloat.mul max_length 0x1.47ae147ae147bp-7%float)).

Definition binary64_agrees (n : Z) : bool :=
  match buffered_int_binary64 n, buffered_int (NumInt n) with
  | Some z, Return z' => (z =? z')%Z
  | _, _ => false
  end.

Section ColumnWidths.

Variable uni_printable : N -> bool.

(** What the selection pipeline yields for a label carried by several
    columns, where [df[col]] is a table and not a column. *)
Variable dup_label_max : DataFrame -> pystr -> outcome maxval.

(** [s[~s.isnull()].astype('str').apply(_to_literal).str.len().max()] *)
Definition column_pipeline (s : Series) : outcome maxval :=
  do lits <- map_outcome (_to_literal uni_printable)
               (map astype_str (filter (fun v => isnull v = false) (cells s)));
  Return (MNumber (series_max (map (fun b : list N => Z.of_nat (length b)) lits))).

Definition column_max_length (df : DataFrame) (col : pystr) : outcome maxval :=
  match getitem df col with
  | [s] => column_pipeline s
  | _ => dup_label_max df col
  end.

(** The body of the loop after [max_length] is known: the [isinstance]
    guard and the [try]/[except ValueError]. *)
Definition store_length (m : gmap pystr Z) (col : pystr) (max_length : maxval)
  : outcome (gmap pystr Z) :=
  match max_length with
  | MNumber x =>
      match buffered_int x with
      | Return n => Return (<[col := n]> m)
      | Raise (ValueError _) => Return (<[col := 0%Z]> m)
      | Raise e => Raise e
      end
  | MOther => Return m
  end.

Fixpoint calc_loop (df : DataFrame) (df_cols : list pystr) (col_lengths_map : gmap pystr Z)
  : outcome (gmap pystr Z) :=
  match df_cols with
  | [] => Return col_lengths_map
  | col :: rest =>
      do max_length <- column_max_length df col;
      do m <- store_length col_lengths_map col max_length;
      calc_loop df rest m
  end.

Definition calc_col_lengths (df : DataFrame) : outcome (gmap pystr Z) :=
  if df_empty df then Return ∅
  else calc_loop df (col_names df) ∅.

End ColumnWidths.

(** ** Logging sink *)

Inductive level : Type := INFO | WARNING.

Abbreviation log_record := (level * pystr)%type.

(** ** Previewer *)

#[global] Instance atom_eq_dec : EqDecision atom.
Proof. solve_decision. Defined.

#[global] Instance label_eq_dec : EqDecision label.
Proof. solve_decision. Defined.

(** [l[:n]] *)
Definition py_prefix {A} (n : Z) (l : list A) : list A :=
  if (0 <=? n)%Z then take (Z.to_nat n) l
  else take (length l - Z.to_nat (- n)) l.

(** [df.head(num_rows)]; [None] keeps every row. *)
Definition df_head (df : DataFrame) (num_rows : option Z) : DataFrame :=
  match num_rows with
  | None => df
  | Some n =>
      mkDataFrame (index_name df) (py_prefix n (index df))
        (map (fun s => mkSeries (name s) (dtype s) (py_prefix n (cells s))) (columns df))
  end.

(** [Index.is_unique] *)
Definition is_unique {A} `{EqDecision A} (l : list A) : bool := bool_decide (NoDup l).

(** Position of the first row carrying a label. *)
Fixpoint row_position (idx : label) (rows : list label) : option nat :=
  match rows with
  | [] => None
  | r :: rows' => if bool_decide (r = idx) then Some O else S <$> row_position idx rows'
  end.

(** [is_scalar] of a row label: a tuple is no scalar. *)
Definition is_scalar (idx : label) : bool :=
  match idx with
  | LTuple _ => false
  | _ => true
  end.

(** What a lookup hands back: a cell, or, from the fallback on repeated
    labels, a slice of the table (a row, a column or a sub-table), known
    here by its [repr]. *)
Inductive looked_up : Type :=
| Cell (v : pyval)
| Slice (repr : pystr).

(** [str(df.shape)] *)
Definition str_shape (df : DataFrame) : pystr :=
  lit "(" ++ str_int (Z.of_nat (length (index df))) ++ lit ", "
    ++ str_int (Z.of_nat (length (columns df))) ++ lit ")".

Record preview_run : Type := mkPreviewRun {
  pv_table : DataFrame;
  pv_log : list log_record;
  pv_result : outcome DataFrame
}.

Section Preview.

Variable uni_printable : N -> bool.
Variable dup_label_max : DataFrame -> pystr -> outcome maxval.

(** What [df.loc[idx, col]] hands back for a scalar row label when the
    row labels or the column names are not unique. *)
Variable loc_ambiguous : DataFrame -> label -> pystr -> looked_up.

(** [repr] of a part of a tuple label. *)
Definition repr_atom (a : atom) : pystr :=
  match a with
  | AInt z => str_int z
  | AStr s => py_repr_str uni_printable s
  end.

(** [str(idx)], as an f-string interpolates a row label. *)
Definition str_label (idx : label) : pystr :=
  match idx with
  | LInt z => str_int z
  | LStr s => s
  | LTuple [a] => lit "(" ++ repr_atom a ++ lit ",)"
  | LTuple parts => lit "(" ++ py_join (lit ", ") (map repr_atom parts) ++ lit ")"
  end.

Definition repr_looked_up (val : looked_up) : pystr :=
  match val with
  | Cell v => py_repr uni_printable v
  | Slice r => r
  end.

(** [df.at[idx, col]].  With unique labels on both axes it is the cell.
    Otherwise the accessor falls back to [.loc] when the row label is a
    scalar, and refuses a tuple with a [ValueError]. *)
Definition df_at (df : DataFrame) (idx : label) (col : pystr) : outcome looked_up :=
  if is_unique (index df) && is_unique (col_names df) then
    match row_position idx (index df), getitem df col with
    | Some i, [s] =>
        match cells s !! i with
        | Some v => Return (Cell v)
        | None => Raise (KeyError (str_label idx))
        end
    | None, _ => Raise (KeyError (str_label idx))
    | _, _ => Raise (KeyError col)
    end
  else if is_scalar idx then Return (loc_ambiguous df idx col)
  else Raise (ValueError (lit "Invalid call for scalar access (getting)!")).

(** The message built in the [except ValueError] branch. *)
Definition lookup_error_message (df : DataFrame) (idx : label) (col : pystr) : pystr :=
  let msg := lit "Could not get value at (" ++ str_label idx ++ lit ", " ++ col ++ lit ")." in
  let msg :=
    if negb (is_unique (index df)) then
      msg ++ lit " Index is not unique; you may need to specify a "
          ++ lit "different index column(s) or set index_col=False when "
          ++ lit "creating the DataFrame."
    else msg in
  if negb (is_unique (col_names df)) then
    msg ++ lit " Column names are not unique; you may need to rename "
        ++ lit "duplicate columns or specify fixed column names when "
        ++ lit "creating the DataFrame: "
        ++ str_list uni_printable (py_sorted (col_names df)) ++ lit "."
  else msg.

(** One line of the report for a selected column. *)
Definition column_line (columns_only calculate_lengths : bool)
    (col_lengths_map : gmap pystr Z) (col_counter : Z) (col dtype_ : pystr)
    (val : looked_up) : pystr :=
  if columns_only then lit "    '" ++ col ++ lit "',"
  else if calculate_lengths then
    lit "    " ++ str_int col_counter ++ lit ". '" ++ col ++ lit "' (" ++ dtype_ ++ lit ": "
      ++ str_int (default 0%Z (col_lengths_map !! col)) ++ lit "): "
      ++ repr_looked_up val
  else
    lit "    " ++ str_int col_counter ++ lit ". '" ++ col ++ lit "' (" ++ dtype_ ++ lit "): "
      ++ repr_looked_up val.

(** The inner loop over [zip(df_cols, df_types)]. *)
Fixpoint preview_columns (df : DataFrame) (cols : list pystr)
    (columns_only calculate_lengths : bool) (col_lengths_map : gmap pystr Z)
    (idx : label) (col_counter : Z) (zipped : list (pystr * pystr))
    (print_lines : list pystr) : outcome (list pystr) :=
  match zipped with
  | [] => Return print_lines
  | (col, dtype_) :: rest =>
      let col_counter := (col_counter + 1)%Z in
      if negb (bool_decide (col ∈ cols)) then
        preview_columns df cols columns_only calculate_lengths col_lengths_map
          idx col_counter rest print_lines
      else
        match df_at df idx col with
        | Raise (ValueError _) => Raise (ValueError (lookup_error_message df idx col))
        | Raise e => Raise e
        | Return val =>
            preview_columns df cols columns_only calculate_lengths col_lengths_map
              idx col_counter rest
              (print_lines ++
                 [column_line columns_only calculate_lengths col_lengths_map
                    col_counter col dtype_ val])
        end
  end.

(** The outer loop over [df.head(num_rows).iterrows()]. *)
Fixpoint preview_rows (df : DataFrame) (cols : list pystr)
    (columns_only calculate_lengths : bool) (col_lengths_map : gmap pystr Z)
    (rows : list label) (print_lines : list pystr) : outcome (list pystr) :=
  match rows with
  | [] => Return print_lines
  | idx :: rows' =>
      do lines <- preview_columns df cols columns_only calculate_lengths col_lengths_map
                    idx 0%Z (zip (col_names df) (map dtype (columns df)))
                    (print_lines ++ [lit "Row: " ++ str_label idx]);
      preview_rows df cols columns_only calculate_lengths col_lengths_map rows' lines
  end.

Definition truthy_str (s : option pystr) : bool :=
  match s with
  | Some (_ :: _) => true
  | _ => false
  end.

Definition preview_header (df : DataFrame) (tag : option pystr) : list pystr :=
  [ if truthy_str tag
    then [10] ++ lit "----- DATAFRAME PREVIEW (tag: " ++ default [] tag ++ lit ") -----"
    else [10] ++ lit "----- DATAFRAME PREVIEW -----";
    lit "DF shape: " ++ str_shape df;
    if truthy_str (index_name df)
    then lit "Index name: " ++ default [] (index_name df)
    else lit "No index name defined" ].

(** The report, or the exception that interrupts it. *)
Definition preview_report (df : DataFrame) (cols : option (list pystr)) (num_rows : option Z)
    (columns_only : bool) (tag : option pystr) (calculate_lengths : bool)
  : outcome pystr :=
  let cols := default (col_names df) cols in
  let print_lines := preview_header df tag in
  do col_lengths_map <-
       (if calculate_lengths
        then calc_col_lengths uni_printable dup_label_max (df_head df num_rows)
        else Return ∅);
  do print_lines <- preview_rows df cols columns_only calculate_lengths col_lengths_map
                      (index (df_head df num_rows)) print_lines;
  Return (py_join [10] print_lines).

(** [pd_preview]: the table is only read; the report goes to the log and
    the table is handed back. *)
Definition pd_preview (df : DataFrame) (cols : option (list pystr)) (num_rows : option Z)
    (columns_only : bool) (tag : option pystr) (calculate_lengths : bool) : preview_run :=
  match preview_report df cols num_rows columns_only tag calculate_lengths with
  | Return text => mkPreviewRun df [(INFO, text)] (Return df)
  | Raise e => mkPreviewRun df [] (Raise e)
  end.

End Preview.

(** ** Renaming columns in place *)

Abbreviation pydict := (list (pystr * pystr)).

(** [d.get(k)] *)
Fixpoint dict_get (d : pydict) (k : pystr) : option pystr :=
  match d with
  | [] => None
  | (k', v) :: d' => if bool_decide (k' = k) then Some v else dict_get d' k
  end.

(** [d[k] = v]: an existing key keeps its place. *)
Fixpoint dict_set (d : pydict) (k v : pystr) : pydict :=
  match d with
  | [] => [(k, v)]
  | (k', v') :: d' => if bool_decide (k' = k) then (k, v) :: d' else (k', v') :: dict_set d' k v
  end.

(** [del d[k]] for a key of [d]. *)
Definition dict_del (d : pydict) (k : pystr) : pydict :=
  filter (fun kv => kv.1 ≠ k) d.

(** [df.rename(columns=rename_map, inplace=True)]: every column label that
    is a key is replaced by its value. *)
Definition rename_columns (rename_map : pydict) (df : DataFrame) : DataFrame :=
  mkDataFrame (index_name df) (index df)
    (map (fun s => mkSeries (default (name s) (dict_get rename_map (name s))) (dtype s) (cells s))
       (columns df)).

(** [del df[key]]: every column carrying the label goes; an absent label
    is a [KeyError]. *)
Definition delitem (df : DataFrame) (key : pystr) : outcome DataFrame :=
  if bool_decide (key ∈ col_names df) then
    Return (mkDataFrame (index_name df) (index df)
              (filter (fun s => name s ≠ key) (columns df)))
  else Raise (KeyError key).

(** ** Regular expressions: one character set *)

(** The engine is modelled on patterns that consist of one bracketed
    character set, which is what the sanitizer builds for a special set
    without alphanumeric escapes. *)
Inductive re_token : Type :=
| TChar (c : N)
| TEsc (c : N).

Inductive set_item : Type :=
| SLiteral (c : N)
| SRange (lo hi : N).

Inductive re_set : Type :=
| SetOk (negate : bool) (items : list set_item)
| SetError
| SetOutside.

(** The tokenizer: a backslash takes the next character with it; a
    pattern may not end in a lone backslash. *)
Fixpoint re_tokens (s : pystr) : option (list re_token) :=
  match s with
  | [] => Some []
  | c :: s' =>
      if c =? 92 then
        match s' with
        | [] => None
        | e :: s'' => cons (TEsc e) <$> re_tokens s''
        end
      else cons (TChar c) <$> re_tokens s'
  end.

Definition is_ascii_alnum (c : N) : bool :=
  ((48 <=? c) && (c <=? 57)) || ((65 <=? c) && (c <=? 90)) || ((97 <=? c) && (c <=? 122)).

(** A set member from one token: a plain character, or an escaped
    character that is no ASCII letter or digit (those name classes,
    control characters and numeric escapes, which are not modelled). *)
Definition set_code (t : re_token) : option N :=
  match t with
  | TChar c => Some c
  | TEsc c => if is_ascii_alnum c then None else Some c
  end.

Definition is_char (c : N) (t : re_token) : bool :=
  match t with
  | TChar c' => c' =? c
  | TEsc _ => false
  end.

Definition close_set (negate : bool) (items : list set_item) (rest : list re_token) : re_set :=
  match rest with
  | [] => SetOk negate items
  | _ => SetOutside
  end.

(** The members of a set, after its opening bracket and optional [^]: a
    closing bracket that is not the first member ends the set; a hyphen
    between two members makes a range, before the closing bracket it is a
    member itself. *)
Fixpoint parse_set (negate first : bool) (items : list set_item) (toks : list re_token)
  : re_set :=
  match toks with
  | [] => SetError
  | this :: t1 =>
      if is_char 93 this && negb first then close_set negate items t1
      else
        match set_code this with
        | None => SetOutside
        | Some code1 =>
            match t1 with
            | [] => SetError
            | [dash] =>
                if is_char 45 dash then SetError
                else parse_set negate false (items ++ [SLiteral code1]) t1
            | dash :: that :: t3 =>
                if is_char 45 dash then
                  if is_char 93 that then
                    close_set negate (items ++ [SLiteral code1; SLiteral 45]) t3
                  else
                    match set_code that with
                    | None => SetOutside
                    | Some code2 =>
                        if code2 <? code1 then SetError
                        else parse_set negate false (items ++ [SRange code1 code2]) t3
                    end
                else parse_set negate false (items ++ [SLiteral code1]) t1
            end
        end
  end.

(** Compilation of a pattern that is one character set. *)
Definition compile_set (pattern : pystr) : re_set :=
  match re_tokens pattern with
  | None => SetError
  | Some [] => SetOutside
  | Some (opening :: toks) =>
      if is_char 91 opening then
        match toks with
        | [] => SetError
        | caret :: toks' =>
            if is_char 94 caret then parse_set true true [] toks'
            else parse_set false true [] toks
        end
      else SetOutside
  end.

Definition item_matches (ch : N) (it : set_item) : bool :=
  match it with
  | SLiteral c => ch =? c
  | SRange lo hi => (lo <=? ch) && (ch <=? hi)
  end.

Definition set_matches (negate : bool) (items : list set_item) (ch : N) : bool :=
  xorb negate (existsb (item_matches ch) items).

Section Sanitizer.

(** [re.sub] on the patterns and replacement templates left aside. *)
Variable re_sub_general : pystr -> pystr -> pystr -> outcome pystr.

(** [re.sub(pattern, repl, string)]: a replacement without backslash
    stands for itself. *)
Definition re_sub (pattern repl string : pystr) : outcome pystr :=
  match compile_set pattern with
  | SetOk negate items =>
      if existsb (N.eqb 92) repl then re_sub_general pattern repl string
      else Return (flat_map (fun ch => if set_matches negate items ch then repl else [ch]) string)
  | SetError => Raise ReError
  | SetOutside => re_sub_general pattern repl string
  end.

(** The default of [remove_characters]; the source literal spells each of
    the two trailing backslashes with an escape. *)
Definition default_remove_characters : pystr := lit "#@&$%^()-/\\".

Definition default_replace_char : pystr := lit "_".

(** The loop that fills [rename_map]. *)
Fixpoint sanitize_map (cols : list pystr) (remove_characters replace_char : pystr)
    (rename_map : pydict) : outcome pydict :=
  match cols with
  | [] => Return rename_map
  | col :: rest =>
      let pattern := lit "[" ++ remove_characters ++ lit "]" in
      do new_col <- re_sub pattern replace_char col;
      sanitize_map rest remove_characters replace_char (dict_set rename_map col new_col)
  end.

Record sanitize_run : Type := mkSanitizeRun {
  sn_table : DataFrame;
  sn_log : list log_record;
  sn_result : outcome DataFrame
}.

Definition pd_cols_remove_special_characters (df : DataFrame) (cols : option (list pystr))
    (remove_characters replace_char : pystr) : sanitize_run :=
  match col_names df with
  | [] =>
      mkSanitizeRun df
        [(WARNING, lit "Empty dataframe, skipping [pd_cols_remove_special_characters]")]
        (Return df)
  | _ =>
      let log := [(INFO, lit "Removing special characters in DataFrame columns")] in
      let cols :=
        match cols with
        | None | Some [] => col_names df
        | Some cs => cs
        end in
      match sanitize_map cols remove_characters replace_char [] with
      | Raise e => mkSanitizeRun df log (Raise e)
      | Return rename_map =>
          let df' :=
            match rename_map with
            | [] => df
            | _ => rename_columns rename_map df
            end in
          mkSanitizeRun df' log (Return df')
      end
  end.

End Sanitizer.

(** ** Column renamer *)

Record rename_run : Type := mkRenameRun {
  rr_table : DataFrame;
  rr_map : pydict;
  rr_log : list log_record;
  rr_result : outcome DataFrame
}.

(** The [override] loop: every target already among the columns read at
    entry is deleted from the table.  It stops at the first deletion that
    raises. *)
Fixpoint override_loop (df_cols : gset pystr) (values : list pystr) (df : DataFrame)
  : DataFrame * option exn :=
  match values with
  | [] => (df, None)
  | out_col :: rest =>
      if bool_decide (out_col ∈ df_cols) then
        match delitem df out_col with
        | Return df' => override_loop df_cols rest df'
        | Raise e => (df, Some e)
        end
      else override_loop df_cols rest df
  end.

(** Without [override], one warning per target that is a column. *)
Definition collision_warnings (df_cols : gset pystr) (values : list pystr) : list log_record :=
  map (fun out_col =>
         (WARNING, lit "Out column already exists [" ++ out_col ++ lit "], rename will "
                     ++ lit "create dupe"))
      (filter (fun out_col => out_col ∈ df_cols) values).

Section Renamer.

Variable uni_printable : N -> bool.

Definition missing_keys_of (df_cols : gset pystr) (rename_map : pydict) : list pystr :=
  filter (fun k => k ∉ df_cols) (map fst rename_map).

Definition missing_keys_message (missing_keys : list pystr) : pystr :=
  lit "Missing keys: " ++ str_list uni_printable missing_keys ++ lit ", cannot rename".

Definition pd_rename_cols (df : DataFrame) (rename_map : pydict)
    (override ignore_missing : bool) : rename_run :=
  match col_names df with
  | [] =>
      mkRenameRun df rename_map
        [(WARNING, lit "Empty dataframe, skipping [pd_rename_cols]")] (Return df)
  | _ =>
      let df_cols : gset pystr := list_to_set (col_names df) in
      let '(df1, log, failure) :=
        if override then
          let '(df1, failure) := override_loop df_cols (map snd rename_map) df in
          (df1, [], failure)
        else (df, collision_warnings df_cols (map snd rename_map), None) in
      match failure with
      | Some e => mkRenameRun df1 rename_map log (Raise e)
      | None =>
          let missing_keys := missing_keys_of df_cols rename_map in
          match missing_keys with
          | [] =>
              let df2 := rename_columns rename_map df1 in
              mkRenameRun df2 rename_map log (Return df2)
          | _ =>
              if ignore_missing then
                let rename_map' := foldl dict_del rename_map missing_keys in
                let df2 := rename_columns rename_map' df1 in
                mkRenameRun df2 rename_map' log (Return df2)
              else
                mkRenameRun df1 rename_map log
                  (Raise (PyException (missing_keys_message missing_keys)))
          end
      end
  end.

End Renamer.

(** ** Line-delimited JSON loader *)

(** The lines a text file yields when iterated: each ends with its
    newline, except possibly the last. *)
Fixpoint file_lines_from (cur s : pystr) : list pystr :=
  match s with
  | [] => match cur with
          | [] => []
          | _ => [cur]
          end
  | c :: s' =>
      if c =? 10 then (cur ++ [c]) :: file_lines_from [] s'
      else file_lines_from (cur ++ [c]) s'
  end.

Definition file_lines (text : pystr) : list pystr := file_lines_from [] text.

Section JsonLoader.

(** Decoded JSON values and the decoder [json.loads]; [None] stands for its
    [JSONDecodeError]. *)
Variable json : Type.
Variable json_loads : pystr -> option json.

(** The file system: for a file that can be opened, the text its file
    object delivers (decoded, line ends translated to a newline). *)
Variable fs : pystr -> option pystr.

(** One element of the comprehension.  The error is tagged with the
    position of the line in the file, counted from 0, to tell which line
    raised it. *)
Definition decode_line (lineno : nat) (line : pystr) : outcome json :=
  match json_loads line with
  | Some v => Return v
  | None => Raise (JSONDecodeError lineno)
  end.

(** The list comprehension over the lines, numbered from [lineno]. *)
Fixpoint decode_lines (lineno : nat) (lines : list pystr) : outcome (list json) :=
  match lines with
  | [] => Return []
  | line :: rest =>
      do v <- decode_line lineno line;
      do vs <- decode_lines (S lineno) rest;
      Return (v :: vs)
  end.

Definition load_json (file_path : pystr) : outcome (list json) :=
  match fs file_path with
  | None => Raise OSError
  | Some text => decode_lines 0 (file_lines text)
  end.

End JsonLoader.

(** ** Epoch converter *)

Local Open Scope Z_scope.

Definition ISO_8601_FORMAT : pystr := lit "%Y-%m-%dT%H:%M:%S".

Record datetime : Type := mkDatetime {
  year : Z; month : Z; day : Z;
  hour : Z; minute : Z; second : Z
}.

Definition _is_leap (y : Z) : bool :=
  (y mod 4 =? 0) && (negb (y mod 100 =? 0) || (y mod 400 =? 0)).

Definition _DAYS_IN_MONTH (m : Z) : Z :=
  match m with
  | 1 => 31 | 2 => 28 | 3 => 31 | 4 => 30 | 5 => 31 | 6 => 30
  | 7 => 31 | 8 => 31 | 9 => 30 | 10 => 31 | 11 => 30 | 12 => 31
  | _ => -1
  end.

Definition _DAYS_BEFORE_MONTH (m : Z) : Z :=
  match m with
  | 1 => 0 | 2 => 31 | 3 => 59 | 4 => 90 | 5 => 120 | 6 => 151
  | 7 => 181 | 8 => 212 | 9 => 243 | 10 => 273 | 11 => 304 | 12 => 334
  | _ => -1
  end.

Definition _days_in_month (y m : Z) : Z :=
  if (m =? 2) && _is_leap y then 29 else _DAYS_IN_MONTH m.

Definition _days_before_year (y : Z) : Z :=
  let y := y - 1 in
  y * 365 + y / 4 - y / 100 + y / 400.

Definition _days_before_month (y m : Z) : Z :=
  _DAYS_BEFORE_MONTH m + (if (2 <? m) && _is_leap y then 1 else 0).

(** Proleptic Gregorian ordinal of a date; 1 January of year 1 is day 1. *)
Definition _ymd2ord (y m d : Z) : Z :=
  _days_before_year y + _days_before_month y m + d.

Definition _MAXORDINAL : Z := 3652059.

(** The date of an ordinal, by 400-, 100-, 4- and 1-year cycles. *)
Definition _ord2ymd (n : Z) : Z * Z * Z :=
  let n := n - 1 in
  let n400 := n / 146097 in
  let n := n mod 146097 in
  let y := n400 * 400 + 1 in
  let n100 := n / 36524 in
  let n := n mod 36524 in
  let n4 := n / 1461 in
  let n := n mod 1461 in
  let n1 := n / 365 in
  let n := n mod 365 in
  let y := y + n100 * 100 + n4 * 4 + n1 in
  if (n1 =? 4) || (n100 =? 4) then (y - 1, 12, 31)
  else
    let leapyear := (n1 =? 3) && (negb (n4 =? 24) || (n100 =? 3)) in
    let m := Z.shiftr (n + 50) 5 in
    let preceding := _DAYS_BEFORE_MONTH m + (if (2 <? m) && leapyear then 1 else 0) in
    if n <? preceding then
      let m := m - 1 in
      let preceding :=
        preceding - (_DAYS_IN_MONTH m + (if (m =? 2) && leapyear then 1 else 0)) in
      (y, m, n - preceding + 1)
    else (y, m, n - preceding + 1).

(** [dt + timedelta(seconds=secs)] for a whole number of seconds. *)
Definition datetime_add_seconds (dt : datetime) (secs : Z) : outcome datetime :=
  let total := hour dt * 3600 + minute dt * 60 + second dt + secs in
  let days := _ymd2ord (year dt) (month dt) (day dt) + total / 86400 in
  let rem := total mod 86400 in
  if (0 <? days) && (days <=? _MAXORDINAL) then
    let '(y, m, d) := _ord2ymd days in
    Return (mkDatetime y m d (rem / 3600) ((rem mod 3600) / 60) ((rem mod 3600) mod 60))
  else Raise OverflowError.

(** Decimal digits of [z >= 0], padded with zeros to [width]. *)
Definition zero_padded (width : nat) (z : Z) : pystr :=
  let digits := str_int z in
  replicate (width - length digits) 48%N ++ digits.

(** The directives whose output does not depend on the platform or the
    locale.  [%Y] is among them for years of four digits. *)
Definition directive (d : N) (dt : datetime) : option pystr :=
  if (d =? 89)%N then (if 1000 <=? year dt then Some (str_int (year dt)) else None)
  else if (d =? 109)%N then Some (zero_padded 2 (month dt))
  else if (d =? 100)%N then Some (zero_padded 2 (day dt))
  else if (d =? 72)%N then Some (zero_padded 2 (hour dt))
  else if (d =? 77)%N then Some (zero_padded 2 (minute dt))
  else if (d =? 83)%N then Some (zero_padded 2 (second dt))
  else if (d =? 37)%N then Some [37%N]
  else None.

Fixpoint strftime_portable (fmt : pystr) (dt : datetime) : option pystr :=
  match fmt with
  | [] => Some []
  | c :: rest =>
      if (c =? 37)%N then
        match rest with
        | [] => None
        | d :: rest' =>
            match directive d dt, strftime_portable rest' dt with
            | Some s, Some r => Some (s ++ r)
            | _, _ => None
            end
        end
      else cons c <$> strftime_portable rest dt
  end.

Section EpochConverter.

(** [strftime] of the platform, for the formats with other directives. *)
Variable strftime_platform : datetime -> pystr -> pystr.

Definition strftime (dt : datetime) (fmt : pystr) : pystr :=
  match strftime_portable fmt dt with
  | Some s => s
  | None => strftime_platform dt fmt
  end.

(** [convert_epoch_to_datetime] on [None] or a whole number of
    milliseconds.  The quotient by 1000 is a float in the source; the
    instant is kept here to the second, which is exact for these inputs. *)
Definition convert_epoch_to_datetime (epoch : option Z) (format : pystr)
  : outcome (option pystr) :=
  match epoch with
  | None => Return None
  | Some ms =>
      if ms =? 0 then Return None
      else
        do datetime_converted <-
             datetime_add_seconds (mkDatetime 1970 1 1 0 0 0) (ms / 1000);
        Return (Some (strftime datetime_converted format))
  end.

End EpochConverter.

(** ** Specification vocabulary *)

Local Open Scope Z_scope.

(** [f] holds on the [count] integers from [start] on. *)
Fixpoint all_from (f : Z -> bool) (count : nat) (start : Z) : bool :=
  match count with
  | O => true
  | S count' => f start && all_from f count' (start + 1)
  end.

(** Bytes UTF-8 spends on a code point. *)
Definition utf8_width (c : N) : Z :=
  if (c <? 128)%N then 1 else if (c <? 2048)%N then 2 else if (c <? 65536)%N then 3 else 4.

Definition utf8_len (s : pystr) : Z := foldr (fun c acc => utf8_width c + acc) 0 s.

(** A length increased by 1% and truncated. *)
Definition one_percent_more (n : Z) : Z := (101 * n) / 100.

Definition is_max (w : Z) (l : list Z) : Prop := w ∈ l ∧ ∀ x, x ∈ l → x <= w.

Definition non_null (s : Series) : list pyval := filter (fun v => isnull v = false) (cells s).

(** Sample collaborators for the examples: a table of printable code
    points that knows ASCII only, and tables with ambiguous labels left
    to the library. *)
Definition ascii_only : N -> bool := fun _ => false.
Definition library_dup_label : DataFrame -> pystr -> outcome maxval :=
  fun _ _ => Raise (LibraryError 0).

Section WidthSpec.

Variable uni_printable : N -> bool.

(** Byte length of the literal of a value as the estimator measures it:
    the string form of the value, escaped as [repr] does, without the
    quotes. *)
Definition literal_width (v : pyval) : Z := utf8_len (repr_body uni_printable (astype_str v)).

(** Byte length of the literal the way the specification words it: the
    quotes of a textual value count. *)
Definition quoted_literal_width (v : pyval) : Z := utf8_len (py_repr uni_printable v).

(** The entry the estimator stores for a column. *)
Definition width_entry (s : Series) : Z :=
  match series_max (map literal_width (non_null s)) with
  | NumInt n => Z.quot (100 * n + n) 100
  | NumNaN => 0
  end.

Variable dup_label_max : DataFrame -> pystr -> outcome maxval.

(** The first claim about the estimator, as the specification states it. *)
Definition width_counts_quotes (df : DataFrame) : Prop :=
  ∀ s, s ∈ columns df → non_null s ≠ [] →
    ∃ m w, calc_col_lengths uni_printable dup_label_max df = Return m
           ∧ is_max w (map quoted_literal_width (non_null s))
           ∧ m !! name s = Some (one_percent_more w).

(** The second claim, as the specification states it. *)
Definition null_column_omitted (df : DataFrame) : Prop :=
  ∀ s, s ∈ columns df → non_null s = [] →
    ∃ m, calc_col_lengths uni_printable dup_label_max df = Return m
         ∧ m !! name s = None.

End WidthSpec.

Definition df_one_text : DataFrame :=
  mkDataFrame None [LInt 0] [mkSeries (lit "c") (lit "object") [VStr (lit "ab")]].

Definition df_one_null : DataFrame :=
  mkDataFrame None [LInt 0] [mkSeries (lit "c") (lit "object") [VNone]].

(** A table with a text column, a column of integers with a null, and a
    column of nulls. *)
Definition df_three_columns : DataFrame :=
  mkDataFrame None [LInt 0; LInt 1]
    [ mkSeries (lit "name") (lit "object") [VStr (lit "it's"); VStr (lit "abcdefgh")];
      mkSeries (lit "n") (lit "object") [VInt 1234567; VNone];
      mkSeries (lit "gone") (lit "object") [VNone; VNaN] ].

(** *** Messages of the previewer, as whole sentences *)

Definition lookup_error_head (uni_printable : N -> bool) (idx : label) (col : pystr)
  : pystr :=
  lit "Could not get value at (" ++ str_label uni_printable idx ++ lit ", " ++ col
    ++ lit ").".

Definition index_note (df : DataFrame) : pystr :=
  if is_unique (index df) then []
  else lit " Index is not unique; you may need to specify a different index column(s) or set index_col=False when creating the DataFrame.".

Definition columns_note : pystr :=
  lit " Column names are not unique; you may need to rename duplicate columns or specify fixed column names when creating the DataFrame: ".

(** The names carried by more than one column, each once. *)
Definition duplicate_names (names : list pystr) : list pystr :=
  remove_dups (filter (fun n => (1 < length (filter (eq n) names))%nat) names).

(** A fallback lookup for the examples: the slice it hands back prints as
    an ellipsis. *)
Definition sample_loc : DataFrame -> label -> pystr -> looked_up :=
  fun _ _ _ => Slice (lit "...").

Definition df_dup_cols : DataFrame :=
  mkDataFrame None [LInt 0]
    [ mkSeries (lit "b") (lit "int64") [VInt 1];
      mkSeries (lit "a") (lit "int64") [VInt 2];
      mkSeries (lit "a") (lit "int64") [VInt 3] ].

(** The same columns under a row whose label is the tuple (1, 2). *)
Definition df_dup_cols_tuple : DataFrame :=
  mkDataFrame None [LTuple [AInt 1; AInt 2]]
    [ mkSeries (lit "b") (lit "int64") [VInt 1];
      mkSeries (lit "a") (lit "int64") [VInt 2];
      mkSeries (lit "a") (lit "int64") [VInt 3] ].

Section PreviewSpec.

Variable uni_printable : N -> bool.
Variable dup_label_max : DataFrame -> pystr -> outcome maxval.
Variable loc_ambiguous : DataFrame -> label -> pystr -> looked_up.

(** The third claim, as the specification states it: the message of a
    failed lookup lists the duplicated names only. *)
Definition lookup_error_lists_duplicates (df : DataFrame) : Prop :=
  ∀ cols num_rows columns_only tag msg,
    is_unique (col_names df) = false →
    pv_result (pd_preview uni_printable dup_label_max loc_ambiguous
                 df cols num_rows columns_only tag false) = Raise (ValueError msg) →
    ∃ idx col, idx ∈ index df ∧ col ∈ col_names df
      ∧ msg = lookup_error_head uni_printable idx col ++ index_note df ++ columns_note
                ++ str_list uni_printable (py_sorted (duplicate_names (col_names df)))
                ++ lit ".".

End PreviewSpec.

(** *** Vocabulary for the sanitizer and the renamer *)

(** A table without its columns named in [keys]. *)
Definition drop_columns (keys : list pystr) (df : DataFrame) : DataFrame :=
  mkDataFrame (index_name df) (index df) (filter (fun s => name s ∉ keys) (columns df)).

(** The rename targets that are columns of the table. *)
Definition colliding_targets (df : DataFrame) (rename_map : pydict) : list pystr :=
  filter (fun v => v ∈ col_names df) (map snd rename_map).

(** The keys of the rename map that are no column of the table. *)
Definition absent_keys (df : DataFrame) (rename_map : pydict) : list pystr :=
  filter (fun k => k ∉ col_names df) (map fst rename_map).

(** The rename map without its absent keys. *)
Definition pruned_map (df : DataFrame) (rename_map : pydict) : pydict :=
  filter (fun kv => kv.1 ∈ col_names df) rename_map.

(** Characters that mean themselves inside a bracketed set: anything but
    the backslash, the closing bracket, the caret and the hyphen. *)
Definition plain_char (c : N) : bool :=
  negb ((c =? 92)%N || (c =? 93)%N || (c =? 94)%N || (c =? 45)%N).

(** The name the claim describes: the characters of the special set
    replaced, the others kept. *)
Definition replace_special (special repl col : pystr) : pystr :=
  flat_map (fun ch => if bool_decide (ch ∈ special) then repl else [ch]) col.

(** A regular-expression engine for the examples; the patterns of the
    examples never reach it. *)
Definition library_re_sub : pystr -> pystr -> pystr -> outcome pystr :=
  fun _ _ _ => Raise (LibraryError 1).

Definition empty_column (n : string) : Series := mkSeries (lit n) (lit "object") [].

Definition df_dotted : DataFrame := mkDataFrame None [] [empty_column "a.b"].

Definition df_x_y : DataFrame := mkDataFrame None [] [empty_column "x"; empty_column "y"].

Definition df_a_b_x : DataFrame :=
  mkDataFrame None [] [empty_column "a"; empty_column "b"; empty_column "x"].

(** Two columns of [df_a_b_x] renamed to its third column, and a key that
    is no column. *)
Definition two_onto_x : pydict :=
  [(lit "a", lit "x"); (lit "b", lit "x"); (lit "zz", lit "w")].

Definition df_a_b_x_y : DataFrame :=
  mkDataFrame None []
    [empty_column "a"; empty_column "b"; empty_column "x"; empty_column "y"].

(** Two columns of [df_a_b_x_y] renamed to its column [x], and a key that
    is no column renamed to its column [y]. *)
Definition two_onto_x_one_onto_y : pydict :=
  [(lit "a", lit "x"); (lit "b", lit "x"); (lit "c", lit "y")].

Definition df_a_b_x_c : DataFrame :=
  mkDataFrame None []
    [empty_column "a"; empty_column "b"; empty_column "x"; empty_column "c"].

(** Two columns of [df_a_b_x_c] renamed to its column [x], and its column
    [c] renamed to itself. *)
Definition two_onto_x_and_self : pydict :=
  [(lit "a", lit "x"); (lit "b", lit "x"); (lit "c", lit "c")].

(** The tenth claim, as the specification states it: under [override] a
    rename map that sends the column [c] to itself deletes that column. *)
Definition self_rename_deletes (uni_printable : N -> bool) (df : DataFrame) (c : pystr)
    (rename_map : pydict) (ignore_missing : bool) : Prop :=
  c ∈ col_names df → dict_get rename_map c = Some c →
  c ∉ col_names (rr_table (pd_rename_cols uni_printable df rename_map true ignore_missing)).

(** *** Vocabulary for the epoch converter *)

Definition valid_datetime (dt : datetime) : Prop :=
  1 <= year dt <= 9999 ∧ 1 <= month dt <= 12
  ∧ 1 <= day dt <= _days_in_month (year dt) (month dt)
  ∧ 0 <= hour dt < 24 ∧ 0 <= minute dt < 60 ∧ 0 <= second dt < 60.

(** Whole seconds from 1970-01-01T00:00:00 to a date and time. *)
Definition seconds_since_epoch (dt : datetime) : Z :=
  (_ymd2ord (year dt) (month dt) (day dt) - _ymd2ord 1970 1 1) * 86400
  + hour dt * 3600 + minute dt * 60 + second dt.

(** The check of one day of the 400-year cycle: its date is valid, lies in
    the first 400 years and has the day's ordinal. *)
Definition cycle_day_ok (r : Z) : bool :=
  let '(y, m, d) := _ord2ymd (r + 1) in
  (_ymd2ord y m d =? r + 1) && (1 <=? y) && (y <=? 400)
  && ((y <=? 399) || (146097 - 366 <=? r))
  && (1 <=? m) && (m <=? 12) && (1 <=? d) && (d <=? _days_in_month y m).



(** A platform [strftime] for the examples; the default format never
    reaches it for years of four digits. *)
Definition library_strftime : datetime -> pystr -> pystr := fun _ _ => [].

(** *** Samples for the JSON loader *)

Definition is_digit (c : N) : bool := ((48 <=? c) && (c <=? 57))%N.

(** A decoder for the examples: it accepts the documents that are a run
    of decimal digits followed by a newline. *)
Definition digits_loads (s : pystr) : option pystr :=
  match reverse s with
  | 10%N :: (_ :: _) as body => if forallb is_digit body then Some (reverse body) else None
  | _ => None
  end.

Definition one_file (file_path : pystr) : option pystr :=
  if bool_decide (file_path = lit "rows.jsonl")
  then Some (lit "1" ++ [10%N] ++ lit "22" ++ [10%N])
  else None.

(** *** Vocabulary for the further properties *)

(** A table with its column names sent through [f]; nothing else
    changes. *)
Definition map_names (f : pystr -> pystr) (df : DataFrame) : DataFrame :=
  mkDataFrame (index_name df) (index df)
    (map (fun s => mkSeries (f (name s)) (dtype s) (cells s)) (columns df)).

(** The column names the sanitizer works on: the given ones, or all of
    the table's when none is given. *)
Definition sanitizer_targets (df : DataFrame) (cols : option (list pystr)) : list pystr :=
  match cols with
  | None | Some [] => col_names df
  | Some cs => cs
  end.

(** A name with the targeted ones sent through [f]. *)
Definition on_targets (targets : list pystr) (f : pystr -> pystr) (n : pystr) : pystr :=
  if bool_decide (n ∈ targets) then f n else n.

(** The name with every character outside [kept] replaced. *)
Definition replace_others (kept repl col : pystr) : pystr :=
  flat_map (fun ch => if bool_decide (ch ∈ kept) then [ch] else repl) col.

(** The name with every character from [lo] to [hi] replaced. *)
Definition replace_range (lo hi : N) (repl col : pystr) : pystr :=
  flat_map (fun ch => if ((lo <=? ch) && (ch <=? hi))%N then repl else [ch]) col.

(** The cells and types of the columns, in order, without the names. *)
Definition column_data (df : DataFrame) : list (pystr * list pyval) :=
  map (fun s => (dtype s, cells s)) (columns df).

(** The rename map read backwards: every target sent to its key. *)
Definition swap_items (d : pydict) : pydict := map (fun kv => (kv.2, kv.1)) d.

(** *** Reading back the default layout of the epoch converter *)

(** The number a run of decimal digits writes. *)
Definition digits_value (s : pystr) : option Z :=
  foldl (fun acc c =>
           match acc with
           | Some a => if is_digit c then Some (a * 10 + (Z.of_N c - 48)) else None
           | None => None
           end) (Some 0) s.

(** The date and time written in a text of the layout
    [YYYY-MM-DDTHH:MM:SS]. *)
Definition parse_iso (s : pystr) : option datetime :=
  match s with
  | [y1; y2; y3; y4; c1; m1; m2; c2; d1; d2; c3; h1; h2; c4; n1; n2; c5; s1; s2] =>
      if ((c1 =? 45) && (c2 =? 45) && (c3 =? 84) && (c4 =? 58) && (c5 =? 58))%N then
        match digits_value [y1; y2; y3; y4], digits_value [m1; m2], digits_value [d1; d2],
              digits_value [h1; h2], digits_value [n1; n2], digits_value [s1; s2] with
        | Some y, Some m, Some d, Some h, Some n, Some s => Some (mkDatetime y m d h n s)
        | _, _, _, _, _, _ => None
        end
      else None
  | _ => None
  end.

(** The checks, one number at a time, that a year of four digits and a
    field of two digits are written in full and read back. *)
Definition year_text_ok (y : Z) : bool :=
  match str_int y with
  | [a; b; c; d] =>
      match digits_value [a; b; c; d] with Some v => v =? y | None => false end
  | _ => false
  end.

Definition field_text_ok (v : Z) : bool :=
  match zero_padded 2 v with
  | [a; b] => match digits_value [a; b] with Some w => w =? v | None => false end
  | _ => false
  end.

(** *** Counting the lines of a file *)

(** The newline characters of a text. *)
Definition newlines (text : pystr) : nat := length (filter (fun c => c = 10%N) text).

(** Whether a text ends in a character other than a newline. *)
Definition unterminated (text : pystr) : bool :=
  match last text with
  | Some c => negb (c =? 10)%N
  | None => false
  end.

(** A file system for the examples: every path opens a file of three
    lines, the second of them blank. *)
Definition blank_line_file (file_path : pystr) : option pystr :=
  Some (lit "1" ++ [10%N; 10%N] ++ lit "22" ++ [10%N]).

(** Goals settled by a decision procedure. *)
Ltac by_decision := refine (bool_decide_unpack _ _); vm_compute; exact I.

(** ** Checks by enumeration *)

Lemma all_from_spec (f : Z -> bool) (count : nat) :
  ∀ start k, all_from f count start = true →
             start <= k < start + Z.of_nat count → f k = true.
Proof.
  induction count as [|count IH]; intros start k Hall Hk; [lia|].
  cbn [all_from] in Hall. apply andb_true_iff in Hall as [Hstart Hrest].
  destruct (Z.eq_dec k start) as [->|Hne]; [exact Hstart|].
  apply (IH (start + 1)); [exact Hrest | lia].
Qed.

(** ** Properties of the column-width estimator *)

(** For every length up to 100000 the exact conversion is what binary64
    arithmetic gives. *)
Lemma buffered_int_binary64_agrees (n : Z) :
  0 <= n <= 100000 → binary64_agrees n = true.
Proof.
  intros Hn. apply (all_from_spec binary64_agrees (Z.to_nat 100001) 0); [|lia].
  vm_compute. reflexivity.
Qed.

Section WidthProofs.

Variable uni_printable : N -> bool.
Variable dup_label_max : DataFrame -> pystr -> outcome maxval.

Lemma slice_repr (s : pystr) :
  slice_1_m1 (py_repr_str uni_printable s) = repr_body uni_printable s.
Proof.
  unfold slice_1_m1, py_repr_str. simpl.
  rewrite length_app. simpl.
  replace (length (repr_body uni_printable s) + 1 - 0 - 1)%nat
    with (length (repr_body uni_printable s)) by lia.
  rewrite drop_0. apply take_app_length.
Qed.

Lemma hex_digit_ascii (d : N) : (d < 16)%N → (hex_digit d < 128)%N.
Proof. unfold hex_digit. intros. destruct (N.ltb_spec d 10); lia. Qed.

Lemma hex_fixed_ascii (w : nat) (n : N) : Forall (fun c => (c < 128)%N) (hex_fixed w n).
Proof.
  revert n. induction w as [|w IH]; intros n; simpl; [constructor|].
  apply Forall_app. split; [apply IH|].
  constructor; [|constructor]. apply hex_digit_ascii. apply N.mod_lt. lia.
Qed.

Lemma ascii_not_surrogate (c : N) : (c < 128)%N → is_surrogate c = false.
Proof. unfold is_surrogate. intros. destruct (N.leb_spec 55296 c); [lia | reflexivity]. Qed.

Lemma repr_quote_ascii (s : pystr) : (repr_quote s < 128)%N.
Proof. unfold repr_quote. destruct (_ && _); lia. Qed.

(** [repr] never leaves a lone surrogate in its output. *)
Lemma repr_char_encodable (quote ch : N) :
  (quote < 128)%N →
  Forall (fun c => is_surrogate c = false) (repr_char uni_printable quote ch).
Proof.
  intros Hq. unfold repr_char.
  assert (Hhex : ∀ w, Forall (fun c => is_surrogate c = false) (hex_fixed w ch)).
  { intros w. eapply Forall_impl; [apply hex_fixed_ascii|].
    intros c Hc. by apply ascii_not_surrogate. }
  assert (Hlow : ∀ c, (c < 128)%N → Forall (fun c => is_surrogate c = false) [92%N; c]).
  { intros c Hc. repeat constructor. by apply ascii_not_surrogate. }
  destruct ((ch =? quote)%N || (ch =? 92)%N) eqn:Hesc.
  { apply Hlow. apply orb_true_iff in Hesc as [H|H]; apply N.eqb_eq in H; lia. }
  destruct (ch =? 9)%N; [by apply Hlow|].
  destruct (ch =? 10)%N; [by apply Hlow|].
  destruct (ch =? 13)%N; [by apply Hlow|].
  destruct ((ch <? 32)%N || (ch =? 127)%N).
  { apply (Forall_app _ [92%N; 120%N]). split; [by apply Hlow | apply Hhex]. }
  destruct (N.ltb_spec ch 127).
  { repeat constructor. apply ascii_not_surrogate. lia. }
  destruct (py_isprintable uni_printable ch) eqn:Hp.
  { repeat constructor. unfold py_isprintable in Hp.
    apply andb_true_iff in Hp as [Hp _]. by apply negb_true_iff in Hp. }
  destruct (ch <=? 255)%N.
  { apply (Forall_app _ [92%N; 120%N]). split; [by apply Hlow | apply Hhex]. }
  destruct (ch <=? 65535)%N.
  { apply (Forall_app _ [92%N; 117%N]). split; [by apply Hlow | apply Hhex]. }
  apply (Forall_app _ [92%N; 85%N]). split; [by apply Hlow | apply Hhex].
Qed.

Lemma repr_body_encodable (s : pystr) :
  Forall (fun c => is_surrogate c = false) (repr_body uni_printable s).
Proof.
  unfold repr_body. generalize (repr_quote_ascii s). generalize (repr_quote s).
  intros q Hq. induction s as [|c s IH]; simpl; [constructor|].
  apply Forall_app. split; [by apply repr_char_encodable | exact IH].
Qed.

Lemma utf8_char_width (c : N) :
  is_surrogate c = false →
  ∃ bs, utf8_char c = Some bs ∧ Z.of_nat (length bs) = utf8_width c.
Proof.
  intros Hc. unfold utf8_char, utf8_width. rewrite Hc.
  repeat (match goal with
          | |- context [if ?b then _ else _] => destruct b
          end); eexists; split; reflexivity.
Qed.

Lemma utf8_encode_len (s : pystr) :
  Forall (fun c => is_surrogate c = false) s →
  ∃ bs, utf8_encode s = Return bs ∧ Z.of_nat (length bs) = utf8_len s.
Proof.
  induction 1 as [|c s Hc _ IH]; simpl.
  - by exists [].
  - destruct (utf8_char_width c Hc) as (bs & -> & Hbs).
    destruct IH as (rest & -> & Hrest). simpl.
    exists (bs ++ rest). split; [reflexivity|].
    rewrite length_app. lia.
Qed.

(** [_to_literal] never raises, and yields as many bytes as the escaped
    string takes in UTF-8. *)
Lemma to_literal_len (val : pystr) :
  ∃ bs, _to_literal uni_printable val = Return bs
        ∧ Z.of_nat (length bs) = utf8_len (repr_body uni_printable val).
Proof.
  unfold _to_literal. cbv zeta. rewrite slice_repr.
  apply utf8_encode_len, repr_body_encodable.
Qed.

Lemma pipeline_lits (vs : list pyval) :
  ∃ lits, map_outcome (_to_literal uni_printable) (map astype_str vs) = Return lits
          ∧ map (fun b : list N => Z.of_nat (length b)) lits
            = map (literal_width uni_printable) vs.
Proof.
  induction vs as [|v vs IH]; simpl.
  - by exists [].
  - destruct (to_literal_len (astype_str v)) as (bs & -> & Hbs).
    destruct IH as (lits & -> & Hlits). simpl.
    exists (bs :: lits). split; [reflexivity|]. simpl. by rewrite Hbs, Hlits.
Qed.

Lemma column_pipeline_max (s : Series) :
  column_pipeline uni_printable s
  = Return (MNumber (series_max (map (literal_width uni_printable) (non_null s)))).
Proof.
  unfold column_pipeline, non_null.
  destruct (pipeline_lits (filter (fun v => isnull v = false) (cells s)))
    as (lits & -> & Hlits).
  simpl. by rewrite Hlits.
Qed.

Lemma store_length_number (m : gmap pystr Z) (s : Series) :
  store_length m (name s)
    (MNumber (series_max (map (literal_width uni_printable) (non_null s))))
  = Return (<[name s := width_entry uni_printable s]> m).
Proof.
  unfold store_length, width_entry.
  by destruct (series_max _).
Qed.

Lemma filter_name_absent (cs : list Series) (n : pystr) :
  n ∉ map name cs → filter (fun s => name s = n) cs = [].
Proof.
  induction cs as [|c cs IH]; simpl; intros Hn; [reflexivity|].
  rewrite not_elem_of_cons in Hn. destruct Hn as [Hc Hcs].
  rewrite filter_cons. destruct (decide (name c = n)); [congruence | by apply IH].
Qed.

(** With distinct column names, [df[col]] is the one column of that name. *)
Lemma getitem_unique (df : DataFrame) (s : Series) :
  NoDup (col_names df) → s ∈ columns df → getitem df (name s) = [s].
Proof.
  unfold getitem, col_names. generalize (columns df). intros cs.
  induction cs as [|c cs IH]; simpl; intros Hnd Hs.
  - by apply elem_of_nil in Hs.
  - apply NoDup_cons in Hnd as [Hc Hnd]. rewrite filter_cons.
    apply elem_of_cons in Hs as [->|Hs].
    + destruct (decide (name c = name c)); [|congruence].
      by rewrite filter_name_absent.
    + destruct (decide (name c = name s)) as [Heq|Hne].
      * exfalso. apply Hc. rewrite Heq. by apply list_elem_of_fmap_2.
      * by apply IH.
Qed.

Lemma calc_loop_fold (df : DataFrame) (ss : list Series) (m : gmap pystr Z) :
  (∀ s, s ∈ ss → getitem df (name s) = [s]) →
  calc_loop uni_printable dup_label_max df (map name ss) m
  = Return (foldl (fun acc s => <[name s := width_entry uni_printable s]> acc) m ss).
Proof.
  revert m. induction ss as [|s ss IH]; intros m Hget; [reflexivity|].
  cbn [map calc_loop foldl]. unfold column_max_length.
  rewrite Hget by apply list_elem_of_here.
  rewrite column_pipeline_max. cbn [bind]. rewrite store_length_number. cbn [bind].
  apply IH. intros s' Hs'. apply Hget. by apply list_elem_of_further.
Qed.

Lemma fold_entries_other (ss : list Series) (m : gmap pystr Z) (k : pystr) :
  k ∉ map name ss →
  foldl (fun acc s => <[name s := width_entry uni_printable s]> acc) m ss !! k = m !! k.
Proof.
  revert m. induction ss as [|s ss IH]; simpl; intros m Hk; [reflexivity|].
  rewrite not_elem_of_cons in Hk. destruct Hk as [Hs Hss].
  rewrite IH by exact Hss. by rewrite lookup_insert_ne.
Qed.

Lemma fold_entries_lookup (ss : list Series) (m : gmap pystr Z) (s : Series) :
  NoDup (map name ss) → s ∈ ss →
  foldl (fun acc s => <[name s := width_entry uni_printable s]> acc) m ss !! name s
  = Some (width_entry uni_printable s).
Proof.
  revert m. induction ss as [|c ss IH]; simpl; intros m Hnd Hs.
  - by apply elem_of_nil in Hs.
  - apply NoDup_cons in Hnd as [Hc Hnd].
    apply elem_of_cons in Hs as [->|Hs].
    + rewrite fold_entries_other by exact Hc. apply lookup_insert_eq.
    + by apply IH.
Qed.

(** On a table with rows, columns and distinct column names the estimator
    returns, with one entry per column. *)
Lemma calc_col_lengths_entries (df : DataFrame) (s : Series) :
  NoDup (col_names df) → index df ≠ [] → s ∈ columns df →
  ∃ m, calc_col_lengths uni_printable dup_label_max df = Return m
       ∧ m !! name s = Some (width_entry uni_printable s).
Proof.
  intros Hnd Hidx Hs. unfold calc_col_lengths, df_empty.
  destruct (index df) as [|i idx]; [done|].
  destruct (columns df) as [|c cs] eqn:Hcols; [by apply elem_of_nil in Hs|].
  unfold col_names. rewrite Hcols.
  eexists. split.
  - apply calc_loop_fold. intros s' Hs'. apply getitem_unique; [exact Hnd|].
    by rewrite Hcols.
  - apply fold_entries_lookup; [|exact Hs].
    unfold col_names in Hnd. by rewrite Hcols in Hnd.
Qed.

Lemma utf8_width_pos (c : N) : 0 < utf8_width c.
Proof.
  unfold utf8_width.
  repeat (match goal with |- context [if ?b then _ else _] => destruct b end); lia.
Qed.

Lemma utf8_len_nonneg (s : pystr) : 0 <= utf8_len s.
Proof.
  induction s as [|c s IH]; simpl; [lia|]. pose proof (utf8_width_pos c). lia.
Qed.

Lemma foldl_max_is_max (x : Z) (l : list Z) : is_max (foldl Z.max x l) (x :: l).
Proof.
  revert x. induction l as [|y l IH]; intros x; simpl.
  - split; [apply list_elem_of_here|]. intros z Hz.
    apply list_elem_of_singleton in Hz. lia.
  - destruct (IH (Z.max x y)) as [Hin Hle]. split.
    + apply elem_of_cons in Hin as [Heq|Hin].
      * rewrite Heq. destruct (Z.max_spec x y) as [[_ ->]|[_ ->]].
        -- apply list_elem_of_further, list_elem_of_here.
        -- apply list_elem_of_here.
      * by do 2 apply list_elem_of_further.
    + intros z Hz. apply elem_of_cons in Hz as [->|Hz].
      * specialize (Hle (Z.max x y) (list_elem_of_here _ _)). lia.
      * apply elem_of_cons in Hz as [->|Hz].
        -- specialize (Hle (Z.max x y) (list_elem_of_here _ _)). lia.
        -- apply Hle. by apply list_elem_of_further.
Qed.

Lemma one_percent_more_ge (n : Z) : 0 <= n → n <= one_percent_more n.
Proof.
  intros Hn. unfold one_percent_more.
  apply Z.div_le_lower_bound; lia.
Qed.

Lemma width_entry_max (s : Series) :
  non_null s ≠ [] →
  ∃ w, is_max w (map (literal_width uni_printable) (non_null s))
       ∧ 0 <= w ∧ width_entry uni_printable s = one_percent_more w.
Proof.
  intros Hne. unfold width_entry.
  destruct (non_null s) as [|v vs]; [done|]. cbn [map series_max].
  set (x := literal_width uni_printable v).
  set (l := map (literal_width uni_printable) vs).
  pose proof (foldl_max_is_max x l) as Hmax.
  assert (Hx : 0 <= x) by apply utf8_len_nonneg.
  assert (Hw : 0 <= foldl Z.max x l).
  { destruct Hmax as [_ Hle]. specialize (Hle x (list_elem_of_here _ _)). lia. }
  exists (foldl Z.max x l). split; [exact Hmax|]. split; [exact Hw|].
  unfold one_percent_more. rewrite Z.quot_div_nonneg by lia. f_equal. lia.
Qed.

(** C1, amended: on a well-formed table with distinct column names, a
    column with a non-null value is mapped to the maximum, over its
    non-null values, of the UTF-8 byte length of the value's string form
    escaped as a literal WITHOUT the surrounding quotes, increased by 1%
    and truncated; that entry is at least the byte length of each such
    literal. *)
Theorem calc_col_lengths_width (df : DataFrame) (s : Series) :
  wf_df df → NoDup (col_names df) → s ∈ columns df → non_null s ≠ [] →
  ∃ m w, calc_col_lengths uni_printable dup_label_max df = Return m
    ∧ is_max w (map (literal_width uni_printable) (non_null s))
    ∧ m !! name s = Some (one_percent_more w)
    ∧ ∀ v, v ∈ cells s → isnull v = false →
        literal_width uni_printable v <= one_percent_more w.
Proof.
  intros Hwf Hnd Hs Hne.
  assert (Hidx : index df ≠ []).
  { intros Hnil. apply Hne. unfold non_null.
    unfold wf_df in Hwf. rewrite Forall_forall in Hwf.
    specialize (Hwf s Hs). rewrite Hnil in Hwf.
    destruct (cells s); [reflexivity | discriminate]. }
  destruct (calc_col_lengths_entries df s Hnd Hidx Hs) as (m & Hm & Hlook).
  destruct (width_entry_max s Hne) as (w & Hmax & Hw & Hentry).
  exists m, w. repeat split; try assumption.
  - apply Hmax.
  - apply Hmax.
  - by rewrite Hlook, Hentry.
  - intros v Hv Hnn. destruct Hmax as [_ Hle].
    assert (Hvw : literal_width uni_printable v <= w).
    { apply Hle. apply list_elem_of_fmap_2. unfold non_null.
      by apply list_elem_of_filter. }
    pose proof (one_percent_more_ge w Hw). lia.
Qed.

(** C2, amended: on a table with at least one row and distinct column
    names, a column without non-null values is present in the returned map
    with value 0: the maximum of its empty selection is NaN, which is a
    number, and whose conversion to an integer fails. *)
Theorem calc_col_lengths_null_column (df : DataFrame) (s : Series) :
  NoDup (col_names df) → index df ≠ [] → s ∈ columns df → non_null s = [] →
  column_max_length uni_printable dup_label_max df (name s) = Return (MNumber NumNaN)
  ∧ (∃ msg, buffered_int NumNaN = Raise (ValueError msg))
  ∧ ∃ m, calc_col_lengths uni_printable dup_label_max df = Return m
         ∧ m !! name s = Some 0.
Proof.
  intros Hnd Hidx Hs Hnull. split; [|split].
  - unfold column_max_length. rewrite getitem_unique by assumption.
    rewrite column_pipeline_max. by rewrite Hnull.
  - by eexists.
  - destruct (calc_col_lengths_entries df s Hnd Hidx Hs) as (m & Hm & Hlook).
    exists m. split; [exact Hm|]. rewrite Hlook. unfold width_entry. by rewrite Hnull.
Qed.

End WidthProofs.

Lemma calc_col_lengths_width_witness :
  ∃ m w, calc_col_lengths ascii_only library_dup_label df_one_text = Return m
    ∧ is_max w (map (literal_width ascii_only)
                  (non_null (mkSeries (lit "c") (lit "object") [VStr (lit "ab")])))
    ∧ m !! lit "c" = Some (one_percent_more w)
    ∧ ∀ v, v ∈ [VStr (lit "ab")] → isnull v = false →
        literal_width ascii_only v <= one_percent_more w.
Proof.
  apply (calc_col_lengths_width ascii_only library_dup_label df_one_text
           (mkSeries (lit "c") (lit "object") [VStr (lit "ab")])).
  - repeat constructor.
  - apply NoDup_singleton.
  - apply list_elem_of_here.
  - discriminate.
Defined.

(** C1 as stated fails: for the one-cell text column ['ab'] the estimator
    stores 2, the length of [ab], and not 4, the length of the quoted
    literal. *)
Lemma width_counts_quotes_counterexample :
  ¬ width_counts_quotes ascii_only library_dup_label df_one_text.
Proof.
  intros H.
  destruct (H (mkSeries (lit "c") (lit "object") [VStr (lit "ab")]))
    as (m & w & Hm & [Hin _] & Hlook).
  - apply list_elem_of_here.
  - discriminate.
  - destruct (calc_col_lengths_entries ascii_only library_dup_label df_one_text
                (mkSeries (lit "c") (lit "object") [VStr (lit "ab")]))
      as (m' & Hm' & Hlook').
    + apply NoDup_singleton.
    + discriminate.
    + apply list_elem_of_here.
    + rewrite Hm in Hm'. injection Hm' as <-.
      rewrite Hlook in Hlook'. injection Hlook' as Hw.
      apply list_elem_of_singleton in Hin. subst w. vm_compute in Hw. discriminate.
Qed.

Lemma calc_col_lengths_null_column_witness :
  column_max_length ascii_only library_dup_label df_one_null (lit "c")
    = Return (MNumber NumNaN)
  ∧ (∃ msg, buffered_int NumNaN = Raise (ValueError msg))
  ∧ ∃ m, calc_col_lengths ascii_only library_dup_label df_one_null = Return m
         ∧ m !! lit "c" = Some 0.
Proof.
  apply (calc_col_lengths_null_column ascii_only library_dup_label df_one_null
           (mkSeries (lit "c") (lit "object") [VNone])).
  - apply NoDup_singleton.
  - discriminate.
  - apply list_elem_of_here.
  - reflexivity.
Defined.

(** C2 as stated fails: the all-null column of a one-row table is not
    omitted, it gets the entry 0. *)
Lemma null_column_omitted_counterexample :
  ¬ null_column_omitted ascii_only library_dup_label df_one_null.
Proof.
  intros H.
  destruct (H (mkSeries (lit "c") (lit "object") [VNone])) as (m & Hm & Hlook).
  - apply list_elem_of_here.
  - reflexivity.
  - destruct (calc_col_lengths_entries ascii_only library_dup_label df_one_null
                (mkSeries (lit "c") (lit "object") [VNone]))
      as (m' & Hm' & Hlook').
    + apply NoDup_singleton.
    + discriminate.
    + apply list_elem_of_here.
    + rewrite Hm in Hm'. injection Hm' as <-.
      rewrite Hlook in Hlook'. discriminate.
Qed.

(** ** Sorting names *)

Lemma pystr_leb_total (a : pystr) : ∀ b, pystr_leb a b = false → pystr_leb b a = true.
Proof.
  induction a as [|x a IH]; intros [|y b]; cbn [pystr_leb]; try done.
  destruct (N.ltb_spec x y) as [Hxy|Hxy]; [done|].
  destruct (N.ltb_spec y x) as [Hyx|Hyx]; [done|]. apply IH.
Qed.

Lemma sorted_insert_perm (x : pystr) (l : list pystr) : sorted_insert x l ≡ₚ x :: l.
Proof.
  induction l as [|y l IH]; cbn [sorted_insert]; [done|].
  destruct (pystr_leb x y); [done|]. rewrite IH. apply Permutation_swap.
Qed.

Lemma sorted_insert_sorted (x : pystr) (l : list pystr) :
  Sorted (fun a b => pystr_leb a b = true) l →
  Sorted (fun a b => pystr_leb a b = true) (sorted_insert x l).
Proof.
  induction 1 as [|y l Hl IH Hhd]; cbn [sorted_insert].
  - by repeat constructor.
  - destruct (pystr_leb x y) eqn:Hxy.
    + constructor; [by constructor | by constructor].
    + constructor; [exact IH|].
      destruct Hhd as [|z l' Hyz]; cbn [sorted_insert].
      * constructor. by apply pystr_leb_total.
      * destruct (pystr_leb x z); constructor; [by apply pystr_leb_total | exact Hyz].
Qed.

(** [py_sorted] rearranges its argument into ascending order. *)
Lemma py_sorted_correct (l : list pystr) :
  py_sorted l ≡ₚ l ∧ Sorted (fun a b => pystr_leb a b = true) (py_sorted l).
Proof.
  induction l as [|x l [Hperm Hsorted]]; cbn [py_sorted foldr].
  - split; [done | constructor].
  - split; [|by apply sorted_insert_sorted].
    fold (py_sorted l). by rewrite sorted_insert_perm, Hperm.
Qed.

(** ** Properties of the previewer *)

Section PreviewProofs.

Variable uni_printable : N -> bool.
Variable dup_label_max : DataFrame -> pystr -> outcome maxval.
Variable loc_ambiguous : DataFrame -> label -> pystr -> looked_up.

Lemma lookup_error_message_text (df : DataFrame) (idx : label) (col : pystr) :
  is_unique (col_names df) = false →
  lookup_error_message uni_printable df idx col
  = lookup_error_head uni_printable idx col ++ index_note df ++ columns_note
      ++ str_list uni_printable (py_sorted (col_names df)) ++ lit ".".
Proof.
  intros Hcols. unfold lookup_error_message, lookup_error_head, index_note, columns_note.
  rewrite Hcols. cbn [negb]. destruct (is_unique (index df)); cbn [negb].
  - rewrite <- !app_assoc. reflexivity.
  - rewrite <- !app_assoc. reflexivity.
Qed.

Lemma preview_columns_error (df : DataFrame) (cols : list pystr) (co cl : bool)
    (clm : gmap pystr Z) (idx : label) (zipped : list (pystr * pystr)) :
  ∀ (cnt : Z) (lines : list pystr) (msg : pystr),
    preview_columns uni_printable loc_ambiguous df cols co cl clm idx cnt zipped lines
      = Raise (ValueError msg) →
    ∃ col, col ∈ zipped.*1
           ∧ (∃ m0, df_at uni_printable loc_ambiguous df idx col = Raise (ValueError m0))
           ∧ msg = lookup_error_message uni_printable df idx col.
Proof.
  induction zipped as [|[col dt] rest IH]; intros cnt lines msg; cbn [preview_columns].
  - discriminate.
  - destruct (negb (bool_decide (col ∈ cols))).
    + intros H. destruct (IH _ _ _ H) as (c & Hc & Hat & Hmsg).
      exists c. split; [by apply list_elem_of_further | by split].
    + destruct (df_at uni_printable loc_ambiguous df idx col) as [v|e] eqn:Hat.
      * intros H. destruct (IH _ _ _ H) as (c & Hc & Hat' & Hmsg).
        exists c. split; [by apply list_elem_of_further | by split].
      * destruct e; try discriminate. intros H. injection H as <-.
        exists col. split; [apply list_elem_of_here|]. split; [by eexists | reflexivity].
Qed.

Lemma preview_rows_error (df : DataFrame) (cols : list pystr) (co cl : bool)
    (clm : gmap pystr Z) (rows : list label) :
  ∀ (lines : list pystr) (msg : pystr),
    preview_rows uni_printable loc_ambiguous df cols co cl clm rows lines
      = Raise (ValueError msg) →
    ∃ idx col, idx ∈ rows ∧ col ∈ col_names df
           ∧ (∃ m0, df_at uni_printable loc_ambiguous df idx col = Raise (ValueError m0))
           ∧ msg = lookup_error_message uni_printable df idx col.
Proof.
  induction rows as [|idx rows IH]; intros lines msg; cbn [preview_rows].
  - discriminate.
  - destruct (preview_columns _ _ _ _ _ _ _ _ _ _ _) as [lines'|e] eqn:Hcolumns; cbn [bind].
    + intros H. destruct (IH _ _ H) as (i & c & Hi & Hrest).
      exists i, c. split; [by apply list_elem_of_further | exact Hrest].
    + intros H. injection H as ->.
      destruct (preview_columns_error _ _ _ _ _ _ _ _ _ _ Hcolumns) as (c & Hc & Hat & Hmsg).
      exists idx, c. split; [apply list_elem_of_here|]. split; [|by split].
      unfold col_names in *. rewrite fst_zip in Hc; [exact Hc|].
      rewrite !length_map. lia.
Qed.

(** A lookup only raises a [ValueError] for a tuple on a table with
    repeated labels. *)
Lemma df_at_value_error (df : DataFrame) (idx : label) (col m0 : pystr) :
  df_at uni_printable loc_ambiguous df idx col = Raise (ValueError m0) →
  is_scalar idx = false.
Proof.
  unfold df_at. destruct (is_unique (index df) && is_unique (col_names df)).
  - destruct (row_position idx (index df)) as [i|]; [|discriminate].
    destruct (getitem df col) as [|s [|s' l]]; try discriminate.
    destruct (cells s !! i); discriminate.
  - destruct (is_scalar idx); [discriminate | reflexivity].
Qed.

Lemma py_prefix_subseteq {A} (n : Z) (l : list A) (x : A) : x ∈ py_prefix n l → x ∈ l.
Proof.
  unfold py_prefix. destruct (0 <=? n); apply subseteq_take.
Qed.

Lemma df_head_index (df : DataFrame) (num_rows : option Z) (idx : label) :
  idx ∈ index (df_head df num_rows) → idx ∈ index df.
Proof.
  destruct num_rows as [n|]; simpl; [apply py_prefix_subseteq | done].
Qed.

(** C3, amended: when the previewer raises the [ValueError] of a failed
    cell lookup on a table whose column names are not unique, the lookup
    that failed is that of a row whose label is a tuple, and the message
    names that row and the column, notes a non-unique index if there is
    one, and ends with the sorted list of ALL column names of the table,
    duplicates repeated. *)
Theorem pd_preview_lookup_error (df : DataFrame) (cols : option (list pystr))
    (num_rows : option Z) (columns_only : bool) (tag : option pystr)
    (calculate_lengths : bool) (msg : pystr) :
  is_unique (col_names df) = false →
  (calculate_lengths = true →
   ∀ m, calc_col_lengths uni_printable dup_label_max (df_head df num_rows)
        ≠ Raise (ValueError m)) →
  pv_result (pd_preview uni_printable dup_label_max loc_ambiguous
               df cols num_rows columns_only tag calculate_lengths)
    = Raise (ValueError msg) →
  ∃ idx col, idx ∈ index df ∧ col ∈ col_names df
    ∧ is_scalar idx = false
    ∧ (∃ m0, df_at uni_printable loc_ambiguous df idx col = Raise (ValueError m0))
    ∧ msg = lookup_error_head uni_printable idx col ++ index_note df ++ columns_note
              ++ str_list uni_printable (py_sorted (col_names df)) ++ lit ".".
Proof.
  intros Hdup Hcalc. unfold pd_preview, preview_report.
  destruct calculate_lengths.
  - destruct (calc_col_lengths _ _ _) as [clm|e] eqn:Hclm; cbn [bind].
    + destruct (preview_rows _ _ _ _ _ _ _ _ _) as [lines|e] eqn:Hrows;
        cbn [bind pv_result]; [discriminate|].
      intros H. injection H as ->.
      destruct (preview_rows_error _ _ _ _ _ _ _ _ Hrows) as (i & c & Hi & Hc & Hat & ->).
      exists i, c. split; [by eapply df_head_index|]. split; [exact Hc|].
      split; [destruct Hat as [m0 Hat]; by eapply df_at_value_error|].
      split; [exact Hat | by apply lookup_error_message_text].
    + cbn [pv_result]. intros H. injection H as ->. by destruct (Hcalc eq_refl msg).
  - cbn [bind].
    destruct (preview_rows _ _ _ _ _ _ _ _ _) as [lines|e] eqn:Hrows;
      cbn [bind pv_result]; [discriminate|].
    intros H. injection H as ->.
    destruct (preview_rows_error _ _ _ _ _ _ _ _ Hrows) as (i & c & Hi & Hc & Hat & ->).
    exists i, c. split; [by eapply df_head_index|]. split; [exact Hc|].
    split; [destruct Hat as [m0 Hat]; by eapply df_at_value_error|].
    split; [exact Hat | by apply lookup_error_message_text].
Qed.

Lemma calc_col_lengths_returns (df : DataFrame) :
  NoDup (col_names df) → ∃ m, calc_col_lengths uni_printable dup_label_max df = Return m.
Proof.
  intros Hnd. unfold calc_col_lengths. destruct (df_empty df); [by eexists|].
  eexists. apply calc_loop_fold. intros s Hs. by apply getitem_unique.
Qed.

Lemma df_head_col_names (df : DataFrame) (num_rows : option Z) :
  col_names (df_head df num_rows) = col_names df.
Proof.
  destruct num_rows as [n|]; [|reflexivity].
  unfold col_names. simpl. rewrite map_map. reflexivity.
Qed.

Lemma row_position_found (idx : label) (rows : list label) :
  idx ∈ rows → ∃ i, row_position idx rows = Some i ∧ (i < length rows)%nat.
Proof.
  induction rows as [|r rows IH]; intros Hin; [by apply elem_of_nil in Hin|].
  cbn [row_position]. case_bool_decide as Hr.
  - exists O. split; [reflexivity | simpl; lia].
  - apply elem_of_cons in Hin as [->|Hin]; [done|].
    destruct (IH Hin) as (i & -> & Hi). exists (S i). split; [reflexivity | simpl; lia].
Qed.

(** On a well-formed table with unique row labels and column names a cell
    lookup by the label of a row and the name of a column finds the cell. *)
Lemma df_at_unique (df : DataFrame) (idx : label) (col : pystr) :
  wf_df df → NoDup (index df) → NoDup (col_names df) →
  idx ∈ index df → col ∈ col_names df →
  ∃ v, df_at uni_printable loc_ambiguous df idx col = Return v.
Proof.
  intros Hwf Hidx Hcols Hi Hc. unfold df_at, is_unique.
  rewrite !bool_decide_eq_true_2 by assumption. cbn [andb].
  destruct (row_position_found idx (index df) Hi) as (i & -> & Hlt).
  unfold col_names in Hc. apply list_elem_of_fmap in Hc as (s & -> & Hs).
  rewrite getitem_unique by assumption.
  unfold wf_df in Hwf. rewrite Forall_forall in Hwf. specialize (Hwf s Hs).
  destruct (lookup_lt_is_Some_2 (cells s) i) as [v ->]; [lia|]. by exists (Cell v).
Qed.

Lemma preview_columns_returns (df : DataFrame) (cols : list pystr) (co cl : bool)
    (clm : gmap pystr Z) (idx : label) (zipped : list (pystr * pystr)) :
  (∀ col, col ∈ zipped.*1 → ∃ v, df_at uni_printable loc_ambiguous df idx col = Return v) →
  ∀ (cnt : Z) (lines : list pystr),
    ∃ lines', preview_columns uni_printable loc_ambiguous df cols co cl clm
                idx cnt zipped lines = Return lines'.
Proof.
  induction zipped as [|[col dt] rest IH]; intros Hat cnt lines; cbn [preview_columns].
  - by eexists.
  - assert (Hrest : ∀ c, c ∈ rest.*1 → ∃ v, df_at uni_printable loc_ambiguous df idx c = Return v).
    { intros c Hc. apply Hat. by apply list_elem_of_further. }
    destruct (negb (bool_decide (col ∈ cols))); [by apply IH|].
    destruct (Hat col (list_elem_of_here _ _)) as [v ->]. by apply IH.
Qed.

Lemma preview_rows_returns (df : DataFrame) (cols : list pystr) (co cl : bool)
    (clm : gmap pystr Z) (rows : list label) :
  (∀ idx col, idx ∈ rows → col ∈ col_names df →
     ∃ v, df_at uni_printable loc_ambiguous df idx col = Return v) →
  ∀ lines : list pystr,
    ∃ lines', preview_rows uni_printable loc_ambiguous df cols co cl clm rows lines
              = Return lines'.
Proof.
  induction rows as [|idx rows IH]; intros Hat lines; cbn [preview_rows].
  - by eexists.
  - destruct (preview_columns_returns df cols co cl clm idx
                (zip (col_names df) (map dtype (columns df)))) with
      (cnt := 0) (lines := lines ++ [lit "Row: " ++ str_label uni_printable idx]) as [lines' ->].
    + intros col Hcol. apply Hat; [apply list_elem_of_here|].
      unfold col_names in *. rewrite fst_zip in Hcol; [exact Hcol|].
      rewrite !length_map. lia.
    + cbn [bind]. apply IH. intros i c Hi Hc. apply Hat; [|exact Hc].
      by apply list_elem_of_further.
Qed.

(** C8: whatever its arguments, the previewer leaves the table as it
    found it; when it does not raise it returns that table and its whole
    effect is one record written to the log; when it raises nothing is
    logged.  On a well-formed table with unique row labels and distinct
    column names it never raises. *)
Theorem pd_preview_returns_input (df : DataFrame) (cols : option (list pystr))
    (num_rows : option Z) (columns_only : bool) (tag : option pystr)
    (calculate_lengths : bool) :
  let run := pd_preview uni_printable dup_label_max loc_ambiguous
               df cols num_rows columns_only tag calculate_lengths in
  pv_table run = df
  ∧ (∀ t, pv_result run = Return t →
       t = df ∧ ∃ text, pv_log run = [(INFO, text)])
  ∧ (∀ e, pv_result run = Raise e → pv_log run = [])
  ∧ (wf_df df → NoDup (index df) → NoDup (col_names df) → pv_result run = Return df).
Proof.
  cbv zeta. unfold pd_preview.
  destruct (preview_report _ _ _ df cols num_rows columns_only tag calculate_lengths)
    as [text|e] eqn:Hreport; cbn [pv_table pv_result pv_log].
  - split; [reflexivity|]. split; [|split; [discriminate | reflexivity]].
    intros t Ht. injection Ht as <-. split; [reflexivity | by eexists].
  - split; [reflexivity|]. split; [discriminate|]. split; [reflexivity|].
    intros Hwf Hidx Hcols. exfalso. revert Hreport. unfold preview_report.
    assert (Hclm : ∃ clm,
              (if calculate_lengths
               then calc_col_lengths uni_printable dup_label_max (df_head df num_rows)
               else Return ∅) = Return clm).
    { destruct calculate_lengths; [|by eexists].
      apply calc_col_lengths_returns. by rewrite df_head_col_names. }
    destruct Hclm as [clm ->]. cbn [bind].
    destruct (preview_rows_returns df (default (col_names df) cols) columns_only
                calculate_lengths clm (index (df_head df num_rows))) with
      (lines := preview_header df tag) as [lines ->].
    + intros idx col Hi Hc. apply df_at_unique; try assumption.
      by eapply df_head_index.
    + discriminate.
Qed.

End PreviewProofs.

Lemma pd_preview_lookup_error_witness :
  ∃ idx col, idx ∈ index df_dup_cols_tuple ∧ col ∈ col_names df_dup_cols_tuple
    ∧ is_scalar idx = false
    ∧ (∃ m0, df_at ascii_only sample_loc df_dup_cols_tuple idx col = Raise (ValueError m0))
    ∧ lookup_error_message ascii_only df_dup_cols_tuple (LTuple [AInt 1; AInt 2]) (lit "b")
      = lookup_error_head ascii_only idx col ++ index_note df_dup_cols_tuple ++ columns_note
          ++ str_list ascii_only (py_sorted (col_names df_dup_cols_tuple)) ++ lit ".".
Proof.
  apply (pd_preview_lookup_error ascii_only library_dup_label sample_loc
           df_dup_cols_tuple None (Some 1) false None false).
  - vm_compute. reflexivity.
  - discriminate.
  - vm_compute. reflexivity.
Defined.

(** C3 as stated fails: for columns b, a, a under the row labelled (1, 2)
    the lookup of the first cell raises, and the message ends with the
    list ['a', 'a', 'b'] of all names, not with the list ['a'] of the
    duplicated ones. *)
Lemma lookup_error_lists_duplicates_counterexample :
  pv_result (pd_preview ascii_only library_dup_label sample_loc
               df_dup_cols_tuple None (Some 1) false None false)
  = Raise (ValueError
             (lit "Could not get value at ((1, 2), b). Column names are not unique; you may need to rename duplicate columns or specify fixed column names when creating the DataFrame: ['a', 'a', 'b']."))
  ∧ ¬ lookup_error_lists_duplicates ascii_only library_dup_label sample_loc
        df_dup_cols_tuple.
Proof.
  split; [vm_compute; reflexivity|].
  intros H.
  destruct (H None (Some 1) false None
              (lookup_error_message ascii_only df_dup_cols_tuple
                 (LTuple [AInt 1; AInt 2]) (lit "b")))
    as (idx & col & Hidx & Hcol & Hmsg).
  - vm_compute. reflexivity.
  - vm_compute. reflexivity.
  - apply list_elem_of_singleton in Hidx. subst idx.
    unfold col_names in Hcol. cbn [df_dup_cols_tuple columns map name] in Hcol.
    repeat (apply elem_of_cons in Hcol as [->|Hcol]);
      try (vm_compute in Hmsg; discriminate).
    by apply elem_of_nil in Hcol.
Qed.

Lemma pd_preview_returns_input_witness :
  pv_result (pd_preview ascii_only library_dup_label sample_loc
               df_one_text None (Some 1) false None true) = Return df_one_text.
Proof.
  apply (pd_preview_returns_input ascii_only library_dup_label sample_loc
           df_one_text None (Some 1) false None true).
  - repeat constructor.
  - apply NoDup_singleton.
  - apply NoDup_singleton.
Defined.

(** ** Dictionaries and renaming *)

Lemma dict_get_set (d : pydict) (k v k' : pystr) :
  dict_get (dict_set d k v) k' = if bool_decide (k = k') then Some v else dict_get d k'.
Proof.
  induction d as [|[k0 v0] d IH]; cbn [dict_set dict_get]; [reflexivity|].
  destruct (decide (k0 = k)) as [->|Hne].
  - rewrite (bool_decide_eq_true_2 (k = k)) by reflexivity. cbn [dict_get].
    destruct (decide (k = k')) as [Heq|Hne'].
    + by rewrite !(bool_decide_eq_true_2 _ Heq).
    + by rewrite !(bool_decide_eq_false_2 _ Hne').
  - rewrite (bool_decide_eq_false_2 _ Hne). cbn [dict_get]. rewrite IH.
    destruct (decide (k = k')) as [Heq|Hne'].
    + rewrite (bool_decide_eq_true_2 _ Heq). subst k'.
      by rewrite (bool_decide_eq_false_2 _ Hne).
    + by rewrite (bool_decide_eq_false_2 _ Hne').
Qed.

Lemma dict_get_fill (f : pystr → pystr) (cols : list pystr) (n : pystr) :
  ∀ d : pydict,
    dict_get (foldl (fun d col => dict_set d col (f col)) d cols) n
    = if bool_decide (n ∈ cols) then Some (f n) else dict_get d n.
Proof.
  induction cols as [|c cols IH]; intros d; cbn [foldl].
  - rewrite bool_decide_eq_false_2; [reflexivity | apply not_elem_of_nil].
  - rewrite IH, dict_get_set.
    destruct (decide (n ∈ cols)) as [Hin|Hnin].
    + rewrite !bool_decide_eq_true_2; [reflexivity | by apply list_elem_of_further | exact Hin].
    + rewrite (bool_decide_eq_false_2 _ Hnin).
      destruct (decide (c = n)) as [Heq|Hc].
      * rewrite (bool_decide_eq_true_2 _ Heq). subst c.
        rewrite bool_decide_eq_true_2; [reflexivity | apply list_elem_of_here].
      * rewrite (bool_decide_eq_false_2 _ Hc).
        rewrite bool_decide_eq_false_2; [reflexivity|].
        rewrite elem_of_cons. intros [Heq|Hin]; [by apply Hc | by apply Hnin].
Qed.


Lemma dict_get_elem_of (d : pydict) (k v : pystr) : dict_get d k = Some v → (k, v) ∈ d.
Proof.
  induction d as [|[k' v'] d IH]; cbn [dict_get]; [discriminate|].
  case_bool_decide as Hk.
  - intros [= ->]. rewrite Hk. apply list_elem_of_here.
  - intros H. by apply list_elem_of_further, IH.
Qed.

Lemma col_names_rename (d : pydict) (df : DataFrame) :
  col_names (rename_columns d df)
  = map (fun n => default n (dict_get d n)) (col_names df).
Proof.
  unfold col_names, rename_columns. cbn [columns]. by rewrite !map_map.
Qed.

(** ** Properties of the sanitizer *)

Section SanitizerProofs.

Variable re_sub_general : pystr -> pystr -> pystr -> outcome pystr.

Lemma plain_char_spec (c : N) :
  plain_char c = true →
  (c =? 92)%N = false ∧ (c =? 93)%N = false ∧ (c =? 94)%N = false ∧ (c =? 45)%N = false.
Proof.
  unfold plain_char. intros H. apply negb_true_iff in H.
  repeat (apply orb_false_iff in H as [H ?]). by repeat split.
Qed.

Lemma re_tokens_plain (cs : pystr) (rest : pystr) :
  forallb plain_char cs = true →
  re_tokens (cs ++ rest) = (app (map TChar cs)) <$> re_tokens rest.
Proof.
  induction cs as [|c cs IH]; cbn [forallb app map]; intros Hcs.
  - by destruct (re_tokens rest).
  - apply andb_true_iff in Hcs as [Hc Hcs]. cbn [re_tokens].
    destruct (plain_char_spec c Hc) as (-> & _). rewrite (IH Hcs).
    by destruct (re_tokens rest).
Qed.

Lemma parse_set_plain (negate : bool) (cs : pystr) :
  ∀ (first : bool) (items : list set_item),
    forallb plain_char cs = true → cs ≠ [] ∨ first = false →
    parse_set negate first items (map TChar cs ++ [TChar 93])
    = SetOk negate (items ++ map SLiteral cs).
Proof.
  induction cs as [|c cs IH]; intros first items Hcs Hne.
  - destruct Hne as [Hne| ->]; [done|]. cbn. by rewrite app_nil_r.
  - cbn [forallb] in Hcs. apply andb_true_iff in Hcs as [Hc Hcs].
    destruct (plain_char_spec c Hc) as (_ & Hc93 & _ & _).
    assert (Hrec : parse_set negate false (items ++ [SLiteral c])
                     (map TChar cs ++ [TChar 93])
                   = SetOk negate (items ++ map SLiteral (c :: cs))).
    { rewrite IH; [|exact Hcs | by right]. by rewrite <- app_assoc. }
    cbn [map app parse_set set_code is_char]. rewrite Hc93. cbn [andb].
    destruct cs as [|c' cs']; [exact Hrec|].
    cbn [forallb] in Hcs. apply andb_true_iff in Hcs as [Hc' _].
    destruct (plain_char_spec c' Hc') as (_ & _ & _ & Hc45).
    cbn [map app is_char] in *. rewrite Hc45.
    destruct cs'; exact Hrec.
Qed.

Lemma compile_set_plain (cs : pystr) :
  forallb plain_char cs = true → cs ≠ [] →
  compile_set (lit "[" ++ cs ++ lit "]") = SetOk false (map SLiteral cs).
Proof.
  intros Hcs Hne. unfold compile_set.
  change (lit "[" ++ cs ++ lit "]") with (91%N :: (cs ++ [93%N])).
  cbn [re_tokens]. change (91 =? 92)%N with false. cbv iota.
  rewrite re_tokens_plain by exact Hcs. cbn [re_tokens fmap option_fmap option_map].
  change (93 =? 92)%N with false. cbn.
  destruct cs as [|c cs]; [done|].
  cbn [forallb] in Hcs. pose proof Hcs as Hall. apply andb_true_iff in Hcs as [Hc _].
  destruct (plain_char_spec c Hc) as (_ & _ & Hc94 & _).
  cbn [map app is_char]. rewrite Hc94.
  apply (parse_set_plain false (c :: cs) true []); [exact Hall | by left].
Qed.

Lemma set_matches_literals (cs : pystr) (ch : N) :
  set_matches false (map SLiteral cs) ch = bool_decide (ch ∈ cs).
Proof.
  unfold set_matches. cbn [xorb].
  induction cs as [|c cs IH]; cbn [map existsb item_matches].
  - symmetry. apply bool_decide_eq_false_2. apply not_elem_of_nil.
  - rewrite IH. destruct (N.eqb_spec ch c) as [->|Hne]; cbn [orb].
    + symmetry. apply bool_decide_eq_true_2. apply list_elem_of_here.
    + apply bool_decide_ext. rewrite elem_of_cons. tauto.
Qed.

(** For a special set made of plain characters the substitution replaces
    the characters of the set, and those only. *)
Lemma re_sub_plain_set (cs repl string : pystr) :
  forallb plain_char cs = true → cs ≠ [] → existsb (N.eqb 92) repl = false →
  re_sub re_sub_general (lit "[" ++ cs ++ lit "]") repl string
  = Return (flat_map (fun ch => if bool_decide (ch ∈ cs) then repl else [ch]) string).
Proof.
  intros Hcs Hne Hrepl. unfold re_sub. rewrite compile_set_plain by assumption.
  rewrite Hrepl. f_equal. induction string as [|ch string IH]; [reflexivity|].
  cbn [flat_map]. by rewrite IH, set_matches_literals.
Qed.

(** C4: with the default special set the sanitizer renames a column [a.b]
    to [a_b], although the full stop is no character of that set: inside
    the bracketed pattern the characters [)-/] of the default form a range
    that also covers [*], [+], [,] and [.]. *)
Theorem sanitizer_default_replaces_full_stop :
  let run := pd_cols_remove_special_characters re_sub_general df_dotted None
               default_remove_characters default_replace_char in
  existsb (N.eqb 46) default_remove_characters = false
  ∧ col_names df_dotted = [lit "a.b"]
  ∧ sn_result run = Return (sn_table run)
  ∧ col_names (sn_table run) = [lit "a_b"]
  ∧ compile_set (lit "[" ++ default_remove_characters ++ lit "]")
    = SetOk false
        [SLiteral 35; SLiteral 64; SLiteral 38; SLiteral 36; SLiteral 37; SLiteral 94;
         SLiteral 40; SRange 41 47; SLiteral 92].
Proof.
  cbv zeta. split; [|split; [|split; [|split]]].
  - reflexivity.
  - reflexivity.
  - vm_compute. reflexivity.
  - vm_compute. reflexivity.
  - vm_compute. reflexivity.
Qed.

End SanitizerProofs.

Section SanitizerTable.

Variable re_sub_general : pystr -> pystr -> pystr -> outcome pystr.

Lemma sanitize_map_plain (special repl : pystr) (cols : list pystr) :
  forallb plain_char special = true → special ≠ [] → existsb (N.eqb 92) repl = false →
  ∀ d : pydict,
    sanitize_map re_sub_general cols special repl d
    = Return (foldl (fun d col => dict_set d col (replace_special special repl col)) d cols).
Proof.
  intros Hplain Hne Hrepl. induction cols as [|c cols IH]; intros d; cbn [sanitize_map foldl].
  - reflexivity.
  - rewrite re_sub_plain_set by assumption. cbn [bind]. apply IH.
Qed.

(** For a special set of plain characters and every column targeted, the
    sanitizer does what its documentation says: each column name has the
    characters of the set replaced and its other characters unchanged. *)
Lemma sanitizer_plain_set (df : DataFrame) (special repl : pystr) :
  col_names df ≠ [] →
  forallb plain_char special = true → special ≠ [] → existsb (N.eqb 92) repl = false →
  let run := pd_cols_remove_special_characters re_sub_general df None special repl in
  sn_result run = Return (sn_table run)
  ∧ col_names (sn_table run) = map (replace_special special repl) (col_names df).
Proof.
  intros Hcols Hplain Hne Hrepl. cbv zeta. unfold pd_cols_remove_special_characters.
  destruct (col_names df) as [|n ns] eqn:Hnames; [done|]. rewrite <- Hnames.
  rewrite sanitize_map_plain by assumption.
  set (d := foldl _ [] (col_names df)).
  assert (Hget : ∀ c, c ∈ col_names df → dict_get d c = Some (replace_special special repl c)).
  { intros c Hc. unfold d. rewrite dict_get_fill. by rewrite bool_decide_eq_true_2. }
  assert (Hrenamed : col_names (rename_columns d df)
                     = map (replace_special special repl) (col_names df)).
  { rewrite col_names_rename. apply map_ext_in. intros c Hc.
    rewrite Hget; [reflexivity | by apply list_elem_of_In]. }
  destruct d as [|kv d'] eqn:Hd; cbn [sn_result sn_table].
  - exfalso. specialize (Hget n). rewrite Hnames in Hget.
    specialize (Hget (list_elem_of_here _ _)). discriminate.
  - split; [reflexivity | exact Hrenamed].
Qed.

End SanitizerTable.

(** ** Properties of the renamer *)

Lemma filter_ext_in {A} (P Q : A → Prop) `{!∀ x, Decision (P x), !∀ x, Decision (Q x)}
    (l : list A) :
  (∀ x, x ∈ l → (P x ↔ Q x)) → filter P l = filter Q l.
Proof.
  induction l as [|a l IH]; intros Hext; [reflexivity|].
  rewrite !filter_cons.
  rewrite IH by (intros x Hx; apply Hext; by apply list_elem_of_further).
  destruct (decide (P a)) as [Hp|Hp], (decide (Q a)) as [Hq|Hq]; try reflexivity.
  - exfalso. apply Hq. by apply (Hext a (list_elem_of_here _ _)).
  - exfalso. apply Hp. by apply (Hext a (list_elem_of_here _ _)).
Qed.

Lemma filter_all {A} (P : A → Prop) `{!∀ x, Decision (P x)} (l : list A) :
  (∀ x, x ∈ l → P x) → filter P l = l.
Proof.
  induction l as [|a l IH]; intros Hall; [reflexivity|].
  rewrite filter_cons_True by apply Hall, list_elem_of_here.
  f_equal. apply IH. intros x Hx. by apply Hall, list_elem_of_further.
Qed.

Lemma map_injective_on {A B} (f : A → B) (l : list A) (x y : A) :
  NoDup (map f l) → x ∈ l → y ∈ l → f x = f y → x = y.
Proof.
  induction l as [|a l IH]; intros Hnd Hx Hy Hf; [by apply elem_of_nil in Hx|].
  cbn [map] in Hnd. apply NoDup_cons in Hnd as [Ha Hnd].
  apply elem_of_cons in Hx as [->|Hx]; apply elem_of_cons in Hy as [->|Hy].
  - reflexivity.
  - exfalso. apply Ha. rewrite Hf. by apply (list_elem_of_fmap_2 f).
  - exfalso. apply Ha. rewrite <- Hf. by apply (list_elem_of_fmap_2 f).
  - by apply IH.
Qed.

Lemma drop_columns_nil (df : DataFrame) : drop_columns [] df = df.
Proof.
  unfold drop_columns. rewrite filter_all; [by destruct df|].
  intros s _. apply not_elem_of_nil.
Qed.

Lemma col_names_drop_columns (keys : list pystr) (df : DataFrame) (n : pystr) :
  n ∈ col_names (drop_columns keys df) ↔ n ∈ col_names df ∧ n ∉ keys.
Proof.
  unfold col_names, drop_columns. cbn [columns]. split.
  - intros H. apply list_elem_of_fmap in H as (s & -> & Hs).
    apply list_elem_of_filter in Hs as [Hk Hs]. split; [by apply list_elem_of_fmap_2 | exact Hk].
  - intros [H Hk]. apply list_elem_of_fmap in H as (s & -> & Hs).
    apply list_elem_of_fmap_2. by apply list_elem_of_filter.
Qed.

Lemma delitem_present (df : DataFrame) (key : pystr) :
  key ∈ col_names df → delitem df key = Return (drop_columns [key] df).
Proof.
  intros Hkey. unfold delitem. rewrite bool_decide_eq_true_2 by exact Hkey.
  unfold drop_columns. do 2 f_equal. apply list_filter_iff.
  intros s. split.
  - intros Hne Hin. by apply list_elem_of_singleton in Hin.
  - intros Hnin Heq. apply Hnin. rewrite Heq. apply list_elem_of_here.
Qed.

Lemma drop_columns_cons (key : pystr) (keys : list pystr) (df : DataFrame) :
  drop_columns keys (drop_columns [key] df) = drop_columns (key :: keys) df.
Proof.
  unfold drop_columns. cbn [index_name index columns]. f_equal.
  rewrite list_filter_filter. apply list_filter_iff.
  intros s. cbv beta. split.
  - intros [Hk Hs] Hin. apply elem_of_cons in Hin as [Heq|Hin].
    + apply Hs. rewrite Heq. apply list_elem_of_here.
    + by apply Hk.
  - intros Hn. split; intros Hin; apply Hn.
    + by apply list_elem_of_further.
    + apply list_elem_of_singleton in Hin. rewrite Hin. apply list_elem_of_here.
Qed.

(** When no colliding target occurs twice among the values, the
    [override] loop deletes the colliding columns and does not raise. *)
Lemma override_loop_distinct (df0 : DataFrame) (values : list pystr) :
  ∀ df : DataFrame,
    NoDup (filter (fun v => v ∈ col_names df0) values) →
    (∀ v, v ∈ values → v ∈ col_names df0 → v ∈ col_names df) →
    override_loop (list_to_set (col_names df0)) values df
    = (drop_columns (filter (fun v => v ∈ col_names df0) values) df, None).
Proof.
  induction values as [|v rest IH]; intros df Hnd Hin; cbn [override_loop].
  - by rewrite filter_nil, drop_columns_nil.
  - rewrite filter_cons in *. case_bool_decide as Hv.
    + apply elem_of_list_to_set in Hv.
      destruct (decide (v ∈ col_names df0)) as [_|Hn]; [|done].
      apply NoDup_cons in Hnd as [Hfresh Hnd].
      rewrite delitem_present by (apply Hin; [apply list_elem_of_here | exact Hv]).
      rewrite IH; [by rewrite drop_columns_cons | exact Hnd |].
      intros v' Hv' Hcol. apply col_names_drop_columns. split.
      * apply Hin; [by apply list_elem_of_further | exact Hcol].
      * rewrite list_elem_of_singleton. intros ->. apply Hfresh.
        by apply list_elem_of_filter.
    + rewrite elem_of_list_to_set in Hv.
      destruct (decide (v ∈ col_names df0)) as [Hy|_]; [done|].
      apply IH; [exact Hnd|]. intros v' Hv'. apply Hin. by apply list_elem_of_further.
Qed.

Lemma missing_keys_absent (df : DataFrame) (rename_map : pydict) :
  missing_keys_of (list_to_set (col_names df)) rename_map = absent_keys df rename_map.
Proof.
  unfold missing_keys_of, absent_keys. apply list_filter_iff.
  intros k. cbv beta. by rewrite elem_of_list_to_set.
Qed.

Lemma foldl_dict_del (keys : list pystr) :
  ∀ d : pydict, foldl dict_del d keys = filter (fun kv => kv.1 ∉ keys) d.
Proof.
  induction keys as [|k keys IH]; intros d; cbn [foldl].
  - symmetry. apply filter_all. intros kv _. apply not_elem_of_nil.
  - rewrite IH. unfold dict_del. rewrite list_filter_filter.
    apply list_filter_iff. intros kv. cbv beta. rewrite not_elem_of_cons. tauto.
Qed.

(** Deleting the absent keys one by one leaves the entries whose key is a
    column. *)
Lemma prune_absent_keys (df : DataFrame) (rename_map : pydict) :
  foldl dict_del rename_map (absent_keys df rename_map) = pruned_map df rename_map.
Proof.
  rewrite foldl_dict_del. unfold pruned_map, absent_keys. apply filter_ext_in.
  intros [k v] Hkv. cbn [fst]. rewrite list_elem_of_filter. split.
  - intros Hnot. destruct (decide (k ∈ col_names df)) as [Hk|Hk]; [exact Hk|].
    exfalso. apply Hnot. split; [exact Hk|]. by apply (list_elem_of_fmap_2 fst _ (k, v)).
  - intros Hk [Hnk _]. by apply Hnk.
Qed.

Section RenamerProofs.

Variable uni_printable : N -> bool.

(** The run of the renamer on a table with columns, when [override] is
    unset or no colliding target is repeated among the values. *)
Lemma pd_rename_cols_run (df : DataFrame) (rename_map : pydict)
    (override ignore_missing : bool) :
  col_names df ≠ [] →
  (override = true → NoDup (colliding_targets df rename_map)) →
  let df1 := if override then drop_columns (colliding_targets df rename_map) df else df in
  let log := if override then []
             else collision_warnings (list_to_set (col_names df)) (map snd rename_map) in
  pd_rename_cols uni_printable df rename_map override ignore_missing
  = match absent_keys df rename_map with
    | [] =>
        mkRenameRun (rename_columns rename_map df1) rename_map log
          (Return (rename_columns rename_map df1))
    | missing =>
        if ignore_missing then
          mkRenameRun (rename_columns (pruned_map df rename_map) df1)
            (pruned_map df rename_map) log
            (Return (rename_columns (pruned_map df rename_map) df1))
        else
          mkRenameRun df1 rename_map log
            (Raise (PyException (missing_keys_message uni_printable missing)))
    end.
Proof.
  intros Hcols Hdistinct. cbv zeta. unfold pd_rename_cols.
  destruct (col_names df) as [|n ns] eqn:Hnames; [done|]. rewrite <- Hnames.
  rewrite missing_keys_absent.
  destruct override.
  - unfold colliding_targets in *.
    rewrite override_loop_distinct; [|by apply Hdistinct | tauto].
    destruct (absent_keys df rename_map) as [|k ks] eqn:Habsent; [reflexivity|].
    destruct ignore_missing; [|reflexivity].
    rewrite <- Habsent, prune_absent_keys. reflexivity.
  - destruct (absent_keys df rename_map) as [|k ks] eqn:Habsent; [reflexivity|].
    destruct ignore_missing; [|reflexivity].
    rewrite <- Habsent, prune_absent_keys. reflexivity.
Qed.

(** X15: the policy for absent keys, outside the case of a repeated colliding
    target under [override]: unset [ignore_missing] raises, naming the
    absent keys in the order of the map; set, it removes them from the
    caller's map, applies what is left and returns. *)
Lemma pd_rename_cols_absent_keys_policy (df : DataFrame) (rename_map : pydict)
    (override : bool) :
  col_names df ≠ [] → absent_keys df rename_map ≠ [] →
  (override = true → NoDup (colliding_targets df rename_map)) →
  let df1 := if override then drop_columns (colliding_targets df rename_map) df else df in
  let strict := pd_rename_cols uni_printable df rename_map override false in
  let lenient := pd_rename_cols uni_printable df rename_map override true in
  rr_result strict
    = Raise (PyException (lit "Missing keys: "
                            ++ str_list uni_printable (absent_keys df rename_map)
                            ++ lit ", cannot rename"))
  ∧ rr_map lenient = pruned_map df rename_map
  ∧ (∀ k, k ∈ absent_keys df rename_map → dict_get (rr_map lenient) k = None)
  ∧ rr_table lenient = rename_columns (pruned_map df rename_map) df1
  ∧ rr_result lenient = Return (rr_table lenient).
Proof.
  intros Hcols Habsent Hdistinct. cbv zeta.
  rewrite !pd_rename_cols_run by assumption.
  destruct (absent_keys df rename_map) as [|k ks] eqn:Hkeys; [done|].
  cbn [rr_result rr_map rr_table]. repeat split.
  intros k' Hk'. rewrite <- Hkeys in Hk'.
  destruct (dict_get (pruned_map df rename_map) k') as [v|] eqn:Hget; [|reflexivity].
  exfalso. apply dict_get_elem_of in Hget. unfold pruned_map in Hget.
  apply list_elem_of_filter in Hget as [Hin _]. cbn [fst] in Hin.
  unfold absent_keys in Hk'. apply list_elem_of_filter in Hk' as [Hnot _]. by apply Hnot.
Qed.

(** Under [override] and unset [ignore_missing], with a colliding target,
    an absent key and no colliding target repeated: the colliding columns
    are gone from the table although the call raises the error of the
    absent keys. *)
Lemma pd_rename_cols_failure_not_atomic (df : DataFrame) (rename_map : pydict) (v : pystr) :
  v ∈ colliding_targets df rename_map → absent_keys df rename_map ≠ [] →
  NoDup (colliding_targets df rename_map) →
  let run := pd_rename_cols uni_printable df rename_map true false in
  rr_result run
    = Raise (PyException (missing_keys_message uni_printable (absent_keys df rename_map)))
  ∧ rr_table run = drop_columns (colliding_targets df rename_map) df
  ∧ v ∈ col_names df ∧ (v ∉ col_names (rr_table run)).
Proof.
  intros Hv Habsent Hdistinct. cbv zeta.
  assert (Hcol : v ∈ col_names df).
  { unfold colliding_targets in Hv. by apply list_elem_of_filter in Hv as [? _]. }
  rewrite !pd_rename_cols_run; [| by intros Hnil; rewrite Hnil in Hcol; apply elem_of_nil in Hcol | done].
  destruct (absent_keys df rename_map) as [|k ks] eqn:Hkeys; [done|].
  cbn [rr_result rr_table]. repeat split; [exact Hcol|].
  rewrite col_names_drop_columns. tauto.
Qed.

(** C5: on the table with columns a, b and x, the rename map
    {'a': 'x', 'b': 'x', 'zz': 'w'} and [override] set, the key zz is
    absent, yet neither policy for absent keys is carried out: the second
    deletion of column x raises a [KeyError], with [ignore_missing] set
    (the call does not succeed and the caller's map still holds zz) as
    well as unset (the error is not the one that lists the missing key). *)
Theorem pd_rename_cols_repeated_target_key_error :
  let lenient := pd_rename_cols uni_printable df_a_b_x two_onto_x true true in
  let strict := pd_rename_cols uni_printable df_a_b_x two_onto_x true false in
  absent_keys df_a_b_x two_onto_x = [lit "zz"]
  ∧ rr_result lenient = Raise (KeyError (lit "x"))
  ∧ rr_map lenient = two_onto_x
  ∧ rr_result strict = Raise (KeyError (lit "x")).
Proof.
  cbv zeta. repeat split; vm_compute; reflexivity.
Qed.

(** C9: on the table with columns a, b, x and y, the rename map
    {'a': 'x', 'b': 'x', 'c': 'y'}, [override] set and [ignore_missing]
    unset, the targets x and y are columns and the key c is absent; the
    call fails with a [KeyError] for the second deletion of x, not with
    the error of the missing key, and of the two colliding columns only x
    has been deleted: y is still in the table. *)
Theorem pd_rename_cols_repeated_target_partial_delete :
  let run := pd_rename_cols uni_printable df_a_b_x_y two_onto_x_one_onto_y true false in
  colliding_targets df_a_b_x_y two_onto_x_one_onto_y = [lit "x"; lit "x"; lit "y"]
  ∧ absent_keys df_a_b_x_y two_onto_x_one_onto_y = [lit "c"]
  ∧ rr_result run = Raise (KeyError (lit "x"))
  ∧ col_names (rr_table run) = [lit "a"; lit "b"; lit "y"].
Proof.
  cbv zeta. repeat split; vm_compute; reflexivity.
Qed.


End RenamerProofs.


(** C10 as stated fails: on the columns a, b, x, c the rename map
    {'a': 'x', 'b': 'x', 'c': 'c'} maps c to itself, yet under [override]
    the second deletion of x raises a [KeyError] before the loop reaches
    c, and the column c is still in the table, whatever [ignore_missing]
    is. *)
Lemma self_rename_deletes_counterexample :
  rr_result (pd_rename_cols ascii_only df_a_b_x_c two_onto_x_and_self true false)
  = Raise (KeyError (lit "x"))
  ∧ col_names (rr_table (pd_rename_cols ascii_only df_a_b_x_c two_onto_x_and_self true false))
    = [lit "a"; lit "b"; lit "c"]
  ∧ ¬ self_rename_deletes ascii_only df_a_b_x_c (lit "c") two_onto_x_and_self false
  ∧ ¬ self_rename_deletes ascii_only df_a_b_x_c (lit "c") two_onto_x_and_self true.
Proof.
  split; [vm_compute; reflexivity|]. split; [vm_compute; reflexivity|].
  split; intros H; apply H; try (vm_compute; reflexivity); by_decision.
Qed.

(** ** Properties of the epoch converter *)

Lemma cycle_days_ok : all_from cycle_day_ok (Z.to_nat 146097) 0 = true.
Proof. vm_compute. reflexivity. Qed.

Lemma cycle_day_ok_range (r : Z) : 0 <= r < 146097 → cycle_day_ok r = true.
Proof.
  intros Hr. apply (all_from_spec cycle_day_ok (Z.to_nat 146097) 0); [apply cycle_days_ok | lia].
Qed.

Lemma is_leap_cycle (y q : Z) : _is_leap (y + 400 * q) = _is_leap y.
Proof.
  unfold _is_leap.
  replace (y + 400 * q) with (y + (100 * q) * 4) at 1 by lia.
  replace (y + 400 * q) with (y + (4 * q) * 100) at 1 by lia.
  replace (y + 400 * q) with (y + q * 400) by lia.
  by rewrite !Z.mod_add.
Qed.

Lemma ymd2ord_cycle (y m d q : Z) :
  _ymd2ord (y + 400 * q) m d = _ymd2ord y m d + 146097 * q.
Proof.
  unfold _ymd2ord, _days_before_month, _days_before_year. rewrite is_leap_cycle.
  cbv zeta.
  replace (y + 400 * q - 1) with (y - 1 + (100 * q) * 4) at 2 by lia.
  replace (y + 400 * q - 1) with (y - 1 + (4 * q) * 100) at 2 by lia.
  replace (y + 400 * q - 1) with (y - 1 + q * 400) at 2 by lia.
  rewrite !Z.div_add by lia. lia.
Qed.

Lemma days_in_month_cycle (y m q : Z) :
  _days_in_month (y + 400 * q) m = _days_in_month y m.
Proof. unfold _days_in_month. by rewrite is_leap_cycle. Qed.

(** The date of an ordinal is the date of its day of the 400-year cycle,
    moved by whole cycles. *)
Lemma ord2ymd_cycle (q r : Z) :
  0 <= r < 146097 →
  _ord2ymd (146097 * q + r + 1)
  = let '(y, m, d) := _ord2ymd (r + 1) in (y + 400 * q, m, d).
Proof.
  intros Hr. unfold _ord2ymd. cbv zeta.
  replace (146097 * q + r + 1 - 1) with (r + q * 146097) by lia.
  replace (r + 1 - 1) with r by lia.
  rewrite Z.div_add, Z.mod_add by lia.
  rewrite (Z.div_small r 146097), (Z.mod_small r 146097) by lia.
  repeat (match goal with
          | |- context [if ?b then _ else _] => destruct b
          end); f_equal; try f_equal; lia.
Qed.

(** Every ordinal of the supported range has a valid date, and the
    ordinal of that date is the ordinal itself. *)
Lemma ord2ymd_roundtrip (n : Z) :
  1 <= n <= _MAXORDINAL →
  let '(y, m, d) := _ord2ymd n in
  _ymd2ord y m d = n ∧ 1 <= y <= 9999 ∧ 1 <= m <= 12 ∧ 1 <= d <= _days_in_month y m.
Proof.
  unfold _MAXORDINAL. intros Hn.
  pose (q := (n - 1) / 146097). pose (r := (n - 1) mod 146097).
  assert (Hr : 0 <= r < 146097) by (apply Z.mod_pos_bound; lia).
  assert (Hq : 0 <= q <= 24).
  { split; [apply Z.div_pos; lia|]. apply Z.lt_succ_r, Z.div_lt_upper_bound; lia. }
  assert (Hsplit : n = 146097 * q + r + 1).
  { pose proof (Z.div_mod (n - 1) 146097). unfold q, r. lia. }
  rewrite Hsplit, ord2ymd_cycle by exact Hr.
  pose proof (cycle_day_ok_range r Hr) as Hok. unfold cycle_day_ok in Hok.
  destruct (_ord2ymd (r + 1)) as [[y m] d].
  repeat (apply andb_true_iff in Hok as [Hok ?]).
  rewrite ymd2ord_cycle, days_in_month_cycle.
  assert (Hlast : y <= 399 ∨ 146097 - 366 <= r).
  { match goal with
    | H : (_ || _) = true |- _ => apply orb_true_iff in H as [H|H]; [left | right]; lia
    end. }
  repeat split; try lia.
Qed.




(** Adding whole seconds to the epoch origin lands on the valid date and
    time that many seconds away, as long as the day exists. *)
Lemma epoch_plus_seconds (secs : Z) :
  -62135596800 <= secs < 253402300800 →
  ∃ dt, datetime_add_seconds (mkDatetime 1970 1 1 0 0 0) secs = Return dt
        ∧ valid_datetime dt ∧ seconds_since_epoch dt = secs.
Proof.
  intros Hsecs. unfold datetime_add_seconds. cbn [year month day hour minute second].
  change (_ymd2ord 1970 1 1) with 719163.
  replace (0 * 3600 + 0 * 60 + 0 + secs) with secs by lia.
  pose proof (Z.div_mod secs 86400) as Hdm.
  pose proof (Z.mod_pos_bound secs 86400) as Hrem.
  set (days := 719163 + secs / 86400). set (rem := secs mod 86400) in *.
  assert (Hdays : 1 <= days <= _MAXORDINAL).
  { unfold days, _MAXORDINAL. split.
    - assert (-719162 <= secs / 86400) by (apply Z.div_le_lower_bound; lia). lia.
    - assert (secs / 86400 < 2932897) by (apply Z.div_lt_upper_bound; lia). lia. }
  cbv zeta.
  replace ((0 <? days) && (days <=? _MAXORDINAL)) with true
    by (symmetry; apply andb_true_iff; split; [apply Z.ltb_lt | apply Z.leb_le]; lia).
  pose proof (ord2ymd_roundtrip days Hdays) as Hdate.
  destruct (_ord2ymd days) as [[y m] d]. destruct Hdate as (Hord & Hy & Hm & Hd).
  eexists. split; [reflexivity|]. split.
  - unfold valid_datetime. cbn [year month day hour minute second].
    pose proof (Z.mod_pos_bound rem 3600). pose proof (Z.mod_pos_bound (rem mod 3600) 60).
    repeat split; try lia.
    + apply Z.div_pos; lia.
    + apply Z.div_lt_upper_bound; lia.
    + apply Z.div_pos; lia.
    + apply Z.div_lt_upper_bound; lia.
  - unfold seconds_since_epoch. cbn [year month day hour minute second].
    change (_ymd2ord 1970 1 1) with 719163. rewrite Hord.
    pose proof (Z.div_mod rem 3600). pose proof (Z.div_mod (rem mod 3600) 60).
    unfold days. lia.
Qed.

Section EpochProofs.

Variable strftime_platform : datetime -> pystr -> pystr.

Lemma strftime_portable_directive (d : N) (rest : pystr) (dt : datetime) :
  strftime_portable (37%N :: d :: rest) dt
  = match directive d dt, strftime_portable rest dt with
    | Some s, Some r => Some (s ++ r)
    | _, _ => None
    end.
Proof. reflexivity. Qed.

Lemma strftime_portable_char (c : N) (rest : pystr) (dt : datetime) :
  (c =? 37)%N = false →
  strftime_portable (c :: rest) dt = cons c <$> strftime_portable rest dt.
Proof. intros Hc. cbn [strftime_portable]. by rewrite Hc. Qed.

(** For a year of four digits the default format is rendered without the
    platform: year, month and day joined by hyphens, a [T], then hour,
    minute and second joined by colons, each but the year on two digits. *)
Lemma strftime_iso (dt : datetime) :
  1000 <= year dt →
  strftime strftime_platform dt ISO_8601_FORMAT
  = str_int (year dt) ++ lit "-" ++ zero_padded 2 (month dt) ++ lit "-"
      ++ zero_padded 2 (day dt) ++ lit "T" ++ zero_padded 2 (hour dt) ++ lit ":"
      ++ zero_padded 2 (minute dt) ++ lit ":" ++ zero_padded 2 (second dt).
Proof.
  intros Hy. unfold strftime.
  assert (Hyear : directive 89 dt = Some (str_int (year dt))).
  { unfold directive. change (89 =? 89)%N with true. cbv iota.
    by rewrite (proj2 (Z.leb_le 1000 (year dt)) Hy). }
  let f := eval vm_compute in ISO_8601_FORMAT in change ISO_8601_FORMAT with f.
  repeat first [ rewrite strftime_portable_directive
               | rewrite strftime_portable_char by reflexivity ].
  rewrite Hyear.
  change (directive 109 dt) with (Some (zero_padded 2 (month dt))).
  change (directive 100 dt) with (Some (zero_padded 2 (day dt))).
  change (directive 72 dt) with (Some (zero_padded 2 (hour dt))).
  change (directive 77 dt) with (Some (zero_padded 2 (minute dt))).
  change (directive 83 dt) with (Some (zero_padded 2 (second dt))).
  cbn [strftime_portable fmap option_fmap option_map]. rewrite app_nil_r. reflexivity.
Qed.


End EpochProofs.


(** ** Properties of the JSON loader *)

Lemma file_lines_from_concat (s : pystr) :
  ∀ cur, concat (file_lines_from cur s) = cur ++ s.
Proof.
  induction s as [|c s IH]; intros cur; cbn [file_lines_from].
  - destruct cur; cbn [concat]; by rewrite ?app_nil_r.
  - destruct (c =? 10)%N; [cbn [concat]|]; rewrite IH; by rewrite <- app_assoc.
Qed.

(** The lines of a file, put end to end, are its text. *)
Lemma file_lines_concat (text : pystr) : concat (file_lines text) = text.
Proof. apply file_lines_from_concat. Qed.

Section JsonProofs.

Variable json : Type.
Variable json_loads : pystr -> option json.
Variable fs : pystr -> option pystr.

Lemma decode_lines_all (lines : list pystr) (vs : list json) :
  Forall2 (fun line v => json_loads line = Some v) lines vs →
  ∀ lineno, decode_lines json json_loads lineno lines = Return vs.
Proof.
  induction 1 as [|line v lines vs Hline _ IH]; intros lineno; cbn [decode_lines].
  - reflexivity.
  - unfold decode_line. rewrite Hline. cbn [bind]. by rewrite IH.
Qed.

Lemma decode_lines_first_bad (good : list pystr) (bad : pystr) (rest : list pystr) :
  Forall (fun line => is_Some (json_loads line)) good → json_loads bad = None →
  ∀ lineno, decode_lines json json_loads lineno (good ++ bad :: rest)
            = Raise (JSONDecodeError (lineno + length good)).
Proof.
  intros Hgood Hbad. induction Hgood as [|line good [v Hv] _ IH]; intros lineno;
    cbn [app decode_lines length]; unfold decode_line.
  - rewrite Hbad. cbn [bind]. do 2 f_equal. lia.
  - rewrite Hv. cbn [bind]. rewrite IH. cbn [bind]. do 2 f_equal. lia.
Qed.

(** C7: for a file that can be opened, if every line decodes the loader
    returns the decoded values, one per line and in line order; if some
    line does not decode, the loader raises the decoder's error at the
    first such line (counted from 0) and returns no list.  A file that
    cannot be opened raises the error of the file system. *)
Theorem load_json_all_or_nothing (file_path text : pystr) :
  fs file_path = Some text →
  (∀ vs, Forall2 (fun line v => json_loads line = Some v) (file_lines text) vs →
         load_json json json_loads fs file_path = Return vs
         ∧ length vs = length (file_lines text))
  ∧ (Forall (fun line => is_Some (json_loads line)) (file_lines text) →
     ∃ vs, load_json json json_loads fs file_path = Return vs
           ∧ Forall2 (fun line v => json_loads line = Some v) (file_lines text) vs)
  ∧ (∀ good bad rest,
       file_lines text = good ++ bad :: rest →
       Forall (fun line => is_Some (json_loads line)) good → json_loads bad = None →
       load_json json json_loads fs file_path = Raise (JSONDecodeError (length good)))
  ∧ concat (file_lines text) = text.
Proof.
  intros Hopen. unfold load_json. rewrite Hopen. split; [|split; [|split]].
  - intros vs Hvs. split; [by apply decode_lines_all|].
    symmetry. by eapply Forall2_length.
  - intros Hall.
    assert (Hvs : ∃ vs, Forall2 (fun line v => json_loads line = Some v) (file_lines text) vs).
    { induction Hall as [|line lines [v Hv] _ [vs IH]].
      - exists []. constructor.
      - exists (v :: vs). by constructor. }
    destruct Hvs as [vs Hvs]. exists vs. split; [by apply decode_lines_all | exact Hvs].
  - intros good bad rest -> Hgood Hbad.
    by rewrite (decode_lines_first_bad good bad rest Hgood Hbad 0).
  - apply file_lines_concat.
Qed.

Lemma load_json_missing_file (file_path : pystr) :
  fs file_path = None → load_json json json_loads fs file_path = Raise OSError.
Proof. intros Hnone. unfold load_json. by rewrite Hnone. Qed.

End JsonProofs.

Lemma load_json_all_or_nothing_witness :
  load_json pystr digits_loads one_file (lit "rows.jsonl") = Return [lit "1"; lit "22"]
  ∧ length [lit "1"; lit "22"]
    = length (file_lines (lit "1" ++ [10%N] ++ lit "22" ++ [10%N])).
Proof.
  apply (load_json_all_or_nothing pystr digits_loads one_file (lit "rows.jsonl")
           (lit "1" ++ [10%N] ++ lit "22" ++ [10%N])).
  - reflexivity.
  - repeat constructor.
Defined.

(** ** Worked examples *)

(** [repr("it's")] takes double quotes; [repr] of a string with both kinds
    of quote escapes the single one. *)
Example repr_single_quote :
  py_repr_str ascii_only (lit "it's") = [34%N] ++ lit "it's" ++ [34%N].
Proof. reflexivity. Qed.

Example repr_both_quotes :
  py_repr_str ascii_only (lit "a'b" ++ [34%N]) = lit "'a\'b" ++ [34%N] ++ lit "'".
Proof. reflexivity. Qed.

(** A newline and a backslash take two characters each, a control
    character four. *)
Example repr_escapes :
  repr_body ascii_only ([10%N] ++ lit "\" ++ [1%N]) = lit "\n\\\x01".
Proof. reflexivity. Qed.

(** An unprintable code point outside ASCII is written as an escape, a
    printable one stands for itself and takes two bytes or more. *)
Example literal_width_e_acute :
  literal_width ascii_only (VStr [233%N]) = 4
  ∧ literal_width (fun _ => true) (VStr [233%N]) = 2.
Proof. split; reflexivity. Qed.

Example calc_col_lengths_three_columns :
  calc_col_lengths ascii_only library_dup_label df_three_columns
  = Return (<[lit "name" := 8]> (<[lit "n" := 7]> (<[lit "gone" := 0]> ∅))).
Proof. vm_compute. reflexivity. Qed.

Example calc_col_lengths_no_rows :
  calc_col_lengths ascii_only library_dup_label df_x_y = Return ∅.
Proof. reflexivity. Qed.

(** A length of 100 bytes becomes 101, one of 199 becomes 200. *)
Example buffered_int_examples :
  buffered_int (NumInt 100) = Return 101 ∧ buffered_int (NumInt 199) = Return 200
  ∧ buffered_int_binary64 100 = Some 101 ∧ buffered_int_binary64 199 = Some 200.
Proof. repeat split; vm_compute; reflexivity. Qed.

(** The report of the previewer for the first row, with widths. *)
Example pd_preview_report :
  pv_log (pd_preview ascii_only library_dup_label sample_loc
            df_three_columns (Some [lit "name"; lit "gone"]) (Some 1) false
            (Some (lit "load")) true)
  = [(INFO,
      py_join [10%N]
        [ [10%N] ++ lit "----- DATAFRAME PREVIEW (tag: load) -----";
          lit "DF shape: (2, 3)";
          lit "No index name defined";
          lit "Row: 0";
          lit "    1. 'name' (object: 4): " ++ [34%N] ++ lit "it's" ++ [34%N];
          lit "    3. 'gone' (object: 0): None" ])].
Proof. vm_compute. reflexivity. Qed.

(** Sets of the regular-expression engine: a leading closing bracket and a
    trailing hyphen are members, a caret negates, a descending range is an
    error. *)
Example compile_set_examples :
  compile_set (lit "[]a]") = SetOk false [SLiteral 93; SLiteral 97]
  ∧ compile_set (lit "[a-]") = SetOk false [SLiteral 97; SLiteral 45]
  ∧ compile_set (lit "[^a-c]") = SetOk true [SRange 97 99]
  ∧ compile_set (lit "[z-a]") = SetError
  ∧ compile_set (lit "[a\]") = SetError.
Proof. repeat split; reflexivity. Qed.

(** The idempotence example of the specification: A#B becomes A_B, and a
    second pass leaves A_B as it is. *)
Example sanitizer_twice :
  let df := mkDataFrame None [] [empty_column "A#B"] in
  let once := pd_cols_remove_special_characters library_re_sub df None (lit "#") (lit "_") in
  let twice := pd_cols_remove_special_characters library_re_sub (sn_table once) None
                 (lit "#") (lit "_") in
  col_names (sn_table once) = [lit "A_B"] ∧ sn_table twice = sn_table once.
Proof. split; vm_compute; reflexivity. Qed.

(** Without [override] a colliding target is only warned about, and the
    rename leaves two columns of the same name. *)
Example pd_rename_cols_duplicate :
  let run := pd_rename_cols ascii_only df_x_y [(lit "y", lit "x")] false false in
  col_names (rr_table run) = [lit "x"; lit "x"]
  ∧ rr_log run
    = [(WARNING, lit "Out column already exists [x], rename will create dupe")].
Proof. split; vm_compute; reflexivity. Qed.

(** The example of the specification for an absent key. *)
Example pd_rename_cols_nonexistent :
  let rename_map := [(lit "nonexistent", lit "x")] in
  let df := mkDataFrame None [] [empty_column "y"] in
  rr_result (pd_rename_cols ascii_only df rename_map false false)
  = Raise (PyException (lit "Missing keys: ['nonexistent'], cannot rename"))
  ∧ rr_result (pd_rename_cols ascii_only df rename_map false true) = Return df
  ∧ rr_map (pd_rename_cols ascii_only df rename_map false true) = [].
Proof. repeat split; vm_compute; reflexivity. Qed.

(** A leap day, the last second before the epoch, and the first instant
    without a date. *)
Example convert_epoch_examples :
  convert_epoch_to_datetime library_strftime (Some 951782400000) ISO_8601_FORMAT
  = Return (Some (lit "2000-02-29T00:00:00"))
  ∧ convert_epoch_to_datetime library_strftime (Some (-1)) ISO_8601_FORMAT
    = Return (Some (lit "1969-12-31T23:59:59"))
  ∧ convert_epoch_to_datetime library_strftime (Some 253402300800000) ISO_8601_FORMAT
    = Raise OverflowError.
Proof. repeat split; vm_compute; reflexivity. Qed.

(** A file whose second line is not a document: nothing is returned. *)
Example load_json_bad_line :
  load_json pystr digits_loads
    (fun _ => Some (lit "1" ++ [10%N] ++ lit "x" ++ [10%N] ++ lit "3" ++ [10%N]))
    (lit "rows.jsonl")
  = Raise (JSONDecodeError 1).
Proof. reflexivity. Qed.

(** ** Further properties of the column-width estimator *)

Section WidthFurther.

Variable uni_printable : N -> bool.
Variable dup_label_max : DataFrame -> pystr -> outcome maxval.

Lemma width_entry_nonneg (s : Series) : 0 <= width_entry uni_printable s.
Proof.
  destruct (decide (non_null s = [])) as [Hnil|Hne].
  - unfold width_entry. by rewrite Hnil.
  - destruct (width_entry_max uni_printable s Hne) as (w & _ & Hw & ->).
    unfold one_percent_more. apply Z.div_pos; lia.
Qed.

Lemma fold_entries_inv (ss : list Series) :
  ∀ (m : gmap pystr Z) (k : pystr) (w : Z),
    foldl (fun acc s => <[name s := width_entry uni_printable s]> acc) m ss !! k = Some w →
    m !! k = Some w ∨ ∃ s, s ∈ ss ∧ name s = k ∧ w = width_entry uni_printable s.
Proof.
  induction ss as [|s ss IH]; intros m k w; cbn [foldl]; [by left|].
  intros Hlook. destruct (IH _ _ _ Hlook) as [Hm|(s' & Hs' & Hname & Hw)].
  - destruct (decide (name s = k)) as [Heq|Hne].
    + rewrite Heq, lookup_insert_eq in Hm. injection Hm as <-.
      right. exists s. split; [apply list_elem_of_here | by split].
    + rewrite lookup_insert_ne in Hm by exact Hne. by left.
  - right. exists s'. split; [by apply list_elem_of_further | by split].
Qed.

Lemma fold_entries_dom (ss : list Series) :
  ∀ m : gmap pystr Z,
    dom (foldl (fun acc s => <[name s := width_entry uni_printable s]> acc) m ss)
    = dom m ∪ list_to_set (map name ss).
Proof.
  induction ss as [|s ss IH]; intros m; cbn [foldl map].
  - by rewrite list_to_set_nil, union_empty_r_L.
  - rewrite IH, dom_insert_L, list_to_set_cons.
    apply set_eq. intros x. rewrite !elem_of_union. tauto.
Qed.

(** On a table with distinct column names the estimator's result is the
    fold of the per-column entries, or empty when an axis is empty. *)
Lemma calc_col_lengths_fold (df : DataFrame) :
  NoDup (col_names df) →
  calc_col_lengths uni_printable dup_label_max df
  = Return (if df_empty df then ∅
            else foldl (fun acc s => <[name s := width_entry uni_printable s]> acc)
                   ∅ (columns df)).
Proof.
  intros Hnd. unfold calc_col_lengths. destruct (df_empty df); [reflexivity|].
  apply calc_loop_fold. intros s Hs. by apply getitem_unique.
Qed.

(** X1: on a table with distinct column names the estimator returns; the
    map is empty when the table has no rows, it has an entry for every
    column, and for nothing else, when the table has rows; and no entry is
    negative. *)
Theorem calc_col_lengths_keys (df : DataFrame) :
  NoDup (col_names df) →
  ∃ m, calc_col_lengths uni_printable dup_label_max df = Return m
       ∧ (index df = [] → m = ∅)
       ∧ (index df ≠ [] → dom m = list_to_set (col_names df))
       ∧ (∀ col w, m !! col = Some w → 0 <= w).
Proof.
  intros Hnd. eexists. split; [by apply calc_col_lengths_fold|].
  unfold df_empty. split; [|split].
  - intros ->. reflexivity.
  - intros Hidx. destruct (index df) as [|i idx]; [done|].
    unfold col_names. destruct (columns df) as [|c cs]; [by rewrite dom_empty_L|].
    by rewrite fold_entries_dom, dom_empty_L, union_empty_l_L.
  - intros col w. destruct (index df) as [|i idx]; [by rewrite lookup_empty|].
    destruct (columns df) as [|c cs]; [by rewrite lookup_empty|].
    intros Hlook. apply fold_entries_inv in Hlook as [Hm|(s & _ & _ & ->)].
    + by rewrite lookup_empty in Hm.
    + apply width_entry_nonneg.
Qed.

(** X2: the 1% buffer adds one byte per full hundred bytes of the longest
    literal: the entry is [w + w / 100] for the maximum [w], so a column
    whose longest literal is under 100 bytes gets exactly that length. *)
Theorem calc_col_lengths_buffer (df : DataFrame) (s : Series) :
  wf_df df → NoDup (col_names df) → s ∈ columns df → non_null s ≠ [] →
  ∃ m w, calc_col_lengths uni_printable dup_label_max df = Return m
    ∧ is_max w (map (literal_width uni_printable) (non_null s))
    ∧ m !! name s = Some (w + w / 100)
    ∧ (w < 100 → m !! name s = Some w).
Proof.
  intros Hwf Hnd Hs Hne.
  assert (Hidx : index df ≠ []).
  { intros Hnil. apply Hne. unfold non_null.
    unfold wf_df in Hwf. rewrite Forall_forall in Hwf.
    specialize (Hwf s Hs). rewrite Hnil in Hwf.
    destruct (cells s); [reflexivity | discriminate]. }
  destruct (calc_col_lengths_entries uni_printable dup_label_max df s Hnd Hidx Hs)
    as (m & Hm & Hlook).
  destruct (width_entry_max uni_printable s Hne) as (w & Hmax & Hw & Hentry).
  assert (Hsum : one_percent_more w = w + w / 100).
  { unfold one_percent_more. replace (101 * w) with (w + w * 100) by lia.
    rewrite Z.div_add by lia. lia. }
  exists m, w. split; [exact Hm|]. split; [exact Hmax|].
  rewrite Hlook, Hentry, Hsum. split; [reflexivity|].
  intros Hsmall. rewrite Z.div_small by lia. f_equal. lia.
Qed.

Lemma one_percent_more_mono (a b : Z) : a <= b → one_percent_more a <= one_percent_more b.
Proof. intros Hab. unfold one_percent_more. apply Z.div_le_mono; lia. Qed.

(** A column whose non-null values all occur in another column is not
    wider than that column. *)
Lemma width_entry_mono (s1 s2 : Series) :
  (∀ v, v ∈ non_null s1 → v ∈ non_null s2) →
  width_entry uni_printable s1 <= width_entry uni_printable s2.
Proof.
  intros Hsub. destruct (decide (non_null s1 = [])) as [Hnil|Hne1].
  - unfold width_entry at 1. rewrite Hnil. apply width_entry_nonneg.
  - assert (Hne2 : non_null s2 ≠ []).
    { destruct (non_null s1) as [|v vs] eqn:Hv; [done|].
      intros Hnil. specialize (Hsub v (list_elem_of_here _ _)).
      rewrite Hnil in Hsub. by apply elem_of_nil in Hsub. }
    destruct (width_entry_max uni_printable s1 Hne1) as (w1 & [Hin1 _] & _ & ->).
    destruct (width_entry_max uni_printable s2 Hne2) as (w2 & [_ Hle2] & _ & ->).
    apply one_percent_more_mono, Hle2.
    apply list_elem_of_fmap in Hin1 as (v & -> & Hv).
    apply list_elem_of_fmap_2. by apply Hsub.
Qed.

Lemma non_null_prefix (n : Z) (s : Series) (v : pyval) :
  v ∈ non_null (mkSeries (name s) (dtype s) (py_prefix n (cells s))) → v ∈ non_null s.
Proof.
  unfold non_null. cbn [cells]. rewrite !list_elem_of_filter.
  intros [Hv Hin]. split; [exact Hv|]. by eapply py_prefix_subseteq.
Qed.

Lemma calc_col_lengths_lookup_inv (df : DataFrame) (m : gmap pystr Z) (col : pystr) (w : Z) :
  NoDup (col_names df) →
  calc_col_lengths uni_printable dup_label_max df = Return m → m !! col = Some w →
  index df ≠ [] ∧ ∃ s, s ∈ columns df ∧ name s = col ∧ w = width_entry uni_printable s.
Proof.
  intros Hnd Hm Hlook. rewrite calc_col_lengths_fold in Hm by exact Hnd.
  injection Hm as <-. unfold df_empty in Hlook.
  destruct (index df) as [|i idx]; [by rewrite lookup_empty in Hlook|].
  split; [done|].
  destruct (columns df) as [|c cs] eqn:Hcols; [by rewrite lookup_empty in Hlook|].
  apply fold_entries_inv in Hlook as [Hempty|Hfound]; [|exact Hfound].
  by rewrite lookup_empty in Hempty.
Qed.

(** X3: the widths computed over the first rows of a table, as the
    previewer asks for them, never exceed the widths computed over the
    whole table. *)
Theorem calc_col_lengths_head_le (df : DataFrame) (num_rows : option Z) :
  NoDup (col_names df) →
  ∃ m_head m_all,
    calc_col_lengths uni_printable dup_label_max (df_head df num_rows) = Return m_head
    ∧ calc_col_lengths uni_printable dup_label_max df = Return m_all
    ∧ ∀ col w, m_head !! col = Some w → ∃ w', m_all !! col = Some w' ∧ w <= w'.
Proof.
  intros Hnd.
  assert (Hnd' : NoDup (col_names (df_head df num_rows))) by by rewrite df_head_col_names.
  destruct (calc_col_lengths_returns uni_printable dup_label_max _ Hnd') as [m_head Hhead].
  destruct (calc_col_lengths_returns uni_printable dup_label_max _ Hnd) as [m_all Hall].
  exists m_head, m_all. split; [exact Hhead|]. split; [exact Hall|].
  intros col w Hlook.
  destruct (calc_col_lengths_lookup_inv _ _ _ _ Hnd' Hhead Hlook)
    as (Hidx' & s' & Hs' & Hname & ->).
  destruct num_rows as [n|]; cbn [df_head index columns] in Hidx', Hs'.
  2:{ exists (width_entry uni_printable s'). split; [|lia].
      destruct (calc_col_lengths_entries uni_printable dup_label_max df s' Hnd Hidx' Hs')
        as (m & Hm & Hentry).
      rewrite Hall in Hm. injection Hm as <-. by rewrite <- Hname. }
  assert (Hidx : index df ≠ []).
  { intros Hnil. apply Hidx'. rewrite Hnil. unfold py_prefix.
    destruct (0 <=? n); apply take_nil. }
  apply list_elem_of_fmap in Hs' as (s & -> & Hs). cbn [name] in Hname.
  destruct (calc_col_lengths_entries uni_printable dup_label_max df s Hnd Hidx Hs)
    as (m & Hm & Hentry).
  rewrite Hall in Hm. injection Hm as <-.
  exists (width_entry uni_printable s). split; [by rewrite <- Hname|].
  apply width_entry_mono. intros v. apply non_null_prefix.
Qed.

Lemma utf8_len_app (a b : pystr) : utf8_len (a ++ b) = utf8_len a + utf8_len b.
Proof.
  induction a as [|c a IH]; [reflexivity|].
  change (utf8_len ((c :: a) ++ b)) with (utf8_width c + utf8_len (a ++ b)).
  change (utf8_len (c :: a)) with (utf8_width c + utf8_len a). lia.
Qed.

Lemma utf8_len_ascii (s : pystr) :
  Forall (fun c => (c < 128)%N) s → utf8_len s = Z.of_nat (length s).
Proof.
  induction 1 as [|c s Hc _ IH]; [reflexivity|].
  change (utf8_len (c :: s)) with (utf8_width c + utf8_len s). rewrite IH.
  cbn [length]. unfold utf8_width. destruct (N.ltb_spec c 128); lia.
Qed.

Lemma hex_fixed_length (w : nat) : ∀ n, length (hex_fixed w n) = w.
Proof.
  induction w as [|w IH]; intros n; cbn [hex_fixed]; [reflexivity|].
  rewrite length_app, IH. cbn. lia.
Qed.

Lemma utf8_width_bounds (c : N) : 1 <= utf8_width c <= 4.
Proof.
  unfold utf8_width.
  repeat (match goal with |- context [if ?b then _ else _] => destruct b end); lia.
Qed.

(** One code point takes between 1 and 10 bytes in the literal. *)
Lemma repr_char_bytes (quote ch : N) :
  (quote < 128)%N → 1 <= utf8_len (repr_char uni_printable quote ch) <= 10.
Proof.
  intros Hq. unfold repr_char.
  assert (Hesc : ∀ c w, (c < 128)%N →
            utf8_len ([92%N; c] ++ hex_fixed w ch) = 2 + Z.of_nat w).
  { intros c w Hc. rewrite utf8_len_ascii; [rewrite length_app, hex_fixed_length; cbn; lia|].
    apply Forall_app. split; [repeat constructor; lia | apply hex_fixed_ascii]. }
  assert (Hpair : ∀ c, (c < 128)%N → utf8_len [92%N; c] = 2).
  { intros c Hc. rewrite utf8_len_ascii; [reflexivity | repeat constructor; lia]. }
  destruct ((ch =? quote)%N || (ch =? 92)%N) eqn:Hquote.
  { rewrite Hpair; [lia|].
    apply orb_true_iff in Hquote as [H|H]; apply N.eqb_eq in H; lia. }
  destruct (ch =? 9)%N; [rewrite Hpair; lia|].
  destruct (ch =? 10)%N; [rewrite Hpair; lia|].
  destruct (ch =? 13)%N; [rewrite Hpair; lia|].
  destruct ((ch <? 32)%N || (ch =? 127)%N); [rewrite (Hesc 120%N 2%nat); lia|].
  pose proof (utf8_width_bounds ch) as Hch.
  assert (Hone : utf8_len [ch] = utf8_width ch) by (cbn; lia).
  destruct (ch <? 127)%N; [rewrite Hone; lia|].
  destruct (py_isprintable uni_printable ch); [rewrite Hone; lia|].
  destruct (ch <=? 255)%N; [rewrite (Hesc 120%N 2%nat); lia|].
  destruct (ch <=? 65535)%N; [rewrite (Hesc 117%N 4%nat); lia|].
  rewrite (Hesc 85%N 8%nat); lia.
Qed.

Lemma repr_body_bytes (val : pystr) :
  Z.of_nat (length val) <= utf8_len (repr_body uni_printable val)
  <= 10 * Z.of_nat (length val).
Proof.
  unfold repr_body. generalize (repr_quote_ascii val). generalize (repr_quote val).
  intros q Hq. induction val as [|c val IH]; [cbn; lia|].
  cbn [flat_map]. rewrite utf8_len_app. pose proof (repr_char_bytes q c Hq).
  change (length (c :: val)) with (S (length val)). lia.
Qed.

(** X4: [_to_literal] never raises, and the bytes it returns number at
    least the characters of the string and at most ten times as many. *)
Theorem to_literal_bounds (val : pystr) :
  ∃ bs, _to_literal uni_printable val = Return bs
        ∧ (length val <= length bs <= 10 * length val)%nat.
Proof.
  destruct (to_literal_len uni_printable val) as (bs & Hbs & Hlen).
  exists bs. split; [exact Hbs|].
  pose proof (repr_body_bytes val). lia.
Qed.

(** X5: a text of printable ASCII characters without backslash that does
    not hold both kinds of quote is its own literal: the estimator
    measures its length. *)
Theorem literal_of_plain_text (s : pystr) :
  Forall (fun c => (32 <= c < 127)%N ∧ c ≠ 92%N) s →
  39%N ∉ s ∨ 34%N ∉ s →
  repr_body uni_printable s = s
  ∧ literal_width uni_printable (VStr s) = Z.of_nat (length s).
Proof.
  intros Hplain Hquotes.
  assert (Hq : ∀ c, c ∈ s → c ≠ repr_quote s).
  { intros c Hc ->. unfold repr_quote in Hc.
    destruct (existsb (N.eqb 39) s) eqn:H39; destruct (existsb (N.eqb 34) s) eqn:H34;
      cbn [andb negb] in Hc.
    - apply existsb_exists in H39 as (x & Hx & Hx39). apply N.eqb_eq in Hx39. subst x.
      apply existsb_exists in H34 as (y & Hy & Hy34). apply N.eqb_eq in Hy34. subst y.
      destruct Hquotes as [Hn|Hn]; apply Hn; by apply list_elem_of_In.
    - assert (existsb (N.eqb 34) s = true); [|congruence].
      apply existsb_exists. exists 34%N. split; [by apply list_elem_of_In | reflexivity].
    - assert (existsb (N.eqb 39) s = true); [|congruence].
      apply existsb_exists. exists 39%N. split; [by apply list_elem_of_In | reflexivity].
    - assert (existsb (N.eqb 39) s = true); [|congruence].
      apply existsb_exists. exists 39%N. split; [by apply list_elem_of_In | reflexivity]. }
  assert (Hbody : repr_body uni_printable s = s).
  { clear Hquotes. unfold repr_body. revert Hq. generalize (repr_quote s). intros q Hq.
    induction Hplain as [|c s [[Hlo Hhi] H92] _ IH]; [reflexivity|].
    cbn [flat_map]. rewrite IH by (intros x Hx; apply Hq; by apply list_elem_of_further).
    specialize (Hq c (list_elem_of_here _ _)). unfold repr_char.
    rewrite (proj2 (N.eqb_neq c q)) by done. rewrite (proj2 (N.eqb_neq c 92)) by done.
    rewrite (proj2 (N.eqb_neq c 9)), (proj2 (N.eqb_neq c 10)), (proj2 (N.eqb_neq c 13)) by lia.
    rewrite (proj2 (N.ltb_ge c 32)), (proj2 (N.eqb_neq c 127)) by lia.
    rewrite (proj2 (N.ltb_lt c 127)) by lia. reflexivity. }
  split; [exact Hbody|].
  unfold literal_width. cbn [astype_str]. rewrite Hbody. apply utf8_len_ascii.
  eapply Forall_impl; [exact Hplain|]. intros c [[_ Hhi] _]. lia.
Qed.

End WidthFurther.

Lemma calc_col_lengths_keys_witness :
  ∃ m, calc_col_lengths ascii_only library_dup_label df_three_columns = Return m
       ∧ (index df_three_columns = [] → m = ∅)
       ∧ (index df_three_columns ≠ [] → dom m = list_to_set (col_names df_three_columns))
       ∧ (∀ col w, m !! col = Some w → 0 <= w).
Proof.
  apply (calc_col_lengths_keys ascii_only library_dup_label df_three_columns).
  unfold col_names. cbn [df_three_columns columns map name].
  refine (bool_decide_unpack _ _). vm_compute. exact I.
Defined.

Lemma calc_col_lengths_buffer_witness :
  ∃ m w, calc_col_lengths ascii_only library_dup_label df_one_text = Return m
    ∧ is_max w (map (literal_width ascii_only)
                  (non_null (mkSeries (lit "c") (lit "object") [VStr (lit "ab")])))
    ∧ m !! lit "c" = Some (w + w / 100)
    ∧ (w < 100 → m !! lit "c" = Some w).
Proof.
  apply (calc_col_lengths_buffer ascii_only library_dup_label df_one_text
           (mkSeries (lit "c") (lit "object") [VStr (lit "ab")])).
  - repeat constructor.
  - apply NoDup_singleton.
  - apply list_elem_of_here.
  - discriminate.
Defined.

Lemma calc_col_lengths_head_le_witness :
  ∃ m_head m_all,
    calc_col_lengths ascii_only library_dup_label (df_head df_three_columns (Some 1))
      = Return m_head
    ∧ calc_col_lengths ascii_only library_dup_label df_three_columns = Return m_all
    ∧ ∀ col w, m_head !! col = Some w → ∃ w', m_all !! col = Some w' ∧ w <= w'.
Proof.
  apply (calc_col_lengths_head_le ascii_only library_dup_label df_three_columns (Some 1)).
  refine (bool_decide_unpack _ _). vm_compute. exact I.
Defined.

Lemma literal_of_plain_text_witness :
  repr_body ascii_only (lit "it's") = lit "it's"
  ∧ literal_width ascii_only (VStr (lit "it's")) = Z.of_nat (length (lit "it's")).
Proof.
  apply (literal_of_plain_text ascii_only (lit "it's")).
  - repeat constructor; (lia || discriminate).
  - right. intros Hin. repeat (apply elem_of_cons in Hin as [Hin|Hin]; [discriminate|]).
    by apply elem_of_nil in Hin.
Defined.

(** ** Further properties of the previewer *)

Section PreviewFurther.

Variable uni_printable : N -> bool.
Variable dup_label_max : DataFrame -> pystr -> outcome maxval.
Variable loc_ambiguous : DataFrame -> label -> pystr -> looked_up.

Lemma preview_columns_selection (df : DataFrame) (cols cols' : list pystr) (co cl : bool)
    (clm : gmap pystr Z) (idx : label) (zipped : list (pystr * pystr)) :
  (∀ c, c ∈ zipped.*1 → (c ∈ cols ↔ c ∈ cols')) →
  ∀ (cnt : Z) (lines : list pystr),
    preview_columns uni_printable loc_ambiguous df cols co cl clm idx cnt zipped lines
    = preview_columns uni_printable loc_ambiguous df cols' co cl clm idx cnt zipped lines.
Proof.
  induction zipped as [|[col dt] rest IH]; intros Hsel cnt lines; [reflexivity|].
  cbn [preview_columns].
  assert (Hrest : ∀ c, c ∈ rest.*1 → (c ∈ cols ↔ c ∈ cols')).
  { intros c Hc. apply Hsel. by apply list_elem_of_further. }
  rewrite (bool_decide_ext (col ∈ cols) (col ∈ cols'))
    by (apply Hsel; apply list_elem_of_here).
  destruct (negb (bool_decide (col ∈ cols'))); [by apply IH|].
  destruct (df_at uni_printable loc_ambiguous df idx col) as [v|e]; [by apply IH | reflexivity].
Qed.

Lemma preview_rows_selection (df : DataFrame) (cols cols' : list pystr) (co cl : bool)
    (clm : gmap pystr Z) (rows : list label) :
  (∀ c, c ∈ col_names df → (c ∈ cols ↔ c ∈ cols')) →
  ∀ lines : list pystr,
    preview_rows uni_printable loc_ambiguous df cols co cl clm rows lines
    = preview_rows uni_printable loc_ambiguous df cols' co cl clm rows lines.
Proof.
  intros Hsel. induction rows as [|idx rows IH]; intros lines; [reflexivity|].
  cbn [preview_rows]. rewrite (preview_columns_selection df cols cols').
  - destruct (preview_columns _ _ _ _ _ _ _ _ _ _ _); cbn [bind]; [apply IH | reflexivity].
  - intros c Hc. apply Hsel. unfold col_names in *.
    rewrite fst_zip in Hc; [exact Hc|]. rewrite !length_map. lia.
Qed.

(** X6: of the requested column names only those that are columns of the
    table matter, and neither their order nor their repetition does: two
    requests that agree on the table's columns give the same run.  So a
    name that is no column is ignored, not an error. *)
Theorem pd_preview_selection (df : DataFrame) (cols cols' : list pystr)
    (num_rows : option Z) (columns_only : bool) (tag : option pystr)
    (calculate_lengths : bool) :
  (∀ c, c ∈ col_names df → (c ∈ cols ↔ c ∈ cols')) →
  pd_preview uni_printable dup_label_max loc_ambiguous
    df (Some cols) num_rows columns_only tag calculate_lengths
  = pd_preview uni_printable dup_label_max loc_ambiguous
      df (Some cols') num_rows columns_only tag calculate_lengths.
Proof.
  intros Hsel. unfold pd_preview, preview_report. cbn [default from_option].
  destruct (if calculate_lengths then _ else _) as [clm|e]; cbn [bind]; [|reflexivity].
  by rewrite (preview_rows_selection df cols cols').
Qed.

(** X7: when no row is previewed (a row count of 0, a table without rows,
    a negative count that leaves nothing) the previewer neither looks a
    cell up nor measures a column: on any table, also one with repeated
    labels, it returns the table and logs the three header lines. *)
Theorem pd_preview_no_rows (df : DataFrame) (cols : option (list pystr))
    (num_rows : option Z) (columns_only : bool) (tag : option pystr)
    (calculate_lengths : bool) :
  index (df_head df num_rows) = [] →
  pd_preview uni_printable dup_label_max loc_ambiguous
    df cols num_rows columns_only tag calculate_lengths
  = mkPreviewRun df [(INFO, py_join [10%N] (preview_header df tag))] (Return df).
Proof.
  intros Hrows. unfold pd_preview, preview_report.
  assert (Hclm : (if calculate_lengths
                  then calc_col_lengths uni_printable dup_label_max (df_head df num_rows)
                  else Return ∅) = Return ∅).
  { destruct calculate_lengths; [|reflexivity].
    unfold calc_col_lengths, df_empty. by rewrite Hrows. }
  rewrite Hclm, Hrows. reflexivity.
Qed.




End PreviewFurther.

Lemma pd_preview_selection_witness :
  pd_preview ascii_only library_dup_label sample_loc
    df_three_columns (Some [lit "n"; lit "zz"; lit "n"]) (Some 1) false None false
  = pd_preview ascii_only library_dup_label sample_loc
      df_three_columns (Some [lit "n"]) (Some 1) false None false.
Proof.
  apply (pd_preview_selection ascii_only library_dup_label sample_loc
           df_three_columns [lit "n"; lit "zz"; lit "n"] [lit "n"]).
  intros c Hc. unfold col_names in Hc. cbn [df_three_columns columns map name] in Hc.
  rewrite !elem_of_cons, !elem_of_nil.
  repeat (apply elem_of_cons in Hc as [->|Hc]); [| |  | by apply elem_of_nil in Hc];
    split; intros H; repeat (destruct H as [H|H]; try discriminate H); tauto.
Defined.

Lemma pd_preview_no_rows_witness :
  pd_preview ascii_only library_dup_label sample_loc
    df_dup_cols None (Some 0) false None true
  = mkPreviewRun df_dup_cols [(INFO, py_join [10%N] (preview_header df_dup_cols None))]
      (Return df_dup_cols).
Proof.
  apply (pd_preview_no_rows ascii_only library_dup_label sample_loc
           df_dup_cols None (Some 0) false None true).
  reflexivity.
Defined.


(** ** Further properties of the sanitizer *)

Lemma map_names_ext (f g : pystr → pystr) (df : DataFrame) :
  (∀ n, n ∈ col_names df → f n = g n) → map_names f df = map_names g df.
Proof.
  intros Hfg. unfold map_names. f_equal. apply map_ext_in. intros s Hs.
  rewrite Hfg; [reflexivity|]. apply list_elem_of_fmap_2. by apply list_elem_of_In.
Qed.

Lemma map_names_id (f : pystr → pystr) (df : DataFrame) :
  (∀ n, n ∈ col_names df → f n = n) → map_names f df = df.
Proof.
  intros Hf. rewrite (map_names_ext f (fun n => n)) by exact Hf. clear Hf.
  unfold map_names. destruct df as [iname idx cols]. cbn [index_name index columns].
  f_equal. induction cols as [|[n dt cs] cols IH]; [reflexivity|].
  cbn [map name dtype cells]. by rewrite IH.
Qed.

Lemma map_names_compose (f g : pystr → pystr) (df : DataFrame) :
  map_names f (map_names g df) = map_names (fun n => f (g n)) df.
Proof. unfold map_names. cbn [index_name index columns]. by rewrite map_map. Qed.

Lemma col_names_map_names (f : pystr → pystr) (df : DataFrame) :
  col_names (map_names f df) = map f (col_names df).
Proof. unfold col_names, map_names. cbn [columns]. by rewrite !map_map. Qed.

Lemma column_data_map_names (f : pystr → pystr) (df : DataFrame) :
  column_data (map_names f df) = column_data df.
Proof. unfold column_data, map_names. cbn [columns]. by rewrite map_map. Qed.

Lemma rename_columns_map_names (d : pydict) (df : DataFrame) :
  rename_columns d df = map_names (fun n => default n (dict_get d n)) df.
Proof. reflexivity. Qed.

Section SanitizerFurther.

Variable re_sub_general : pystr -> pystr -> pystr -> outcome pystr.

Lemma sanitize_map_fun (special repl : pystr) (f : pystr → pystr) (cols : list pystr) :
  (∀ col, re_sub re_sub_general (lit "[" ++ special ++ lit "]") repl col = Return (f col)) →
  ∀ d : pydict,
    sanitize_map re_sub_general cols special repl d
    = Return (foldl (fun d col => dict_set d col (f col)) d cols).
Proof.
  intros Hsub. induction cols as [|c cols IH]; intros d; cbn [sanitize_map foldl].
  - reflexivity.
  - rewrite Hsub. cbn [bind]. apply IH.
Qed.

(** When the substitution computes [f] on every name, the sanitizer
    returns the table with [f] applied to the targeted column names. *)
Lemma sanitizer_by_function (df : DataFrame) (cols : option (list pystr))
    (special repl : pystr) (f : pystr → pystr) :
  col_names df ≠ [] →
  (∀ col, re_sub re_sub_general (lit "[" ++ special ++ lit "]") repl col = Return (f col)) →
  let run := pd_cols_remove_special_characters re_sub_general df cols special repl in
  sn_result run = Return (sn_table run)
  ∧ sn_table run = map_names (on_targets (sanitizer_targets df cols) f) df.
Proof.
  intros Hcols Hsub. cbv zeta. unfold pd_cols_remove_special_characters.
  destruct (col_names df) as [|n ns] eqn:Hnames; [done|]. rewrite <- Hnames.
  fold (sanitizer_targets df cols).
  rewrite (sanitize_map_fun special repl f) by exact Hsub.
  set (d := foldl _ [] (sanitizer_targets df cols)).
  assert (Hget : ∀ c, default c (dict_get d c) = on_targets (sanitizer_targets df cols) f c).
  { intros c. unfold d, on_targets. rewrite dict_get_fill.
    by destruct (bool_decide (c ∈ sanitizer_targets df cols)). }
  assert (Htable : rename_columns d df
                   = map_names (on_targets (sanitizer_targets df cols) f) df).
  { rewrite rename_columns_map_names. apply map_names_ext. intros c _. apply Hget. }
  destruct d as [|kv d'] eqn:Hd; cbn [sn_result sn_table].
  - split; [reflexivity|]. symmetry. apply map_names_id. intros c _.
    rewrite <- Hget. reflexivity.
  - split; [reflexivity | exact Htable].
Qed.

(** X9: for a special set of plain characters (no backslash, closing
    bracket, caret or hyphen) and a replacement without backslash, the
    sanitizer returns the table in which every targeted column name has
    the characters of the set replaced and its other characters kept;
    names not targeted, the row index and all data are unchanged. *)
Theorem sanitizer_plain_targets (df : DataFrame) (cols : option (list pystr))
    (special repl : pystr) :
  col_names df ≠ [] →
  forallb plain_char special = true → special ≠ [] → existsb (N.eqb 92) repl = false →
  let run := pd_cols_remove_special_characters re_sub_general df cols special repl in
  sn_result run = Return (sn_table run)
  ∧ sn_table run
    = map_names (on_targets (sanitizer_targets df cols) (replace_special special repl)) df.
Proof.
  intros Hcols Hplain Hne Hrepl. apply sanitizer_by_function; [exact Hcols|].
  intros col. by apply re_sub_plain_set.
Qed.

Lemma replace_special_fixed (special repl col : pystr) :
  (∀ c, c ∈ col → c ∉ special) → replace_special special repl col = col.
Proof.
  induction col as [|c col IH]; intros Hcol; [reflexivity|].
  unfold replace_special in *. cbn [flat_map].
  rewrite bool_decide_eq_false_2 by (apply Hcol; apply list_elem_of_here).
  rewrite IH by (intros x Hx; apply Hcol; by apply list_elem_of_further). reflexivity.
Qed.

Lemma replace_special_clean (special repl col : pystr) (c : N) :
  (∀ x, x ∈ repl → x ∉ special) →
  c ∈ replace_special special repl col → c ∉ special.
Proof.
  intros Hrepl. induction col as [|x col IH]; unfold replace_special in *; cbn [flat_map].
  - intros Hc. by apply elem_of_nil in Hc.
  - rewrite elem_of_app. intros [Hc|Hc]; [|by apply IH].
    case_bool_decide as Hx; [by apply Hrepl|].
    apply list_elem_of_singleton in Hc. by subst c.
Qed.

(** X10: when the replacement itself holds no special character, a
    second pass over all columns changes nothing. *)
Theorem sanitizer_idempotent (df : DataFrame) (special repl : pystr) :
  col_names df ≠ [] →
  forallb plain_char special = true → special ≠ [] → existsb (N.eqb 92) repl = false →
  (∀ c, c ∈ repl → c ∉ special) →
  let once := pd_cols_remove_special_characters re_sub_general df None special repl in
  let twice := pd_cols_remove_special_characters re_sub_general (sn_table once) None
                 special repl in
  sn_result twice = Return (sn_table once) ∧ sn_table twice = sn_table once.
Proof.
  intros Hcols Hplain Hne Hrepl Hclean. cbv zeta.
  assert (Hsub : ∀ col, re_sub re_sub_general (lit "[" ++ special ++ lit "]") repl col
                        = Return (replace_special special repl col))
    by (intros col; by apply re_sub_plain_set).
  destruct (sanitizer_by_function df None special repl _ Hcols Hsub) as [_ Honce].
  rewrite Honce.
  set (f := on_targets (sanitizer_targets df None) (replace_special special repl)).
  assert (Hcols' : col_names (map_names f df) ≠ []).
  { rewrite col_names_map_names. destruct (col_names df); [done | discriminate]. }
  destruct (sanitizer_by_function (map_names f df) None special repl _ Hcols' Hsub)
    as [Hres Htwice].
  assert (Hsame : sn_table (pd_cols_remove_special_characters re_sub_general
                              (map_names f df) None special repl) = map_names f df).
  { rewrite Htwice. apply map_names_id. intros n Hn.
    unfold on_targets. cbn [sanitizer_targets]. rewrite (bool_decide_eq_true_2 _ Hn).
    rewrite col_names_map_names in Hn. apply list_elem_of_fmap in Hn as (n0 & -> & Hn0).
    unfold f, on_targets. cbn [sanitizer_targets]. rewrite (bool_decide_eq_true_2 _ Hn0).
    apply replace_special_fixed. intros c Hc. by eapply replace_special_clean. }
  split; [by rewrite Hres, Hsame | exact Hsame].
Qed.

(** X11: whatever the special set, the replacement and the regular
    expression engine do, the sanitizer leaves the row index and the data
    and types of the columns, in their order, as they were, and when it
    raises the table is untouched: the names are only changed once every
    new name has been computed. *)
Theorem sanitizer_frame (df : DataFrame) (cols : option (list pystr))
    (special repl : pystr) :
  let run := pd_cols_remove_special_characters re_sub_general df cols special repl in
  index (sn_table run) = index df
  ∧ index_name (sn_table run) = index_name df
  ∧ column_data (sn_table run) = column_data df
  ∧ (∀ e, sn_result run = Raise e → sn_table run = df)
  ∧ (∀ t, sn_result run = Return t → t = sn_table run).
Proof.
  cbv zeta. unfold pd_cols_remove_special_characters.
  destruct (col_names df) as [|n ns]; cbn [sn_table sn_result].
  { split_and!; first [done | by intros t [= <-]]. }
  destruct (sanitize_map _ _ _ _ _) as [[|kv d]|e]; cbn [sn_table sn_result].
  - split_and!; first [done | by intros t [= <-]].
  - rewrite rename_columns_map_names, column_data_map_names.
    split_and!; first [done | by intros t [= <-]].
  - split_and!; done.
Qed.

(** X12: an empty special set is not a no-op: the pattern it makes is an
    unterminated set, so on any table with columns the sanitizer raises
    the engine's error and renames nothing. *)
Theorem sanitizer_empty_set_raises (df : DataFrame) (cols : option (list pystr))
    (repl : pystr) :
  col_names df ≠ [] →
  let run := pd_cols_remove_special_characters re_sub_general df cols [] repl in
  sn_result run = Raise ReError ∧ sn_table run = df.
Proof.
  intros Hcols. cbv zeta. unfold pd_cols_remove_special_characters.
  destruct (col_names df) as [|n ns] eqn:Hnames; [done|].
  assert (Hmap : ∀ cs d, cs ≠ [] → sanitize_map re_sub_general cs [] repl d = Raise ReError).
  { intros [|c cs] d Hne; [done|]. reflexivity. }
  destruct cols as [[|c cs]|]; rewrite Hmap by done; by split.
Qed.

Lemma compile_set_negated (cs : pystr) :
  forallb plain_char cs = true → cs ≠ [] →
  compile_set (lit "[" ++ (94%N :: cs) ++ lit "]") = SetOk true (map SLiteral cs).
Proof.
  intros Hcs Hne. unfold compile_set.
  change (lit "[" ++ (94%N :: cs) ++ lit "]") with (91%N :: 94%N :: (cs ++ [93%N])).
  cbn [re_tokens]. change (91 =? 92)%N with false. change (94 =? 92)%N with false.
  cbv iota. rewrite re_tokens_plain by exact Hcs.
  cbn [re_tokens fmap option_fmap option_map]. change (93 =? 92)%N with false. cbn.
  apply (parse_set_plain true cs true []); [exact Hcs | by left].
Qed.

(** X13: a special set that starts with a caret is taken as its
    complement: with [^] followed by plain characters, every character
    that is NOT one of them is replaced, in every column name. *)
Theorem sanitizer_caret_negates (df : DataFrame) (kept repl : pystr) :
  col_names df ≠ [] →
  forallb plain_char kept = true → kept ≠ [] → existsb (N.eqb 92) repl = false →
  let run := pd_cols_remove_special_characters re_sub_general df None (94%N :: kept) repl in
  sn_result run = Return (sn_table run)
  ∧ sn_table run = map_names (replace_others kept repl) df.
Proof.
  intros Hcols Hplain Hne Hrepl. cbv zeta.
  destruct (sanitizer_by_function df None (94%N :: kept) repl (replace_others kept repl)
              Hcols) as [Hres Htable].
  - intros col. unfold re_sub. rewrite compile_set_negated by assumption. rewrite Hrepl.
    f_equal. unfold replace_others. induction col as [|ch col IH]; [reflexivity|].
    cbn [flat_map]. rewrite IH. f_equal.
    unfold set_matches. rewrite <- (set_matches_literals re_sub_general kept ch).
    unfold set_matches. by destruct (existsb (item_matches ch) _).
  - split; [exact Hres|]. rewrite Htable. apply map_names_ext. intros n Hn.
    unfold on_targets. cbn [sanitizer_targets]. by rewrite (bool_decide_eq_true_2 _ Hn).
Qed.

Lemma compile_set_range (lo hi : N) :
  plain_char lo = true → plain_char hi = true → (lo <= hi)%N →
  compile_set (lit "[" ++ [lo; 45%N; hi] ++ lit "]") = SetOk false [SRange lo hi].
Proof.
  intros Hlo Hhi Hle.
  destruct (plain_char_spec lo Hlo) as (Hlo92 & Hlo93 & Hlo94 & _).
  destruct (plain_char_spec hi Hhi) as (Hhi92 & Hhi93 & _ & _).
  unfold compile_set.
  change (lit "[" ++ [lo; 45%N; hi] ++ lit "]") with [91%N; lo; 45%N; hi; 93%N].
  cbn [re_tokens]. rewrite Hlo92, Hhi92.
  change (91 =? 92)%N with false. change (45 =? 92)%N with false.
  change (93 =? 92)%N with false.
  cbn [fmap option_fmap option_map is_char parse_set set_code close_set].
  change (91 =? 91)%N with true. change (45 =? 45)%N with true. cbv iota.
  rewrite Hlo94, Hlo93, Hhi93. cbn [andb app].
  rewrite (proj2 (N.ltb_ge hi lo)) by exact Hle.
  change (93 =? 93)%N with true. reflexivity.
Qed.

(** X14: a hyphen between two plain characters is taken as a range: with
    the special set [lo-hi] every character from [lo] to [hi] is replaced
    in every column name, not just the three characters written. *)
Theorem sanitizer_hyphen_ranges (df : DataFrame) (lo hi : N) (repl : pystr) :
  col_names df ≠ [] →
  plain_char lo = true → plain_char hi = true → (lo <= hi)%N →
  existsb (N.eqb 92) repl = false →
  let run := pd_cols_remove_special_characters re_sub_general df None [lo; 45%N; hi] repl in
  sn_result run = Return (sn_table run)
  ∧ sn_table run = map_names (replace_range lo hi repl) df.
Proof.
  intros Hcols Hlo Hhi Hle Hrepl. cbv zeta.
  destruct (sanitizer_by_function df None [lo; 45%N; hi] repl (replace_range lo hi repl)
              Hcols) as [Hres Htable].
  - intros col. unfold re_sub. rewrite compile_set_range by assumption. rewrite Hrepl.
    f_equal. unfold replace_range. induction col as [|ch col IH]; [reflexivity|].
    cbn [flat_map]. rewrite IH. f_equal.
    unfold set_matches. cbn [xorb existsb item_matches]. by rewrite orb_false_r.
  - split; [exact Hres|]. rewrite Htable. apply map_names_ext. intros n Hn.
    unfold on_targets. cbn [sanitizer_targets]. by rewrite (bool_decide_eq_true_2 _ Hn).
Qed.

End SanitizerFurther.

Lemma sanitizer_plain_targets_witness :
  let run := pd_cols_remove_special_characters library_re_sub df_three_columns
               (Some [lit "name"; lit "absent"]) (lit "ae") (lit "_") in
  sn_result run = Return (sn_table run)
  ∧ sn_table run
    = map_names (on_targets (sanitizer_targets df_three_columns
                               (Some [lit "name"; lit "absent"]))
                   (replace_special (lit "ae") (lit "_"))) df_three_columns.
Proof.
  apply (sanitizer_plain_targets library_re_sub df_three_columns
           (Some [lit "name"; lit "absent"]) (lit "ae") (lit "_")).
  - vm_compute. discriminate.
  - reflexivity.
  - vm_compute. discriminate.
  - reflexivity.
Defined.

Lemma sanitizer_idempotent_witness :
  let once := pd_cols_remove_special_characters library_re_sub df_dotted None
                (lit ".") (lit "_") in
  let twice := pd_cols_remove_special_characters library_re_sub (sn_table once) None
                 (lit ".") (lit "_") in
  sn_result twice = Return (sn_table once) ∧ sn_table twice = sn_table once.
Proof.
  apply (sanitizer_idempotent library_re_sub df_dotted (lit ".") (lit "_")).
  - vm_compute. discriminate.
  - reflexivity.
  - vm_compute. discriminate.
  - reflexivity.
  - apply Forall_forall. refine (bool_decide_unpack _ _). vm_compute. exact I.
Defined.

Lemma sanitizer_empty_set_raises_witness :
  let run := pd_cols_remove_special_characters library_re_sub df_dotted None [] (lit "_") in
  sn_result run = Raise ReError ∧ sn_table run = df_dotted.
Proof.
  apply (sanitizer_empty_set_raises library_re_sub df_dotted None (lit "_")).
  vm_compute. discriminate.
Defined.

Lemma sanitizer_caret_negates_witness :
  let run := pd_cols_remove_special_characters library_re_sub df_dotted None
               (94%N :: lit "ab") (lit "_") in
  sn_result run = Return (sn_table run)
  ∧ sn_table run = map_names (replace_others (lit "ab") (lit "_")) df_dotted.
Proof.
  apply (sanitizer_caret_negates library_re_sub df_dotted (lit "ab") (lit "_")).
  - vm_compute. discriminate.
  - reflexivity.
  - vm_compute. discriminate.
  - reflexivity.
Defined.

Lemma sanitizer_hyphen_ranges_witness :
  let run := pd_cols_remove_special_characters library_re_sub df_three_columns None
               [97%N; 45%N; 109%N] (lit "_") in
  sn_result run = Return (sn_table run)
  ∧ sn_table run = map_names (replace_range 97 109 (lit "_")) df_three_columns.
Proof.
  apply (sanitizer_hyphen_ranges library_re_sub df_three_columns 97%N 109%N (lit "_")).
  - vm_compute. discriminate.
  - reflexivity.
  - reflexivity.
  - vm_compute. discriminate.
  - reflexivity.
Defined.

(** ** Further properties of the renamer *)

Lemma filter_none {A} (P : A → Prop) `{!∀ x, Decision (P x)} (l : list A) :
  (∀ x, x ∈ l → ¬ P x) → filter P l = [].
Proof.
  induction l as [|a l IH]; intros Hnone; [reflexivity|].
  rewrite filter_cons_False by apply Hnone, list_elem_of_here.
  apply IH. intros x Hx. by apply Hnone, list_elem_of_further.
Qed.

Lemma col_names_drop_columns_filter (keys : list pystr) (df : DataFrame) :
  col_names (drop_columns keys df) = filter (fun n => n ∉ keys) (col_names df).
Proof.
  unfold col_names, drop_columns. cbn [columns].
  induction (columns df) as [|s cols IH]; [reflexivity|].
  cbn [map]. rewrite !filter_cons.
  destruct (decide (name s ∉ keys)); cbn [map]; by rewrite IH.
Qed.

Lemma dict_get_none (d : pydict) (k : pystr) : k ∉ map fst d → dict_get d k = None.
Proof.
  induction d as [|[k' v'] d IH]; cbn [dict_get map fst]; [reflexivity|].
  intros Hk. apply not_elem_of_cons in Hk as [Hne Hk].
  rewrite bool_decide_eq_false_2 by congruence. by apply IH.
Qed.

Lemma dict_get_nodup (d : pydict) (k v : pystr) :
  NoDup (map fst d) → (k, v) ∈ d → dict_get d k = Some v.
Proof.
  induction d as [|[k' v'] d IH]; cbn [dict_get map fst]; intros Hnd Hkv.
  - by apply elem_of_nil in Hkv.
  - apply NoDup_cons in Hnd as [Hfresh Hnd].
    apply elem_of_cons in Hkv as [[= -> ->]|Hkv].
    + by rewrite bool_decide_eq_true_2.
    + rewrite bool_decide_eq_false_2; [by apply IH|].
      intros ->. apply Hfresh. by apply (list_elem_of_fmap_2 fst _ (k, v)).
Qed.

Lemma dict_get_key (d : pydict) (k : pystr) : k ∈ map fst d → dict_get d k ≠ None.
Proof.
  induction d as [|[k' v'] d IH]; cbn [dict_get map fst]; intros Hk.
  - by apply elem_of_nil in Hk.
  - case_bool_decide as Heq; [discriminate|].
    apply elem_of_cons in Hk as [->|Hk]; [done | by apply IH].
Qed.

Lemma swap_items_keys (d : pydict) : map fst (swap_items d) = map snd d.
Proof. unfold swap_items. rewrite map_map. reflexivity. Qed.

Lemma swap_items_values (d : pydict) : map snd (swap_items d) = map fst d.
Proof. unfold swap_items. rewrite map_map. reflexivity. Qed.

Lemma swap_items_elem_of (d : pydict) (k v : pystr) : (k, v) ∈ d → (v, k) ∈ swap_items d.
Proof. intros H. by apply (list_elem_of_fmap_2 (fun kv => (kv.2, kv.1)) _ (k, v)). Qed.

(** Renaming after the colliding targets are dropped never makes two
    columns share a name, when the targets are distinct. *)
Lemma rename_after_drop_distinct (df : DataFrame) (rename_map d : pydict) :
  NoDup (col_names df) → NoDup (map snd rename_map) → d ⊆ rename_map →
  NoDup (col_names (rename_columns d
                      (drop_columns (colliding_targets df rename_map) df))).
Proof.
  intros Hnames Hvalues Hsub. rewrite col_names_rename.
  apply (NoDup_fmap_2_strong (fun n => default n (dict_get d n))).
  2:{ rewrite col_names_drop_columns_filter. by apply NoDup_filter. }
  assert (Hfix : ∀ n v, n ∈ col_names (drop_columns (colliding_targets df rename_map) df) →
                   (∃ k, (k, v) ∈ rename_map) → n ≠ v).
  { intros n v Hn [k Hkv] ->. apply col_names_drop_columns in Hn as [Hn Hnot].
    apply Hnot. unfold colliding_targets. apply list_elem_of_filter. split; [exact Hn|].
    by apply (list_elem_of_fmap_2 snd _ (k, v)). }
  intros n1 n2 Hn1 Hn2.
  destruct (dict_get d n1) as [v1|] eqn:H1, (dict_get d n2) as [v2|] eqn:H2; cbn [default from_option id].
  - intros <-. apply dict_get_elem_of, Hsub in H1. apply dict_get_elem_of, Hsub in H2.
    assert (Heq : (n1, v1) = (n2, v1))
      by (apply (map_injective_on snd rename_map); [exact Hvalues | exact H1 | exact H2 | reflexivity]).
    by inversion Heq.
  - intros ->. exfalso. apply (Hfix n2 n2 Hn2); [|reflexivity].
    exists n1. by apply Hsub, dict_get_elem_of.
  - intros <-. exfalso. apply (Hfix n1 n1 Hn1); [|reflexivity].
    exists n2. by apply Hsub, dict_get_elem_of.
  - done.
Qed.

(** Dropping in two steps is dropping at once. *)
Lemma drop_columns_app (keys keys' : list pystr) (df : DataFrame) :
  drop_columns keys' (drop_columns keys df) = drop_columns (keys ++ keys') df.
Proof.
  unfold drop_columns. cbn [index_name index columns]. f_equal.
  rewrite list_filter_filter. apply list_filter_iff.
  intros s. cbv beta. rewrite elem_of_app. tauto.
Qed.

(** Whatever the override loop meets, the table it leaves is the table it
    started from without some of its columns, those already dropped
    included, and a failure of the loop is a [KeyError]. *)
Lemma override_loop_drops (df0 : DataFrame) (values : list pystr) :
  ∀ deleted : list pystr,
    ∃ deleted' failure,
      override_loop (list_to_set (col_names df0)) values (drop_columns deleted df0)
      = (drop_columns deleted' df0, failure)
      ∧ (∀ v, v ∈ deleted → v ∈ deleted')
      ∧ (∀ e, failure = Some e → ∃ v, e = KeyError v).
Proof.
  induction values as [|v rest IH]; intros deleted; cbn [override_loop].
  - exists deleted, None. split; [reflexivity|]. split; [done | discriminate].
  - case_bool_decide as Hv; [|apply IH].
    destruct (decide (v ∈ col_names (drop_columns deleted df0))) as [Hpresent|Hpresent].
    + rewrite delitem_present by exact Hpresent. rewrite drop_columns_app.
      destruct (IH (deleted ++ [v])) as (deleted' & failure & Hloop & Hsub & Hfail).
      exists deleted', failure. split; [exact Hloop|]. split; [|exact Hfail].
      intros x Hx. apply Hsub, elem_of_app. by left.
    + unfold delitem. rewrite bool_decide_eq_false_2 by exact Hpresent.
      exists deleted, (Some (KeyError v)). split; [reflexivity|]. split; [done|].
      intros e [= <-]. by eexists.
Qed.

(** The first target that is a column is dropped by the override loop,
    however the loop ends. *)
Lemma override_loop_first_gone (df : DataFrame) (values : list pystr) (v : pystr)
    (vs : list pystr) :
  filter (fun x => x ∈ col_names df) values = v :: vs →
  ∃ deleted failure,
    override_loop (list_to_set (col_names df)) values df = (drop_columns deleted df, failure)
    ∧ v ∈ deleted
    ∧ (∀ e, failure = Some e → ∃ k, e = KeyError k).
Proof.
  induction values as [|a rest IH]; [by rewrite filter_nil|].
  rewrite filter_cons. destruct (decide (a ∈ col_names df)) as [Ha|Ha].
  - intros [= -> _]. cbn [override_loop].
    rewrite bool_decide_eq_true_2 by (by apply elem_of_list_to_set).
    rewrite delitem_present by exact Ha.
    destruct (override_loop_drops df rest [v]) as (deleted' & failure & Hloop & Hsub & Hfail).
    exists deleted', failure. split; [exact Hloop|]. split; [|exact Hfail].
    apply Hsub, list_elem_of_here.
  - intros Hfilter. cbn [override_loop].
    rewrite bool_decide_eq_false_2 by (by rewrite elem_of_list_to_set).
    by apply IH.
Qed.

Section RenamerFurther.

Variable uni_printable : N -> bool.

(** X16: a failing call of the renamer is not atomic: with [override]
    set, [ignore_missing] unset, a target that is a column and a key that
    is no column, the call always raises (the error of the missing keys,
    or the [KeyError] of a column deleted twice) and leaves the caller's
    map as it was, and yet the first target that is a column is no longer
    a column of the caller's table. *)
Theorem pd_rename_cols_raises_after_deleting (df : DataFrame) (rename_map : pydict)
    (v : pystr) (vs : list pystr) :
  colliding_targets df rename_map = v :: vs → absent_keys df rename_map ≠ [] →
  let run := pd_rename_cols uni_printable df rename_map true false in
  (∃ e, rr_result run = Raise e
        ∧ (e = PyException (missing_keys_message uni_printable (absent_keys df rename_map))
           ∨ ∃ k, e = KeyError k))
  ∧ rr_map run = rename_map
  ∧ v ∈ col_names df ∧ (v ∉ col_names (rr_table run)).
Proof.
  intros Hfirst Habsent. cbv zeta.
  assert (Hv : v ∈ col_names df).
  { assert (Hin : v ∈ colliding_targets df rename_map)
      by (rewrite Hfirst; apply list_elem_of_here).
    unfold colliding_targets in Hin. by apply list_elem_of_filter in Hin as [? _]. }
  unfold pd_rename_cols.
  destruct (col_names df) as [|n ns] eqn:Hnames; [by apply elem_of_nil in Hv|].
  rewrite <- Hnames in *. rewrite missing_keys_absent.
  destruct (override_loop_first_gone df (map snd rename_map) v vs Hfirst)
    as (deleted & failure & -> & Hdeleted & Hfail).
  assert (Hgone : v ∉ col_names (drop_columns deleted df))
    by (rewrite col_names_drop_columns; tauto).
  destruct failure as [e|].
  - cbn [rr_result rr_map rr_table]. split_and!; try done.
    exists e. split; [reflexivity|]. right. by apply Hfail.
  - destruct (absent_keys df rename_map) as [|k ks] eqn:Hkeys; [done|].
    cbn [rr_result rr_map rr_table]. split_and!; try done.
    eexists. split; [reflexivity|]. by left.
Qed.

(** X17: with [override] set and distinct targets, a table whose column
    names are distinct still has distinct column names after the call,
    whatever it does about absent keys and whether it returns or raises:
    every target that is a column is dropped before a column takes its
    name. *)
Theorem pd_rename_cols_override_distinct (df : DataFrame) (rename_map : pydict)
    (ignore_missing : bool) :
  NoDup (col_names df) → NoDup (map snd rename_map) →
  NoDup (col_names (rr_table (pd_rename_cols uni_printable df rename_map true
                                ignore_missing))).
Proof.
  intros Hnames Hvalues.
  destruct (col_names df) as [|n ns] eqn:Hcols.
  { unfold pd_rename_cols. rewrite Hcols. cbn [rr_table]. rewrite Hcols. apply NoDup_nil_2. }
  assert (Hne : col_names df ≠ []) by (by rewrite Hcols).
  rewrite <- Hcols in Hnames.
  assert (Hcoll : NoDup (colliding_targets df rename_map))
    by (unfold colliding_targets; by apply NoDup_filter).
  rewrite pd_rename_cols_run by (exact Hne || by intros _).
  destruct (absent_keys df rename_map) as [|k ks]; cbn [rr_table].
  - by apply rename_after_drop_distinct.
  - destruct ignore_missing; cbn [rr_table].
    + apply rename_after_drop_distinct; [exact Hnames | exact Hvalues |].
      unfold pruned_map. intros kv Hkv. by apply list_elem_of_filter in Hkv as [_ ?].
    + rewrite col_names_drop_columns_filter. by apply NoDup_filter.
Qed.

(** X18: without [override] the renamer never removes, adds or reorders a
    column and touches neither the data nor the row index; when it raises
    the table and the map are as they were, and when it returns the
    result is the argument table itself. *)
Theorem pd_rename_cols_keeps_data (df : DataFrame) (rename_map : pydict)
    (ignore_missing : bool) :
  let run := pd_rename_cols uni_printable df rename_map false ignore_missing in
  column_data (rr_table run) = column_data df
  ∧ index (rr_table run) = index df
  ∧ index_name (rr_table run) = index_name df
  ∧ (∀ e, rr_result run = Raise e → rr_table run = df ∧ rr_map run = rename_map)
  ∧ (∀ t, rr_result run = Return t → t = rr_table run).
Proof.
  cbv zeta. unfold pd_rename_cols.
  destruct (col_names df) as [|n ns]; cbn [rr_table rr_result rr_map].
  { split_and!; first [done | by intros t [= <-]]. }
  destruct (missing_keys_of _ _) as [|k ks]; cbn [rr_table rr_result rr_map].
  - rewrite rename_columns_map_names, column_data_map_names.
    split_and!; first [done | by intros t [= <-]].
  - destruct ignore_missing; cbn [rr_table rr_result rr_map].
    + rewrite rename_columns_map_names, column_data_map_names.
      split_and!; first [done | by intros t [= <-]].
    + split_and!; done.
Qed.


(** X20: renaming and then renaming back with the map read backwards
    gives the table back, without a warning: for a map with distinct
    keys, all of them columns, and distinct targets, none of them a
    column. *)
Theorem pd_rename_cols_round_trip (df : DataFrame) (rename_map : pydict) :
  col_names df ≠ [] →
  NoDup (map fst rename_map) → NoDup (map snd rename_map) →
  (∀ k, k ∈ map fst rename_map → k ∈ col_names df) →
  (∀ v, v ∈ map snd rename_map → v ∉ col_names df) →
  let there := pd_rename_cols uni_printable df rename_map false false in
  let back := pd_rename_cols uni_printable (rr_table there) (swap_items rename_map)
                false false in
  rr_result there = Return (rr_table there) ∧ rr_log there = []
  ∧ rr_result back = Return df ∧ rr_table back = df ∧ rr_log back = [].
Proof.
  intros Hcols Hk Hv Hkeys Hfresh. cbv zeta.
  set (g := fun n => default n (dict_get rename_map n)).
  set (g' := fun n => default n (dict_get (swap_items rename_map) n)).
  assert (Hno_warning : ∀ (t : DataFrame) (vs : list pystr),
            (∀ v, v ∈ vs → v ∉ col_names t) →
            collision_warnings (list_to_set (col_names t)) vs = []).
  { intros t vs Hvs. unfold collision_warnings.
    replace (filter _ vs) with (@nil pystr); [reflexivity|].
    symmetry. apply filter_none. intros v Hin.
    rewrite elem_of_list_to_set. by apply Hvs. }
  assert (Hno_absent : ∀ (t : DataFrame) (d : pydict),
            (∀ k, k ∈ map fst d → k ∈ col_names t) → absent_keys t d = []).
  { intros t d Hd. unfold absent_keys. apply filter_none.
    intros k Hin Hnot. by apply Hnot, Hd. }
  rewrite (pd_rename_cols_run uni_printable df) by (exact Hcols || discriminate).
  rewrite (Hno_absent df rename_map Hkeys). cbn [rr_table rr_result rr_log].
  rewrite (Hno_warning df _ Hfresh).
  assert (Hnames : col_names (rename_columns rename_map df) = map g (col_names df))
    by apply col_names_rename.
  assert (Hcols' : col_names (rename_columns rename_map df) ≠ []).
  { rewrite Hnames. destruct (col_names df); [done | discriminate]. }
  assert (Hg_key : ∀ k v, (k, v) ∈ rename_map → g k = v).
  { intros k v Hkv. unfold g. by rewrite (dict_get_nodup rename_map k v Hk Hkv). }
  rewrite pd_rename_cols_run by (exact Hcols' || discriminate).
  rewrite Hno_absent.
  2:{ intros v Hin. rewrite swap_items_keys in Hin.
      apply list_elem_of_fmap in Hin as ([k v'] & -> & Hkv). cbn [snd].
      rewrite Hnames, <- (Hg_key k v' Hkv). apply list_elem_of_fmap_2.
      apply Hkeys. by apply (list_elem_of_fmap_2 fst _ (k, v')). }
  cbn [rr_table rr_result rr_log]. rewrite Hno_warning.
  2:{ intros k Hin. rewrite swap_items_values in Hin. rewrite Hnames.
      intros Hmem. apply list_elem_of_fmap in Hmem as (n & Heq & Hn).
      unfold g in Heq. destruct (dict_get rename_map n) as [v|] eqn:Hget; cbn [default from_option id] in Heq.
      - subst v. apply (Hfresh k); [|by apply Hkeys].
        apply (list_elem_of_fmap_2 snd _ (n, k)). by apply dict_get_elem_of.
      - subst n. by apply (dict_get_key rename_map k). }
  assert (Hback : rename_columns (swap_items rename_map) (rename_columns rename_map df) = df).
  { rewrite !rename_columns_map_names, map_names_compose. apply map_names_id.
    intros n Hn. fold (g n). fold (g' (g n)). unfold g at 1.
    destruct (dict_get rename_map n) as [v|] eqn:Hget.
    - cbn [default from_option id]. unfold g'.
      rewrite (dict_get_nodup (swap_items rename_map) v n); [reflexivity | |].
      + by rewrite swap_items_keys.
      + by apply swap_items_elem_of, dict_get_elem_of.
    - cbn [default from_option id]. unfold g'. rewrite dict_get_none; [reflexivity|].
      rewrite swap_items_keys. intros Hin. by apply (Hfresh n). }
  rewrite Hback. by split_and!.
Qed.

End RenamerFurther.

Lemma pd_rename_cols_absent_keys_policy_witness :
  let rename_map := [(lit "a", lit "p"); (lit "zz", lit "w")] in
  let strict := pd_rename_cols ascii_only df_a_b_x rename_map false false in
  let lenient := pd_rename_cols ascii_only df_a_b_x rename_map false true in
  rr_result strict
    = Raise (PyException (lit "Missing keys: "
                            ++ str_list ascii_only (absent_keys df_a_b_x rename_map)
                            ++ lit ", cannot rename"))
  ∧ rr_map lenient = pruned_map df_a_b_x rename_map
  ∧ (∀ k, k ∈ absent_keys df_a_b_x rename_map → dict_get (rr_map lenient) k = None)
  ∧ rr_table lenient = rename_columns (pruned_map df_a_b_x rename_map) df_a_b_x
  ∧ rr_result lenient = Return (rr_table lenient).
Proof.
  apply (pd_rename_cols_absent_keys_policy ascii_only df_a_b_x
           [(lit "a", lit "p"); (lit "zz", lit "w")] false).
  - vm_compute. discriminate.
  - vm_compute. discriminate.
  - discriminate.
Defined.

Lemma pd_rename_cols_raises_after_deleting_witness :
  let run := pd_rename_cols ascii_only df_a_b_x_y two_onto_x_one_onto_y true false in
  (∃ e, rr_result run = Raise e
        ∧ (e = PyException (missing_keys_message ascii_only
                              (absent_keys df_a_b_x_y two_onto_x_one_onto_y))
           ∨ ∃ k, e = KeyError k))
  ∧ rr_map run = two_onto_x_one_onto_y
  ∧ lit "x" ∈ col_names df_a_b_x_y ∧ (lit "x" ∉ col_names (rr_table run)).
Proof.
  apply (pd_rename_cols_raises_after_deleting ascii_only df_a_b_x_y two_onto_x_one_onto_y
           (lit "x") [lit "x"; lit "y"]).
  - vm_compute. reflexivity.
  - vm_compute. discriminate.
Defined.

Lemma pd_rename_cols_override_distinct_witness :
  NoDup (col_names (rr_table (pd_rename_cols ascii_only df_a_b_x
                                [(lit "a", lit "x"); (lit "b", lit "c")] true false))).
Proof.
  apply (pd_rename_cols_override_distinct ascii_only df_a_b_x
           [(lit "a", lit "x"); (lit "b", lit "c")] false); by_decision.
Defined.


Lemma pd_rename_cols_round_trip_witness :
  let rename_map := [(lit "x", lit "p"); (lit "y", lit "q")] in
  let there := pd_rename_cols ascii_only df_x_y rename_map false false in
  let back := pd_rename_cols ascii_only (rr_table there) (swap_items rename_map)
                false false in
  rr_result there = Return (rr_table there) ∧ rr_log there = []
  ∧ rr_result back = Return df_x_y ∧ rr_table back = df_x_y ∧ rr_log back = [].
Proof.
  apply (pd_rename_cols_round_trip ascii_only df_x_y [(lit "x", lit "p"); (lit "y", lit "q")]).
  - vm_compute. discriminate.
  - by_decision.
  - by_decision.
  - apply Forall_forall. by_decision.
  - apply Forall_forall. by_decision.
Defined.

(** ** Further properties of the epoch converter *)

Lemma year_text (y : Z) :
  1000 <= y <= 9999 →
  ∃ a b c d, str_int y = [a; b; c; d] ∧ digits_value [a; b; c; d] = Some y.
Proof.
  intros Hy.
  assert (Hok : year_text_ok y = true).
  { apply (all_from_spec year_text_ok (Z.to_nat 9000) 1000); [vm_compute; reflexivity | lia]. }
  unfold year_text_ok in Hok.
  destruct (str_int y) as [|a [|b [|c [|d [|e rest]]]]]; try discriminate Hok.
  exists a, b, c, d. split; [reflexivity|].
  destruct (digits_value [a; b; c; d]) as [v|]; [|discriminate Hok].
  apply Z.eqb_eq in Hok. by subst v.
Qed.

Lemma field_text (v : Z) :
  0 <= v <= 99 →
  ∃ a b, zero_padded 2 v = [a; b] ∧ digits_value [a; b] = Some v.
Proof.
  intros Hv.
  assert (Hok : field_text_ok v = true).
  { apply (all_from_spec field_text_ok (Z.to_nat 100) 0); [vm_compute; reflexivity | lia]. }
  unfold field_text_ok in Hok.
  destruct (zero_padded 2 v) as [|a [|b [|c rest]]]; try discriminate Hok.
  exists a, b. split; [reflexivity|].
  destruct (digits_value [a; b]) as [w|]; [|discriminate Hok].
  apply Z.eqb_eq in Hok. by subst w.
Qed.

Lemma days_in_month_le (y m : Z) : 1 <= m <= 12 → _days_in_month y m <= 31.
Proof.
  intros Hm. unfold _days_in_month, _DAYS_IN_MONTH.
  destruct ((m =? 2) && _is_leap y); [lia|].
  assert (Hcases : m = 1 ∨ m = 2 ∨ m = 3 ∨ m = 4 ∨ m = 5 ∨ m = 6 ∨ m = 7 ∨ m = 8
                   ∨ m = 9 ∨ m = 10 ∨ m = 11 ∨ m = 12) by lia.
  repeat (destruct Hcases as [->|Hcases]; [lia|]). subst m. lia.
Qed.

(** Within a year the day of the year is at most 366, and at most 365
    outside leap years. *)
Lemma day_of_year_le (y m d : Z) :
  1 <= m <= 12 → d <= _days_in_month y m →
  _days_before_month y m + d <= 365 + (if _is_leap y then 1 else 0).
Proof.
  intros Hm. unfold _days_before_month, _days_in_month.
  assert (Hcases : m = 1 ∨ m = 2 ∨ m = 3 ∨ m = 4 ∨ m = 5 ∨ m = 6 ∨ m = 7 ∨ m = 8
                   ∨ m = 9 ∨ m = 10 ∨ m = 11 ∨ m = 12) by lia.
  destruct (_is_leap y);
    repeat (destruct Hcases as [->|Hcases]; [cbn; lia|]); subst m; cbn; lia.
Qed.

(** A date before year 1000 has an ordinal below that of 1 January
    1000. *)
Lemma ymd2ord_before_1000 (y m d : Z) :
  1 <= y <= 999 → 1 <= m <= 12 → d <= _days_in_month y m →
  _ymd2ord y m d < 364878.
Proof.
  intros Hy Hm Hd. pose proof (day_of_year_le y m d Hm Hd) as Hday.
  unfold _ymd2ord, _days_before_year. cbv zeta.
  destruct (Z.eq_dec y 999) as [->|Hne].
  - change (_is_leap 999) with false in Hday. cbv iota in Hday.
    change (999 - 1) with 998. change (998 / 4) with 249. change (998 / 100) with 9.
    change (998 / 400) with 2. lia.
  - assert ((y - 1) / 4 <= 249) by (apply Z.lt_succ_r, Z.div_lt_upper_bound; lia).
    assert ((y - 1) / 400 <= 2) by (apply Z.lt_succ_r, Z.div_lt_upper_bound; lia).
    assert (0 <= (y - 1) / 100) by (apply Z.div_pos; lia).
    revert Hday. destruct (_is_leap y); lia.
Qed.

Section EpochFurther.

Variable strftime_platform : datetime -> pystr -> pystr.


(** X22: for every instant from year 1000 to year 9999 the default
    format gives a text of 19 characters in the layout
    [YYYY-MM-DDTHH:MM:SS], whatever the platform's [strftime], and that
    text reads back as the valid date and time whose distance from the
    epoch is the input truncated to whole seconds. *)
Theorem convert_epoch_to_datetime_iso_round_trip (ms : Z) :
  ms ≠ 0 → -30610224000000 <= ms < 253402300800000 →
  ∃ text dt,
    convert_epoch_to_datetime strftime_platform (Some ms) ISO_8601_FORMAT
    = Return (Some text)
    ∧ length text = 19%nat
    ∧ parse_iso text = Some dt
    ∧ valid_datetime dt ∧ seconds_since_epoch dt = ms / 1000.
Proof.
  intros Hms Hrange. unfold convert_epoch_to_datetime.
  rewrite (proj2 (Z.eqb_neq ms 0) Hms).
  assert (Hsecs : -30610224000 <= ms / 1000 < 253402300800).
  { split; [apply Z.div_le_lower_bound | apply Z.div_lt_upper_bound]; lia. }
  destruct (epoch_plus_seconds (ms / 1000)) as (dt & -> & Hvalid & Hdist); [lia|].
  cbn [bind]. pose proof Hvalid as (Hy & Hm & Hd & Hh & Hmi & Hs).
  assert (Hyear : 1000 <= year dt).
  { destruct (Z_lt_le_dec (year dt) 1000) as [Hsmall|]; [exfalso | assumption].
    pose proof (ymd2ord_before_1000 (year dt) (month dt) (day dt)
                  ltac:(lia) Hm ltac:(lia)) as Hord.
    unfold seconds_since_epoch in Hdist. change (_ymd2ord 1970 1 1) with 719163 in Hdist.
    lia. }
  pose proof (days_in_month_le (year dt) (month dt) Hm) as Hdim.
  rewrite strftime_iso by exact Hyear.
  destruct (year_text (year dt)) as (y1 & y2 & y3 & y4 & -> & Hyv); [lia|].
  destruct (field_text (month dt)) as (m1 & m2 & -> & Hmv); [lia|].
  destruct (field_text (day dt)) as (d1 & d2 & -> & Hdv); [lia|].
  destruct (field_text (hour dt)) as (h1 & h2 & -> & Hhv); [lia|].
  destruct (field_text (minute dt)) as (n1 & n2 & -> & Hnv); [lia|].
  destruct (field_text (second dt)) as (s1 & s2 & -> & Hsv); [lia|].
  eexists _, dt. split; [reflexivity|]. split; [reflexivity|].
  split; [|by split].
  change (parse_iso _)
    with (match digits_value [y1; y2; y3; y4], digits_value [m1; m2], digits_value [d1; d2],
                digits_value [h1; h2], digits_value [n1; n2], digits_value [s1; s2] with
          | Some y, Some m, Some d, Some h, Some n, Some s => Some (mkDatetime y m d h n s)
          | _, _, _, _, _, _ => None
          end).
  rewrite Hyv, Hmv, Hdv, Hhv, Hnv, Hsv. by destruct dt.
Qed.

End EpochFurther.

Lemma convert_epoch_to_datetime_iso_round_trip_witness :
  ∃ text dt,
    convert_epoch_to_datetime library_strftime (Some 1700000000123) ISO_8601_FORMAT
    = Return (Some text)
    ∧ length text = 19%nat
    ∧ parse_iso text = Some dt
    ∧ valid_datetime dt ∧ seconds_since_epoch dt = 1700000000123 / 1000.
Proof.
  apply (convert_epoch_to_datetime_iso_round_trip library_strftime 1700000000123); lia.
Defined.

(** ** Further properties of the JSON loader *)

Lemma file_lines_from_length (s : pystr) :
  ∀ cur, (10%N ∉ cur) →
         length (file_lines_from cur s)
         = (newlines s + (if unterminated (cur ++ s) then 1 else 0))%nat.
Proof.
  induction s as [|c s IH]; intros cur Hcur; cbn [file_lines_from].
  - rewrite app_nil_r. unfold newlines, unterminated. cbn [filter list_filter length].
    destruct cur as [|c0 cur']; [reflexivity|]. cbn [length].
    destruct (last (c0 :: cur')) as [x|] eqn:Hlast.
    + apply last_Some in Hlast as [l' Hl'].
      assert (Hx : x ≠ 10%N).
      { intros ->. apply Hcur. rewrite Hl'. apply elem_of_app. right. apply list_elem_of_here. }
      by rewrite (proj2 (N.eqb_neq x 10) Hx).
    + by apply last_None in Hlast.
  - unfold newlines. rewrite filter_cons. destruct (N.eqb_spec c 10) as [->|Hc].
    + cbn [length]. rewrite (IH [] (not_elem_of_nil _)). cbn [app].
      rewrite decide_True by reflexivity. cbn [length]. unfold newlines. do 2 f_equal.
      unfold unterminated. rewrite last_app, last_cons.
      by destruct (last s).
    + rewrite decide_False by exact Hc.
      rewrite IH.
      * unfold newlines. by rewrite <- app_assoc.
      * rewrite elem_of_app, list_elem_of_singleton. intros [H|H]; [by apply Hcur | by apply Hc].
Qed.

(** A blank line of the text is a line of the file. *)
Lemma file_lines_from_blank (a b : pystr) :
  ∀ cur, [10%N] ∈ file_lines_from cur (a ++ [10%N; 10%N] ++ b).
Proof.
  induction a as [|c a IH]; intros cur; cbn [app file_lines_from].
  - change (10 =? 10)%N with true. cbv iota.
    apply list_elem_of_further, list_elem_of_here.
  - destruct (c =? 10)%N; [apply list_elem_of_further|]; apply IH.
Qed.

Section JsonFurther.

Variable json : Type.
Variable json_loads : pystr -> option json.
Variable fs : pystr -> option pystr.

Lemma decode_lines_sound (lines : list pystr) :
  ∀ lineno vs, decode_lines json json_loads lineno lines = Return vs →
               Forall2 (fun line v => json_loads line = Some v) lines vs.
Proof.
  induction lines as [|line lines IH]; intros lineno vs; cbn [decode_lines].
  - intros [= <-]. constructor.
  - unfold decode_line. destruct (json_loads line) as [v|] eqn:Hline; cbn [bind]; [|discriminate].
    destruct (decode_lines json json_loads (S lineno) lines) as [vs'|e] eqn:Hrest;
      cbn [bind]; [|discriminate].
    intros [= <-]. constructor; [exact Hline | by eapply IH].
Qed.

Lemma decode_lines_rejected (lines : list pystr) (line : pystr) :
  line ∈ lines → json_loads line = None →
  ∀ lineno, ∃ n, decode_lines json json_loads lineno lines = Raise (JSONDecodeError n)
                 ∧ (lineno <= n < lineno + length lines)%nat.
Proof.
  intros Hin Hbad. induction lines as [|l lines IH]; intros lineno.
  - by apply elem_of_nil in Hin.
  - cbn [decode_lines length]. unfold decode_line.
    destruct (json_loads l) as [v|] eqn:Hl; cbn [bind].
    + apply elem_of_cons in Hin as [->|Hin]; [congruence|].
      destruct (IH Hin (S lineno)) as (n & -> & Hn). cbn [bind]. exists n. split; [reflexivity | lia].
    + exists lineno. split; [reflexivity | lia].
Qed.

(** X23: the loader returns a list exactly when the file opens and every
    one of its lines decodes, and the list is then the decoded lines in
    order: no line is skipped, blank ones included, and nothing is
    returned that is not the decoding of a line. *)
Theorem load_json_returns_iff (file_path : pystr) (vs : list json) :
  load_json json json_loads fs file_path = Return vs
  ↔ ∃ text, fs file_path = Some text
            ∧ Forall2 (fun line v => json_loads line = Some v) (file_lines text) vs.
Proof.
  unfold load_json. split.
  - destruct (fs file_path) as [text|]; [|discriminate].
    intros Hvs. exists text. split; [reflexivity | by eapply decode_lines_sound].
  - intros (text & -> & Hvs). by apply decode_lines_all.
Qed.

(** X24: a blank line makes the whole load fail when the decoder rejects
    an empty document, as [json.loads] does: a text that starts with a
    newline or has two newlines in a row raises the decoder's error. *)
Theorem load_json_blank_line (file_path text : pystr) :
  fs file_path = Some text → json_loads [10%N] = None →
  (∃ a b, text = a ++ [10%N; 10%N] ++ b) ∨ (∃ b, text = 10%N :: b) →
  ∃ n, load_json json json_loads fs file_path = Raise (JSONDecodeError n)
       ∧ (n < length (file_lines text))%nat.
Proof.
  intros Hopen Hblank Htext. unfold load_json. rewrite Hopen.
  assert (Hline : [10%N] ∈ file_lines text).
  { destruct Htext as [(a & b & ->)|(b & ->)].
    - apply file_lines_from_blank.
    - unfold file_lines. cbn [file_lines_from]. change (10 =? 10)%N with true. cbv iota.
      apply list_elem_of_here. }
  destruct (decode_lines_rejected (file_lines text) [10%N] Hline Hblank 0) as (n & -> & Hn).
  exists n. split; [reflexivity | lia].
Qed.

(** X25: the list the loader returns has one value per newline of the
    file, and one more when the file ends in a line without a newline:
    an unterminated last line is decoded like the others, and an empty
    file gives the empty list. *)
Theorem load_json_length (file_path text : pystr) (vs : list json) :
  fs file_path = Some text →
  load_json json json_loads fs file_path = Return vs →
  length vs = (newlines text + (if unterminated text then 1 else 0))%nat
  ∧ (text = [] → vs = []).
Proof.
  intros Hopen Hvs. unfold load_json in Hvs. rewrite Hopen in Hvs.
  apply decode_lines_sound in Hvs as Hall.
  split.
  - rewrite <- (Forall2_length _ _ _ Hall). unfold file_lines.
    by rewrite file_lines_from_length by apply not_elem_of_nil.
  - intros ->. by inversion Hall.
Qed.

End JsonFurther.

Lemma load_json_blank_line_witness :
  ∃ n, load_json pystr digits_loads blank_line_file (lit "rows.jsonl")
       = Raise (JSONDecodeError n)
       ∧ (n < length (file_lines (lit "1" ++ [10%N; 10%N] ++ lit "22" ++ [10%N])))%nat.
Proof.
  apply (load_json_blank_line pystr digits_loads blank_line_file (lit "rows.jsonl")
           (lit "1" ++ [10%N; 10%N] ++ lit "22" ++ [10%N])).
  - reflexivity.
  - reflexivity.
  - left. exists (lit "1"), (lit "22" ++ [10%N]). reflexivity.
Defined.

Lemma load_json_length_witness :
  length [lit "1"; lit "22"]
  = (newlines (lit "1" ++ [10%N] ++ lit "22" ++ [10%N])
     + (if unterminated (lit "1" ++ [10%N] ++ lit "22" ++ [10%N]) then 1 else 0))%nat
  ∧ (lit "1" ++ [10%N] ++ lit "22" ++ [10%N] = [] → [lit "1"; lit "22"] = []).
Proof.
  apply (load_json_length pystr digits_loads one_file (lit "rows.jsonl")
           (lit "1" ++ [10%N] ++ lit "22" ++ [10%N]) [lit "1"; lit "22"]).
  - reflexivity.
  - reflexivity.
Defined.
